(** * Chatbot_FidOuest backend: provider adapters, pricing and the chat service

    A shallow embedding of the backend core of the repository:

    - [backend/pricing.js]                    (module [Pricing])
    - [backend/services/DocumentExtractor.js] (module [DocumentExtractor])
    - [backend/adapters/MistralAdapter.js]    (module [Mistral])
    - [backend/adapters/ChatGPTAdapter.js]    (module [ChatGPT])
    - [backend/db.ts]                         (module [Db])
    - [backend/services/ChatService.js]       (module [ChatService])
    - [backend/security/permissions.ts]       (module [Permissions])
    - [backend/index.js], the routes          (module [Server])
    - [frontend/src/services/history.ts], [context.ts],
      [hooks/useAttachments.ts]               (module [Frontend])

    Conventions of the embedding.

    - A JavaScript string is a [string]; [String.length] stands for the
      [.length] of the source.  [toLowerCase] and [trim] act on the ASCII
      range; where the chat side of the ChatGPT adapter trims and
      upper-cases free text, [trim] and [toUpperCase] are parameters.
    - A thrown [Error] is a record holding its [message] and optional
      [status]; an [async] function that can reject returns a [Res].
    - Token counts are integers ([Z]); money is an exact rational ([Q]), so
      the rounding of IEEE doubles in intermediate products is not part of
      the model, only the final [toFixed(6)].
    - Remote collaborators (the provider SDK clients, the SQL store) are
      explicit state: a client is a record of transition functions over an
      arbitrary state type, the store is a finite map of rows.
    - [console.log]/[warn]/[error] output is not modelled. *)

From Stdlib Require Import ZArith QArith Qround Lia Lqa.
From Stdlib Require Import Strings.String Strings.Ascii Lists.List.
From stdpp Require Import base option list strings gmap pretty.

Import ListNotations.
Local Open Scope string_scope.
Local Open Scope Z_scope.

(* ===================================================================== *)
(** ** JavaScript strings *)
(* ===================================================================== *)

Module JsString.

(** The line feed of the template literals. *)
Definition nl : string := String "010"%char EmptyString.

Definition lower_ascii (a : ascii) : ascii :=
  let n := N_of_ascii a in
  if ((65 <=? n) && (n <=? 90))%N then ascii_of_N (n + 32) else a.

(** [s.toLowerCase()] *)
Fixpoint toLowerCase (s : string) : string :=
  match s with
  | EmptyString => EmptyString
  | String a s' => String (lower_ascii a) (toLowerCase s')
  end.

(** White space removed by [trim]: TAB, LF, VT, FF, CR and SPACE. *)
Definition is_ws (a : ascii) : bool :=
  let n := N_of_ascii a in
  (((9 <=? n) && (n <=? 13)) || (n =? 32))%N.

Fixpoint trimStart (s : string) : string :=
  match s with
  | EmptyString => EmptyString
  | String a s' => if is_ws a then trimStart s' else s
  end.

Fixpoint trimEnd (s : string) : string :=
  match s with
  | EmptyString => EmptyString
  | String a s' =>
      let t := trimEnd s' in
      if is_ws a && String.eqb t EmptyString then EmptyString else String a t
  end.

(** [s.trim()] *)
Definition trim (s : string) : string := trimEnd (trimStart s).

(** [s.startsWith(p)] *)
Definition startsWith (s p : string) : bool := String.prefix p s.

(** [s.includes(p)] *)
Fixpoint includes (s p : string) : bool :=
  String.prefix p s ||
  match s with
  | EmptyString => false
  | String _ s' => includes s' p
  end.

(** [s.endsWith(p)] *)
Definition endsWith (s p : string) : bool :=
  (String.length p <=? String.length s)%nat &&
  String.eqb (String.substring (String.length s - String.length p)
                               (String.length p) s) p.

(** [s.slice(0, n)] for [n] within or beyond the string. *)
Definition slice0 (n : nat) (s : string) : string := String.substring 0 n s.

(** [xs.join(sep)] on an array of strings. *)
Fixpoint join (sep : string) (xs : list string) : string :=
  match xs with
  | [] => EmptyString
  | [x] => x
  | x :: rest => x ++ sep ++ join sep rest
  end.

(** [(name.split('.').pop() ?? '')]: what follows the last dot, the whole
    string when there is none. *)
Fixpoint lastSegment (acc s : string) : string :=
  match s with
  | EmptyString => acc
  | String a s' =>
      if Ascii.eqb a "."%char then lastSegment s' s'
      else lastSegment acc s'
  end.

Definition splitPop (s : string) : string := lastSegment s s.

End JsString.

(* ===================================================================== *)
(** ** Errors and results *)
(* ===================================================================== *)

(** A JavaScript [Error]: its message, and the HTTP [status] an SDK error
    may carry. *)
Record JsError := mkJsError { message : string; status : option Z }.

Definition newError (msg : string) : JsError := mkJsError msg None.

(** The settled state of a promise. *)
Inductive Res (X : Type) : Type :=
  | Ok (x : X)
  | Err (e : JsError).
Arguments Ok {X} x.
Arguments Err {X} e.

Definition isOk {X} (r : Res X) : bool :=
  match r with Ok _ => true | Err _ => false end.
Definition isErr {X} (r : Res X) : bool := negb (isOk r).

(** A JavaScript number where its finiteness is tested: a rational, or one
    of the three values that are not finite. *)
Inductive JsNumber :=
  | Finite (q : Q)
  | NaN
  | PosInfinity
  | NegInfinity.

(** [Number.isFinite(x)] *)
Definition Number_isFinite (x : JsNumber) : bool :=
  match x with Finite _ => true | _ => false end.

(** [a >= b]; any comparison with [NaN] is false. *)
Definition js_ge (a b : JsNumber) : bool :=
  match a, b with
  | NaN, _ | _, NaN => false
  | PosInfinity, _ => true
  | _, NegInfinity => true
  | NegInfinity, _ => false
  | _, PosInfinity => false
  | Finite x, Finite y => Qle_bool y x
  end.

(* ===================================================================== *)
(** ** backend/pricing.js *)
(* ===================================================================== *)

Module Pricing.
Local Open Scope Q_scope.

(** The usage object as the providers report it.  A field that is absent
    (or [null]) is [None]; the nested [*_details.cached_tokens] paths are
    flattened into one field each. *)
Record Usage := mkUsage {
  input_tokens : option Z;
  output_tokens : option Z;
  prompt_tokens : option Z;
  completion_tokens : option Z;
  total_tokens : option Z;
  input_tokens_details_cached_tokens : option Z;
  input_token_details_cached_tokens : option Z;
  prompt_tokens_details_cached_tokens : option Z
}.

Definition emptyUsage : Usage :=
  mkUsage None None None None None None None None.

(** [const USD_PER_MILLION = (n) => Number(n) / 1_000_000] *)
Definition USD_PER_MILLION (n : Q) : Q := n / 1000000.

Inductive ModelKey :=
  | gpt_5 | gpt_4o_mini | mistral_small | mistral_medium | mistral_large.

Record Prices := mkPrices { p_in : Q; p_cache : option Q; p_out : Q }.

(** [DEFAULT_PRICING], with none of the [PRICE_*] environment variables
    set (USD per million tokens). *)
Definition DEFAULT_PRICING (k : ModelKey) : Prices :=
  match k with
  | gpt_5          => mkPrices (5 # 4)  (Some (1 # 8))  10
  | gpt_4o_mini    => mkPrices (3 # 20) (Some (3 # 40)) (3 # 5)
  | mistral_small  => mkPrices (1 # 10) None (3 # 10)
  | mistral_medium => mkPrices (2 # 5)  None 2
  | mistral_large  => mkPrices (1 # 2)  None (3 # 2)
  end.

(** [resolveModelKey]: [null] is [None]. *)
Definition resolveModelKey (model : string) : option ModelKey :=
  let m := JsString.trim (JsString.toLowerCase model) in
  if JsString.startsWith m "gpt-5" then Some gpt_5
  else if JsString.startsWith m "gpt-4o-mini" then Some gpt_4o_mini
  else if JsString.includes m "mistral-small" || JsString.includes m "mistral-tiny"
       then Some mistral_small
  else if JsString.includes m "mistral-medium" then Some mistral_medium
  else if JsString.includes m "mistral-large" then Some mistral_large
  else None.

(** [a ?? b] on an optional field. *)
Definition nullish {X} (a : option X) (b : X) : X :=
  match a with Some x => x | None => b end.

(** [a || b] on numbers: [a] when it is truthy (non-zero). *)
Definition orElse (a b : Z) : Z := if (a =? 0)%Z then b else a.

Record Extracted := mkExtracted {
  input : Z; output : Z; cached : Z; nonCached : Z
}.

(** The three raw counts of [extractUsage], before clamping. *)
Definition inputR (u : Usage) : Z := nullish (input_tokens u) 0%Z.
Definition outputR (u : Usage) : Z := nullish (output_tokens u) 0%Z.
Definition cachedR (u : Usage) : Z :=
  match input_tokens_details_cached_tokens u with
  | Some c => c
  | None => nullish (input_token_details_cached_tokens u) 0%Z
  end.
Definition inputC (u : Usage) : Z := nullish (prompt_tokens u) 0%Z.
Definition outputC (u : Usage) : Z := nullish (completion_tokens u) 0%Z.
Definition cachedC (u : Usage) : Z :=
  match prompt_tokens_details_cached_tokens u with
  | Some c => c
  | None =>
      match input_tokens_details_cached_tokens u with
      | Some c => c
      | None => nullish (input_token_details_cached_tokens u) 0%Z
      end
  end.

Definition rawInput (u : Usage) : Z := orElse (orElse (inputR u) (inputC u)) 0.
Definition rawOutput (u : Usage) : Z := orElse (orElse (outputR u) (outputC u)) 0.
Definition rawCached (u : Usage) : Z := orElse (orElse (cachedR u) (cachedC u)) 0.

(** [extractUsage]; the argument is [None] for a falsy [usage]. *)
Definition extractUsage (usage : option Usage) : Extracted :=
  match usage with
  | None => mkExtracted 0 0 0 0
  | Some u =>
      let input := rawInput u in
      let output := rawOutput u in
      let cached := rawCached u in
      let cachedClamped := Z.max 0 (Z.min cached input) in
      let nonCached := Z.max 0 (input - cachedClamped) in
      mkExtracted input output cachedClamped nonCached
  end.

(** [Number(total.toFixed(6))]: the nearest multiple of 1e-6, a tie going
    away from zero. *)
Definition toFixed6 (x : Q) : Q :=
  if Qle_bool 0 x
  then Qfloor (x * 1000000 + (1 # 2)) # 1000000
  else (- Qfloor ((- x) * 1000000 + (1 # 2)))%Z # 1000000.

(** [computeCostFromUsage] *)
Definition computeCostFromUsage (usage : option Usage) (model : string) : Q :=
  match resolveModelKey model with
  | None => 0
  | Some key =>
      let prices := DEFAULT_PRICING key in
      let e := extractUsage usage in
      match p_cache prices with
      | Some cache =>
          let inputCost := USD_PER_MILLION (p_in prices) * inject_Z (nonCached e) in
          let cachedCost := USD_PER_MILLION cache * inject_Z (cached e) in
          let outputCost := USD_PER_MILLION (p_out prices) * inject_Z (output e) in
          let total := inputCost + cachedCost + outputCost in
          toFixed6 total
      | None =>
          let inputCost := USD_PER_MILLION (p_in prices) * inject_Z (input e) in
          let outputCost := USD_PER_MILLION (p_out prices) * inject_Z (output e) in
          let total := inputCost + outputCost in
          toFixed6 total
      end
  end.

End Pricing.

(* ===================================================================== *)
(** ** Asynchronous code: state and rejection *)
(* ===================================================================== *)

(** An [async] function over collaborators in state [S]: it settles to a
    value or to a thrown error, and leaves a new state either way (what was
    done before a rejection stays done). *)
Definition Async (S X : Type) : Type := S -> Res X * S.

Definition ret {S X} (x : X) : Async S X := fun s => (Ok x, s).

Definition throw {S X} (e : JsError) : Async S X := fun s => (Err e, s).

Definition bind {S X Y} (m : Async S X) (k : X -> Async S Y) : Async S Y :=
  fun s =>
    match m s with
    | (Ok x, s') => k x s'
    | (Err e, s') => (Err e, s')
    end.

(** [try { m } catch (e) { h e }] *)
Definition tryCatch {S X} (m : Async S X) (h : JsError -> Async S X) : Async S X :=
  fun s =>
    match m s with
    | (Ok x, s') => (Ok x, s')
    | (Err e, s') => h e s'
    end.

Declare Scope async_scope.
Delimit Scope async_scope with async.
Notation "'await' x ':=' m 'in' k" := (bind m (fun x => k))
  (at level 10, x name, m at level 100, k at level 200) : async_scope.
Notation "'await_' m 'in' k" := (bind m (fun _ => k))
  (at level 10, m at level 100, k at level 200) : async_scope.
Local Open Scope async_scope.

(* ===================================================================== *)
(** ** backend/adapters/BaseAdapter.js: the standardized shapes *)
(* ===================================================================== *)

Record StandardizedMessage := mkMessage { role : string; content : string }.

Record ChatRequest := mkChatRequest {
  messages : list StandardizedMessage;
  file_ids : list string;
  model : string
}.

Record StandardizedResponse := mkResponse {
  resp_content : string;
  resp_usage : option Pricing.Usage;
  tokensUsed : Z
}.

(** A file as multer hands it over. *)
Record UploadFile := mkUploadFile {
  buffer : list Byte.byte;
  originalname : string;
  size : Z
}.

Record UploadedFile := mkUploadedFile {
  up_name : string;
  up_size : Z;
  file_id : string
}.

(** The contract of [BaseAdapter], over the state [A] of the concrete
    adapter (its SDK client and caches). *)
Class BaseAdapter (A : Type) := {
  sendChatRequest : ChatRequest -> Async A StandardizedResponse;
  uploadFiles : list UploadFile -> Async A (list UploadedFile);
  deleteFile : string -> Async A unit;
  extractTextFromFile : string -> Async A string;
  getProviderName : string
}.

(* ===================================================================== *)
(** ** backend/services/DocumentExtractor.js *)
(* ===================================================================== *)

Module DocumentExtractor.

(** [isSupportedFormat(originalname, mimetype)] *)
Definition isSupportedFormat (originalname mimetype : string) : bool :=
  let filename := JsString.toLowerCase originalname in
  JsString.endsWith filename ".pdf" ||
  JsString.endsWith filename ".docx" ||
  JsString.endsWith filename ".png" ||
  JsString.endsWith filename ".jpg" ||
  JsString.endsWith filename ".jpeg" ||
  JsString.endsWith filename ".webp" ||
  JsString.includes mimetype "pdf" ||
  JsString.includes mimetype "wordprocessingml" ||
  JsString.includes mimetype "vnd.openxmlformats" ||
  JsString.startsWith mimetype "image/".

Definition emptyFileError : JsError := newError "Fichier vide".

Definition unsupportedFormatError (originalname : string) : JsError :=
  newError ("Format non supporté: " ++ originalname ++ ". " ++
            "Formats acceptés: PDF, DOCX, PNG, JPG, JPEG, WEBP").

(** [validateFile(buffer, originalname)]: [Ok tt] when nothing is thrown. *)
Definition validateFile (buffer : list Byte.byte) (originalname : string) : Res unit :=
  if (List.length buffer =? 0)%nat then Err emptyFileError
  else if negb (isSupportedFormat originalname "")
  then Err (unsupportedFormatError originalname)
  else Ok tt.

End DocumentExtractor.

(* ===================================================================== *)
(** ** backend/adapters/MistralAdapter.js *)
(* ===================================================================== *)

Module Mistral.

(** An element of [response.contents] or [response.pages] as the adapter
    reads it: a string, or an object of which it reads [text] and
    [content] (strings when present) and which it may print with
    [JSON.stringify] ([item_json] is that text). *)
Inductive OcrItem :=
  | ItemString (s : string)
  | ItemObject (text content : option string) (item_json : string).

(** [response.contents]: an array, a string, or anything else (absent
    included). *)
Inductive OcrContents :=
  | ContentsArray (items : list OcrItem)
  | ContentsString (s : string)
  | ContentsOther.

(** What [client.ocr.process] resolves to: a falsy value, a string, or an
    object with its [contents], its [pages] when that is an array, and
    its [JSON.stringify] text. *)
Inductive OcrResponse :=
  | RespFalsy
  | RespString (s : string)
  | RespObject (contents : OcrContents) (pages : option (list OcrItem))
               (resp_json : string).

(** What [client.chat.complete] resolves to: [choices[0].message] when
    there is one (with its [content], possibly [null]) and [usage]. *)
Record MistralUsage := mkMistralUsage {
  totalTokens : option Z;
  promptTokens : option Z;
  completionTokens : option Z
}.

Record Completion := mkCompletion {
  choice0_message : option (option string);
  usage : option MistralUsage
}.

(** The calls made on the SDK client, in order. *)
Inductive Call :=
  | CallUpload (fileName : string) (content : list Byte.byte)
  | CallOcr (fileId : string)
  | CallDelete (fileId : string)
  | CallChat (model : string) (messages : list StandardizedMessage) (maxTokens : Z).

Section Adapter.

(** The remote side: any state [C] and any behaviour of the four
    endpoints the adapter uses. *)
Variable C : Type.

Record Client := mkClient {
  files_upload : string -> list Byte.byte -> C -> Res string * C;
  ocr_process : string -> C -> Res OcrResponse * C;
  files_delete : string -> C -> Res unit * C;
  chat_complete : string -> list StandardizedMessage -> Z -> C -> Res Completion * C
}.

Record State := mkState { remote : C; calls : list Call }.

Variable client : Client.
(** [this.maxTokens] *)
Variable maxTokens : Z.

Definition perform {X} (c : Call) (f : C -> Res X * C) : Async State X :=
  fun st =>
    let (r, c') := f (remote st) in
    (r, mkState c' (calls st ++ [c])).

(** The body of the loop of [uploadFiles] for one file, with its
    [catch] that rewraps the error. *)
Definition uploadOne (file : UploadFile) : Async State UploadedFile :=
  tryCatch
    (match DocumentExtractor.validateFile (buffer file) (originalname file) with
     | Err e => throw e
     | Ok _ =>
         await uploadedId :=
           perform (CallUpload (originalname file) (buffer file))
                   (files_upload client (originalname file) (buffer file)) in
         ret (mkUploadedFile (originalname file) (size file) uploadedId)
     end)
    (fun error =>
       throw (newError ("Erreur upload " ++ originalname file ++ ": " ++ message error))).

Fixpoint uploadLoop (files : list UploadFile) (results : list UploadedFile)
  : Async State (list UploadedFile) :=
  match files with
  | [] => ret results
  | file :: rest =>
      await r := uploadOne file in
      uploadLoop rest (results ++ [r])
  end.

Definition noFilesError : JsError := newError "Aucun fichier fourni".

(** [uploadFiles(files)] *)
Definition uploadFiles (files : list UploadFile) : Async State (list UploadedFile) :=
  match files with
  | [] => throw noFilesError
  | first :: _ =>
      match DocumentExtractor.validateFile (buffer first) (originalname first) with
      | Err e => throw e
      | Ok _ => uploadLoop files []
      end
  end.

(** [if (c?.text) return c.text]: a field counts when it is a non-empty
    string. *)
Definition truthyField (f : option string) : option string :=
  match f with
  | Some s => if String.eqb s "" then None else Some s
  | None => None
  end.

(** The callback of [response.contents.map]. *)
Definition contentText (c : OcrItem) : string :=
  match c with
  | ItemString s => s
  | ItemObject text content json =>
      match truthyField text with
      | Some t => t
      | None =>
          match truthyField content with
          | Some t => t
          | None => json
          end
      end
  end.

(** The callback of [response.pages.map] for the page of index [i]. *)
Definition pageText (i : nat) (p : OcrItem) : string :=
  match p with
  | ItemString s => s
  | ItemObject text content json =>
      match truthyField content with
      | Some t => t
      | None =>
          match truthyField text with
          | Some t => t
          | None => "[Page " ++ pretty (i + 1)%nat ++ "] " ++ json
          end
      end
  end.

Definition nonEmpty (t : string) : bool := negb (String.eqb t "").

(** The chain of formats 1 to 5 of [extractTextFromFile]; the argument
    is a truthy response. *)
Definition extractedText (response : OcrResponse) : string :=
  match response with
  | RespFalsy => ""
  | RespString s => s
  | RespObject contents pages json =>
      match contents with
      | ContentsArray items =>
          JsString.join (JsString.nl ++ JsString.nl)
            (List.filter nonEmpty (List.map contentText items))
      | ContentsString s =>
          if nonEmpty s then s
          else match pages with
               | Some ps => JsString.join (JsString.nl ++ JsString.nl) (imap pageText ps)
               | None => json
               end
      | ContentsOther =>
          match pages with
          | Some ps => JsString.join (JsString.nl ++ JsString.nl) (imap pageText ps)
          | None => json
          end
      end
  end.

(** [!response] *)
Definition falsy (response : OcrResponse) : bool :=
  match response with
  | RespFalsy => true
  | RespString s => String.eqb s ""
  | RespObject _ _ _ => false
  end.

Definition emptyOcrError : JsError := newError "Réponse OCR vide".
Definition noTextError : JsError :=
  newError "Le fichier n'a pu être traité par OCR - peut-être un format non supporté ou un fichier corrompu".
Definition ocrError (error : JsError) : JsError :=
  newError ("Erreur OCR: " ++ message error).

(** [extractTextFromFile(fileId)] *)
Definition extractTextFromFile (fileId : string) : Async State string :=
  tryCatch
    (await response := perform (CallOcr fileId) (ocr_process client fileId) in
     if falsy response then throw emptyOcrError
     else
       let extractedText := extractedText response in
       if String.eqb extractedText "" then throw noTextError
       else ret extractedText)
    (fun error => throw (ocrError error)).

(** [deleteFile(fileId)]: the [catch] only logs. *)
Definition deleteFile (fileId : string) : Async State unit :=
  tryCatch
    (perform (CallDelete fileId) (files_delete client fileId))
    (fun error => ret tt).

Definition truncationMarker : string :=
  JsString.nl ++ "[... contenu tronqué ...]".

(** The per-file cut of [sendChatRequest]. *)
Definition truncate (extractedText : string) : string :=
  if (5000 <? String.length extractedText)%nat
  then JsString.slice0 5000 extractedText ++ truncationMarker
  else extractedText.

Definition documentHeader : string :=
  JsString.nl ++ JsString.nl ++ "--- DOCUMENTS ATTACHÉS ---" ++ JsString.nl.

Definition fileSection (fileId truncated : string) : string :=
  JsString.nl ++ "[Fichier: " ++ fileId ++ "]" ++ JsString.nl ++ truncated ++ JsString.nl.

Definition fileErrorSection (fileId : string) : string :=
  JsString.nl ++ "[Fichier: " ++ fileId ++ "] - Erreur d'extraction" ++ JsString.nl.

(** One turn of the [for (const fileId of file_ids)] loop: the new
    [documentContext]. *)
Definition attachFile (fileId documentContext : string) : Async State string :=
  tryCatch
    (await extractedText := extractTextFromFile fileId in
     let truncated := truncate extractedText in
     let documentContext := documentContext ++ fileSection fileId truncated in
     await_ tryCatch (deleteFile fileId) (fun deleteError => ret tt) in
     ret documentContext)
    (fun error => ret (documentContext ++ fileErrorSection fileId)).

Fixpoint attachFiles (file_ids : list string) (documentContext : string)
  : Async State string :=
  match file_ids with
  | [] => ret documentContext
  | fileId :: rest =>
      await documentContext := attachFile fileId documentContext in
      attachFiles rest documentContext
  end.

(** [mistralMessages[lastIdx].content += documentContext] when the last
    message is the user's. *)
Fixpoint appendToLastUser (mistralMessages : list StandardizedMessage)
  (documentContext : string) : list StandardizedMessage :=
  match mistralMessages with
  | [] => []
  | [m] =>
      if String.eqb (role m) "user"
      then [mkMessage (role m) (content m ++ documentContext)]
      else [m]
  | m :: rest => m :: appendToLastUser rest documentContext
  end.

Definition noMessagesError : JsError :=
  newError "Le tableau messages est requis et ne peut pas être vide".
Definition invalidResponseError : JsError :=
  newError "Réponse Mistral invalide ou vide".

(** The [catch] around the API call. *)
Definition mapApiError (error : JsError) : JsError :=
  match status error with
  | Some 401 => newError "Clé API Mistral invalide ou manquante"
  | Some 429 => newError "Limite de taux API Mistral atteinte. Veuillez réessayer plus tard."
  | Some 400 => newError ("Requête invalide envoyée à Mistral: " ++ message error)
  | _ => newError ("Erreur Mistral: " ++ message error)
  end.

Definition standardizeUsage (u : MistralUsage) : Pricing.Usage :=
  Pricing.mkUsage None None
    (Some (Pricing.nullish (promptTokens u) 0))
    (Some (Pricing.nullish (completionTokens u) 0))
    (Some (Pricing.nullish (totalTokens u) 0))
    None None None.

(** [sendChatRequest(request)] *)
Definition sendChatRequest (request : ChatRequest) : Async State StandardizedResponse :=
  match messages request with
  | [] => throw noMessagesError
  | _ =>
      let mistralMessages :=
        List.map (fun m => mkMessage (role m) (content m)) (messages request) in
      await mistralMessages :=
        (match file_ids request with
         | [] => ret mistralMessages
         | _ =>
             await documentContext := attachFiles (file_ids request) documentHeader in
             ret (appendToLastUser mistralMessages documentContext)
         end) in
      tryCatch
        (let model := if String.eqb (model request) "" then "mistral-large-latest"
                      else model request in
         await response :=
           perform (CallChat model mistralMessages maxTokens)
                   (chat_complete client model mistralMessages maxTokens) in
         match choice0_message response with
         | None => throw invalidResponseError
         | Some content =>
             ret (mkResponse
                    (Pricing.nullish content "")
                    (option_map standardizeUsage (usage response))
                    (match usage response with
                     | Some u => Pricing.nullish (totalTokens u) 0
                     | None => 0
                     end))
         end)
        (fun error => throw (mapApiError error))
  end.

End Adapter.

Arguments mkState {C}.
Arguments remote {C}.
Arguments calls {C}.

(** [class MistralAdapter extends BaseAdapter] *)
#[export] Instance adapter {C} (client : Client C) (maxTokens : Z)
  : BaseAdapter (State C) :=
  Build_BaseAdapter (State C)
    (sendChatRequest C client maxTokens)
    (uploadFiles C client)
    (deleteFile C client)
    (extractTextFromFile C client)
    "Mistral".

(** An entry of the answer of [client.files.list()]. *)
Record StoredFile := mkStoredFile { id : string; filename : option string }.

(** What [deleteAllFiles] resolves to. *)
Record CleanupResult := mkCleanupResult { deleted : Z; failed : Z }.

Section Cleanup.

Variable C : Type.
Variable client : Client C.
(** [client.files.list()]: the [data] of the answer, [None] when the
    answer or its [data] is nullish.  [calls] keeps to the four endpoints
    of [Client]: the listing only moves the remote side. *)
Variable files_list : C -> Res (option (list StoredFile)) * C.

Definition listFiles : Async (State C) (option (list StoredFile)) :=
  fun st =>
    let (r, c') := files_list (remote st) in
    (r, mkState c' (calls st)).

(** The [for (const file of files)] loop of [deleteAllFiles], with its
    two counters. *)
Fixpoint deleteLoop (files : list StoredFile) (deleted failed : Z)
  : Async (State C) CleanupResult :=
  match files with
  | [] => ret (mkCleanupResult deleted failed)
  | file :: rest =>
      await counters :=
        tryCatch
          (await_ perform C (CallDelete (id file)) (files_delete C client (id file)) in
           ret (deleted + 1, failed))
          (fun error => ret (deleted, failed + 1)) in
      deleteLoop rest (fst counters) (snd counters)
  end.

(** [deleteAllFiles()] *)
Definition deleteAllFiles : Async (State C) CleanupResult :=
  tryCatch
    (await response := listFiles in
     let files := Pricing.nullish response [] in
     match files with
     | [] => ret (mkCleanupResult 0 0)
     | _ => deleteLoop files 0 0
     end)
    (fun error => ret (mkCleanupResult 0 0)).

End Cleanup.

End Mistral.

(* ===================================================================== *)
(** ** backend/adapters/ChatGPTAdapter.js *)
(* ===================================================================== *)

Module ChatGPT.

Inductive Call :=
  | CallCreate (fileName : string) (content : list Byte.byte)
  | CallDelete (fileId : string).

Section Adapter.

Variable C : Type.

(** The endpoints of the OpenAI client used by the file operations;
    [files_create] stands for [toFile] followed by
    [client.files.create]. *)
Record Client := mkClient {
  files_create : string -> list Byte.byte -> C -> Res string * C;
  files_delete : string -> C -> Res unit * C
}.

(** [this.client] with the calls made on it, and [this.fileMetaById]
    (file id to name and extension). *)
Record State := mkState {
  remote : C;
  calls : list Call;
  fileMetaById : gmap string (string * string)
}.

Variable client : Client.

Definition perform {X} (c : Call) (f : C -> Res X * C) : Async State X :=
  fun st =>
    let (r, c') := f (remote st) in
    (r, mkState c' (calls st ++ [c]) (fileMetaById st)).

Definition setMeta (id name ext : string) : Async State unit :=
  fun st => (Ok tt, mkState (remote st) (calls st) (<[id := (name, ext)]> (fileMetaById st))).

Definition deleteMeta (id : string) : Async State unit :=
  fun st => (Ok tt, mkState (remote st) (calls st) (delete id (fileMetaById st))).

Definition noFilesError : JsError := newError "Aucun fichier à uploader".

Fixpoint uploadLoop (files : list UploadFile) (results : list UploadedFile)
  : Async State (list UploadedFile) :=
  match files with
  | [] => ret results
  | f :: rest =>
      await uploadedId :=
        perform (CallCreate (originalname f) (buffer f))
                (files_create client (originalname f) (buffer f)) in
      let name := originalname f in
      let ext := JsString.toLowerCase (JsString.splitPop name) in
      await_ setMeta uploadedId name ext in
      uploadLoop rest (results ++ [mkUploadedFile (originalname f) (size f) uploadedId])
  end.

(** [uploadFiles(files)] *)
Definition uploadFiles (files : list UploadFile) : Async State (list UploadedFile) :=
  match files with
  | [] => throw noFilesError
  | _ => uploadLoop files []
  end.

(** The class body declares [deleteFile] twice.  This is the first
    declaration (source lines 78-85): delete remotely, forget the
    metadata, ignore any error. *)
Definition deleteFile_first (fileId : string) : Async State unit :=
  tryCatch
    (await_ perform (CallDelete fileId) (files_delete client fileId) in
     deleteMeta fileId)
    (fun e => ret tt).

Definition deleteUnsupportedError : JsError :=
  newError "ChatGPTAdapter: La suppression de fichiers n'est pas supportée par OpenAI".

(** The second declaration (source lines 358-360). *)
Definition deleteFile_second (fileId : string) : Async State unit :=
  throw deleteUnsupportedError.

(** A class body that declares a member more than once keeps the last
    declaration: that is the method the instances have. *)
Definition classMember {X} (declarations : list X) (inherited : X) : X :=
  List.last declarations inherited.

(** [BaseAdapter.deleteFile], inherited when a class declares none. *)
Definition baseDeleteFile (fileId : string) : Async State unit :=
  throw (newError "La méthode deleteFile() doit être implémentée par la classe dérivée").

(** [deleteFile(fileId)] as instances of [ChatGPTAdapter] have it. *)
Definition deleteFile : string -> Async State unit :=
  classMember [deleteFile_first; deleteFile_second] baseDeleteFile.

Definition extractUnsupportedError : JsError :=
  newError "OpenAI n'expose pas d'endpoint d'extraction de texte pour les fichiers".

(** [extractTextFromFile(fileId)] *)
Definition extractTextFromFile (fileId : string) : Async State string :=
  throw extractUnsupportedError.

End Adapter.

Arguments mkState {C}.
Arguments remote {C}.
Arguments calls {C}.
Arguments fileMetaById {C}.

(** ** The chat side of the adapter *)

(** A part of the [content] of a message sent to Chat Completions. *)
Inductive ChatPart :=
  | TextPart (text : string)
  | FilePart (file_id : string).

Record ChatInput := mkChatInput {
  input_role : string;
  input_content : list ChatPart
}.

(** What [client.chat.completions.create] resolves to:
    [choices?.[0]?.message?.content] when it is there, and [usage]. *)
Module Completions.
Record Usage := mkUsage {
  total_tokens : option Z;
  prompt_tokens : option Z;
  completion_tokens : option Z
}.
Record Answer := mkAnswer {
  reply : option string;
  usage : option Usage
}.
End Completions.

(** What [client.responses.create] resolves to: [output_text] when it is
    a string, [output] when it is an array (each element with its
    [content ?? []], each part with its [type] and [text]), and [usage]. *)
Module Responses.
Record Usage := mkUsage {
  total_tokens : option Z;
  input_tokens : option Z;
  output_tokens : option Z
}.
Record OutputPart := mkOutputPart {
  part_type : option string;
  part_text : option string
}.
Record Answer := mkAnswer {
  output_text : option string;
  output : option (list (list OutputPart));
  usage : option Usage
}.
End Responses.

(** The calls made on the client by the chat side, in order. *)
Inductive ChatCall :=
  | CallRetrieve (fileId : string)
  | CallVectorStoreCreate
  | CallCreateAndPoll (vectorStoreId : string) (file_ids : list string)
  | CallVectorStoreDelete (vectorStoreId : string)
  | CallResponses (model input : string) (vector_store_ids : list string)
                  (max_output_tokens : Z)
  | CallCompletions (model : string) (messages : list ChatInput)
                    (max_completion_tokens : Z).

Section Chat.

Variable C : Type.

(** The endpoints used by [sendChatRequest]: [files_retrieve] gives
    [f?.filename], [vectorStores_create] the [id] of the new store. *)
Record ChatClient := mkChatClient {
  files_retrieve : string -> C -> Res (option string) * C;
  vectorStores_create : C -> Res string * C;
  fileBatches_createAndPoll : string -> list string -> C -> Res unit * C;
  vectorStores_delete : string -> C -> Res unit * C;
  responses_create : string -> string -> list string -> Z -> C -> Res Responses.Answer * C;
  completions_create : string -> list ChatInput -> Z -> C -> Res Completions.Answer * C
}.

(** The adapter with the calls of its chat side. *)
Record ChatState := mkChatState {
  files : State C;
  chatCalls : list ChatCall
}.

Variable client : ChatClient.
(** [this.maxOutputTokens] *)
Variable maxOutputTokens : Z.
(** [String.prototype.trim] and [String.prototype.toUpperCase]. *)
Variable trim : string -> string.
Variable toUpperCase : string -> string.

Definition performChat {X} (c : ChatCall) (f : C -> Res X * C) : Async ChatState X :=
  fun st =>
    let (r, c') := f (remote (files st)) in
    (r, mkChatState (mkState c' (calls (files st)) (fileMetaById (files st)))
                    (chatCalls st ++ [c])).

(** A method of the file side, run by the same adapter. *)
Definition onFiles {X} (m : Async (State C) X) : Async ChatState X :=
  fun st =>
    let (r, files') := m (files st) in
    (r, mkChatState files' (chatCalls st)).

(** [_hasNonPdf(file_ids)] *)
Fixpoint _hasNonPdf (file_ids : list string) : Async ChatState bool :=
  match file_ids with
  | [] => ret false
  | fid :: rest =>
      fun st =>
        match fileMetaById (files st) !! fid with
        | Some meta =>
            if negb (String.eqb (snd meta) "pdf") then (Ok true, st)
            else _hasNonPdf rest st
        | None =>
            match performChat (CallRetrieve fid) (files_retrieve client fid) st with
            | (Ok f, st1) =>
                let name := Pricing.nullish f "" in
                let ext := JsString.toLowerCase (JsString.splitPop name) in
                let st2 := snd (onFiles (setMeta C fid name ext) st1) in
                if negb (String.eqb ext "pdf") then (Ok true, st2)
                else _hasNonPdf rest st2
            | (Err _, st1) => (Ok true, st1)
            end
        end
  end.

(** [_createVectorStoreWithFiles(file_ids)]: the [id] of the store, or
    [None] for [null]. *)
Definition _createVectorStoreWithFiles (file_ids : list string)
  : Async ChatState (option string) :=
  match file_ids with
  | [] => ret None
  | _ =>
      await vectorStore := performChat CallVectorStoreCreate (vectorStores_create client) in
      await_ performChat (CallCreateAndPoll vectorStore file_ids)
                         (fileBatches_createAndPoll client vectorStore file_ids) in
      ret (Some vectorStore)
  end.

(** The text given to the Responses API. *)
Definition userPrompt (messages : list StandardizedMessage) : string :=
  trim (JsString.join (JsString.nl ++ JsString.nl)
          (List.filter (fun t => negb (String.eqb t ""))
             (List.map (fun m =>
                          if String.eqb (trim (content m)) "" then ""
                          else "[" ++ toUpperCase (role m) ++ "]" ++ JsString.nl ++ content m)
                       messages))).

Definition emptyPromptInput : string :=
  "Réponds en utilisant les fichiers fournis si nécessaire.".

Definition emptyReply : string := "Réponse vide".

(** [contentText || 'Réponse vide'] *)
Definition orEmptyReply (contentText : string) : string :=
  if String.eqb contentText "" then emptyReply else contentText.

(** The text of an answer of the Responses API. *)
Definition responsesText (response : Responses.Answer) : string :=
  match Responses.output_text response with
  | Some t => trim t
  | None =>
      match Responses.output response with
      | Some output =>
          trim (String.concat ""
                  (List.map (fun p =>
                               String.concat ""
                                 (List.map (fun cc =>
                                              match Responses.part_type cc with
                                              | Some ty =>
                                                  if String.eqb ty "output_text"
                                                  then Pricing.nullish (Responses.part_text cc) ""
                                                  else ""
                                              | None => ""
                                              end) p))
                            output))
      | None => ""
      end
  end.

(** The [try] block of [_handleResponsesFileSearch], once the vector
    store is there. *)
Definition askResponses (messages : list StandardizedMessage) (model : string)
  (vectorStore : option string) : Async ChatState StandardizedResponse :=
  let userPrompt := userPrompt messages in
  let input := if (String.length userPrompt =? 0)%nat then emptyPromptInput else userPrompt in
  let vector_store_ids := match vectorStore with Some id => [id] | None => [] end in
  await response :=
    performChat (CallResponses model input vector_store_ids maxOutputTokens)
                (responses_create client model input vector_store_ids maxOutputTokens) in
  let contentText := responsesText response in
  let usage := Responses.usage response in
  let tokensUsed :=
    match usage with
    | Some u =>
        match Responses.total_tokens u with
        | Some n => n
        | None =>
            match Responses.output_tokens u with
            | Some n => n
            | None => Pricing.nullish (Responses.input_tokens u) 0
            end
        end
    | None => 0
    end in
  ret (mkResponse
         (orEmptyReply contentText)
         (option_map (fun u => Pricing.mkUsage None None
                                 (Responses.input_tokens u) (Responses.output_tokens u)
                                 (Responses.total_tokens u) None None None) usage)
         tokensUsed).

(** The [finally] block: [vectorStore] is what the variable holds. *)
Definition dropVectorStore (vectorStore : option string) : Async ChatState unit :=
  match vectorStore with
  | Some id =>
      if negb (String.eqb id "")
      then tryCatch (performChat (CallVectorStoreDelete id) (vectorStores_delete client id))
                    (fun e => ret tt)
      else ret tt
  | None => ret tt
  end.

(** [_handleResponsesFileSearch(messages, file_ids, model)].  The
    variable [vectorStore] is still [null] in the [finally] block when
    [_createVectorStoreWithFiles] has thrown. *)
Definition _handleResponsesFileSearch (messages : list StandardizedMessage)
  (file_ids : list string) (model : string) : Async ChatState StandardizedResponse :=
  fun st =>
    match _createVectorStoreWithFiles file_ids st with
    | (Err e, st1) =>
        let (_, st2) := dropVectorStore None st1 in
        (Err e, st2)
    | (Ok vectorStore, st1) =>
        let (r, st2) := askResponses messages model vectorStore st1 in
        let (_, st3) := dropVectorStore vectorStore st2 in
        (r, st3)
    end.

(** [_handleChatCompletions(messages, file_ids, model)] *)
Definition _handleChatCompletions (messages : list StandardizedMessage)
  (file_ids : list string) (model : string) : Async ChatState StandardizedResponse :=
  let inputForChat :=
    (List.map (fun m => mkChatInput (role m) [TextPart (content m)]) messages
     ++ match file_ids with
        | [] => []
        | _ => [mkChatInput "user"
                  (TextPart "Voici les fichiers à prendre en compte :"
                   :: List.map FilePart file_ids)]
        end)%list in
  await response :=
    performChat (CallCompletions model inputForChat maxOutputTokens)
                (completions_create client model inputForChat maxOutputTokens) in
  let reply := Pricing.nullish (Completions.reply response) "" in
  let usage := Completions.usage response in
  let tokensUsed :=
    match usage with
    | Some u =>
        match Completions.total_tokens u with
        | Some n => n
        | None => Pricing.nullish (Completions.completion_tokens u) 0
        end
    | None => 0
    end in
  ret (mkResponse
         (orEmptyReply (trim reply))
         (option_map (fun u => Pricing.mkUsage None None
                                 (Completions.prompt_tokens u) (Completions.completion_tokens u)
                                 (Completions.total_tokens u) None None None) usage)
         tokensUsed).

Definition noMessagesError : JsError :=
  newError "Le tableau messages est requis et ne peut pas être vide".

(** [sendChatRequest(request)] *)
Definition sendChatRequest (request : ChatRequest) : Async ChatState StandardizedResponse :=
  match messages request with
  | [] => throw noMessagesError
  | _ =>
      await hasNonPdfFiles :=
        (match file_ids request with
         | [] => ret false
         | _ => _hasNonPdf (file_ids request)
         end) in
      if hasNonPdfFiles
      then _handleResponsesFileSearch (messages request) (file_ids request) (model request)
      else _handleChatCompletions (messages request) (file_ids request) (model request)
  end.

End Chat.

Arguments mkChatState {C}.
Arguments files {C}.
Arguments chatCalls {C}.

(** [class ChatGPTAdapter extends BaseAdapter]: the file side and the
    chat side on one client. *)
Definition adapter {C} (fileClient : Client C) (client : ChatClient C)
  (maxOutputTokens : Z) (trim toUpperCase : string -> string)
  : BaseAdapter (ChatState C) :=
  Build_BaseAdapter (ChatState C)
    (sendChatRequest C client maxOutputTokens trim toUpperCase)
    (fun files => onFiles C (uploadFiles C fileClient files))
    (fun fileId => onFiles C (deleteFile C fileClient fileId))
    (fun fileId => onFiles C (extractTextFromFile C fileId))
    "ChatGPT".

End ChatGPT.

(* ===================================================================== *)
(** ** backend/db.ts *)
(* ===================================================================== *)

Module Db.

(** A row of [dbo.users]; a column that is [NULL] is [None]. *)
Record UserRow := mkUserRow {
  canUseApp : bool;
  canImportFiles : bool;
  totalRequests : option Z;
  totalRequestsWithFiles : option Z;
  totalTokens : option Z;
  totalCost : option Q;
  maxCost : option Q
}.

(** The row that [INSERT INTO dbo.users (user_name)] creates: the column
    defaults of [01_create_users_table.sql]. *)
Definition defaultRow : UserRow :=
  mkUserRow false false (Some 0) (Some 0) (Some 0) (Some 0%Q) (Some 2%Q).

(** The store: the table, and the error [connectDB] rejects with when the
    server cannot be reached ([None] when it can). *)
Record Store := mkStore {
  connectError : option JsError;
  users : gmap string UserRow
}.

(** Every exported function starts with [await connectDB()]. *)
Definition connectDB : Async Store unit :=
  fun db =>
    match connectError db with
    | Some e => (Err e, db)
    | None => (Ok tt, db)
    end.

(** [UPDATE dbo.users SET ... WHERE user_name = @user_name] *)
Definition update (user_name : string) (f : UserRow -> UserRow) : Async Store unit :=
  fun db => (Ok tt, mkStore (connectError db) (alter f user_name (users db))).

(** [SELECT column FROM dbo.users WHERE user_name = @user_name], then
    [result.recordset?.[0]]. *)
Definition selectRow (user_name : string) : Async Store (option UserRow) :=
  fun db => (Ok (users db !! user_name), db).

(** SQL addition: [NULL] absorbs. *)
Definition sqlAddZ (a : option Z) (b : Z) : option Z := option_map (fun x => x + b) a.
Definition sqlAddQ (a : option Q) (b : Q) : option Q := option_map (fun x => (x + b)%Q) a.

(** [ISNULL(a, 0)] *)
Definition ISNULL (a : option Z) (b : Z) : Z := Pricing.nullish a b.

(** The value bound to a [sql.Decimal(18, 4)] parameter: the nearest
    multiple of 1e-4. *)
Definition decimal_18_4 (x : Q) : Q :=
  if Qle_bool 0 x
  then Qfloor (x * 10000 + (1 # 2)) # 10000
  else (- Qfloor ((- x) * 10000 + (1 # 2)))%Z # 10000.

(** [Number(row?.totalCost ?? 0)] *)
Definition getTotalCost (user_name : string) : Async Store JsNumber :=
  await_ connectDB in
  await row := selectRow user_name in
  ret (Finite (Pricing.nullish (row ≫= totalCost) 0%Q)).

(** [Number(row?.maxCost ?? 2.0)] *)
Definition getCostLimit (user_name : string) : Async Store JsNumber :=
  await_ connectDB in
  await row := selectRow user_name in
  ret (Finite (Pricing.nullish (row ≫= maxCost) 2%Q)).

(** [SET totalTokens = totalTokens + @tokens_to_add] *)
Definition plusTokens (tokens_to_add : Z) (r : UserRow) : UserRow :=
  mkUserRow (canUseApp r) (canImportFiles r) (totalRequests r)
            (totalRequestsWithFiles r) (sqlAddZ (totalTokens r) tokens_to_add)
            (totalCost r) (maxCost r).

(** [SET totalCost = totalCost + @cost_to_add] *)
Definition plusCost (cost_to_add : Q) (r : UserRow) : UserRow :=
  mkUserRow (canUseApp r) (canImportFiles r) (totalRequests r)
            (totalRequestsWithFiles r) (totalTokens r)
            (sqlAddQ (totalCost r) (decimal_18_4 cost_to_add)) (maxCost r).

(** [SET totalRequests = ISNULL(totalRequests, 0) + 1] *)
Definition bumpRequests (r : UserRow) : UserRow :=
  mkUserRow (canUseApp r) (canImportFiles r)
            (Some (ISNULL (totalRequests r) 0 + 1))
            (totalRequestsWithFiles r) (totalTokens r) (totalCost r) (maxCost r).

(** [SET totalRequestsWithFiles = ISNULL(totalRequestsWithFiles, 0) + 1] *)
Definition bumpRequestsWithFiles (r : UserRow) : UserRow :=
  mkUserRow (canUseApp r) (canImportFiles r) (totalRequests r)
            (Some (ISNULL (totalRequestsWithFiles r) 0 + 1))
            (totalTokens r) (totalCost r) (maxCost r).

Definition addTokens (user_name : string) (tokens_to_add : Z) : Async Store unit :=
  await_ connectDB in
  update user_name (plusTokens tokens_to_add).

Definition addCost (user_name : string) (cost_to_add : Q) : Async Store unit :=
  await_ connectDB in
  update user_name (plusCost cost_to_add).

Definition addRequest (user_name : string) : Async Store unit :=
  await_ connectDB in
  update user_name bumpRequests.

Definition addRequestWithFiles (user_name : string) : Async Store unit :=
  await_ connectDB in
  update user_name bumpRequestsWithFiles.

(** [IF NOT EXISTS (...) INSERT INTO dbo.users (user_name) VALUES (...)] *)
Definition ensureUserExists (user_name : string) : Async Store unit :=
  await_ connectDB in
  fun db =>
    match users db !! user_name with
    | Some _ => (Ok tt, db)
    | None => (Ok tt, mkStore (connectError db) (<[user_name := defaultRow]> (users db)))
    end.


(** [type FeatureFlags] *)
Module FeatureFlags.
Record t := mk { canUseApp : bool; canImportFiles : bool }.
End FeatureFlags.

(** [getPermissions(user_name)]: no row gives no right; of a row, each
    flag is [Boolean(Number(column ?? 0))], the bit of the column. *)
Definition getPermissions (user_name : string) : Async Store FeatureFlags.t :=
  await_ connectDB in
  await row := selectRow user_name in
  match row with
  | None => ret (FeatureFlags.mk false false)
  | Some row => ret (FeatureFlags.mk (canUseApp row) (canImportFiles row))
  end.

End Db.

(* ===================================================================== *)
(** ** backend/services/ChatService.js *)
(* ===================================================================== *)

Module ChatService.

(** An element of a structured [content] array: a string, or an object
    with its [type] and [text] when they are strings. *)
Inductive RawFragment :=
  | FragString (s : string)
  | FragObject (type text : option string).

Inductive RawContent :=
  | ContentString (s : string)
  | ContentArray (fragments : list RawFragment)
  | ContentOther.

Record RawMessage := mkRawMessage {
  raw_role : option string;
  raw_content : RawContent
}.

(** The body of the HTTP request.  A field is [None] when it is absent or
    not of the type the service tests for ([typeof prompt === 'string'],
    [Array.isArray]); a missing body is the record of three [None]. *)
Record RawRequest := mkRawRequest {
  raw_prompt : option string;
  raw_messages : option (list RawMessage);
  raw_file_ids : option (list string)
}.

Record ServiceChatResponse := mkServiceResponse {
  content : string;
  usage : option Pricing.Usage;
  cost : Q;
  limitReached : bool
}.

(** The callback of [m.content.map]. *)
Definition fragmentText (c : RawFragment) : string :=
  match c with
  | FragString s => s
  | FragObject type text =>
      let truthyText := match text with
                        | Some t => negb (String.eqb t "")
                        | None => false
                        end in
      if truthyText then Pricing.nullish text ""
      else if match type with
              | Some ty => String.eqb ty "input_text"
              | None => false
              end && truthyText
      then Pricing.nullish text ""
      else ""
  end.

Definition messageText (c : RawContent) : string :=
  match c with
  | ContentString s => s
  | ContentArray fragments =>
      JsString.join JsString.nl
        (List.filter (fun t => negb (String.eqb t "")) (List.map fragmentText fragments))
  | ContentOther => ""
  end.

(** [m.role || 'user'] *)
Definition roleOrUser (r : option string) : string :=
  match r with
  | Some s => if String.eqb s "" then "user" else s
  | None => "user"
  end.

Definition missingInputError : JsError :=
  newError "Ni prompt ni messages n'ont été fournis".

(** [_normalizeRequest(rawRequest, model)] *)
Definition _normalizeRequest (rawRequest : RawRequest) (model : string) : Res ChatRequest :=
  let file_ids := Pricing.nullish (raw_file_ids rawRequest) [] in
  match raw_messages rawRequest with
  | Some ((_ :: _) as messages) =>
      Ok (mkChatRequest
            (List.map (fun m => mkMessage (roleOrUser (raw_role m)) (messageText (raw_content m)))
                      messages)
            file_ids model)
  | _ =>
      match raw_prompt rawRequest with
      | Some prompt =>
          if String.eqb prompt "" then Err missingInputError
          else Ok (mkChatRequest [mkMessage "user" prompt] file_ids model)
      | None => Err missingInputError
      end
  end.

(** What the service does to its collaborators, in order. *)
Inductive Event :=
  | EnsureUserExists (user_name : string)
  | AddRequest (user_name : string)
  | AddRequestWithFiles (user_name : string)
  | GetTotalCost (user_name : string)
  | GetCostLimit (user_name : string)
  | AddTokens (user_name : string) (tokens_to_add : Z)
  | AddCost (user_name : string) (cost_to_add : Q)
  | SendChatRequest (request : ChatRequest).

Section Service.

(** [this.adapter]: any implementation of the contract. *)
Context {A : Type} {adapter : BaseAdapter A}.
(** [this.costLimit] *)
Variable costLimit : Q.
(** What [getWindowsUserName()] returns. *)
Variable username : string.

(** The collaborators of a request: the store, the adapter with its
    remote side, and the record of the calls made. *)
Record World := mkWorld {
  db : Db.Store;
  adapter_state : A;
  journal : list Event
}.

Definition callDb {X} (ev : Event) (m : Async Db.Store X) : Async World X :=
  fun w =>
    let (r, db') := m (db w) in
    (r, mkWorld db' (adapter_state w) (journal w ++ [ev])).

Definition callAdapter {X} (ev : Event) (m : Async A X) : Async World X :=
  fun w =>
    let (r, a') := m (adapter_state w) in
    (r, mkWorld (db w) a' (journal w ++ [ev])).

Definition hasFiles (rawRequest : RawRequest) : bool :=
  match raw_file_ids rawRequest with
  | Some (_ :: _) => true
  | _ => false
  end.

Definition limitResponse : ServiceChatResponse :=
  mkServiceResponse "" None 0%Q true.

(** [processChatRequest(rawRequest, model)] *)
Definition processChatRequest (rawRequest : RawRequest) (model : string)
  : Async World ServiceChatResponse :=
  await_ callDb (EnsureUserExists username) (Db.ensureUserExists username) in
  await_ callDb (AddRequest username) (Db.addRequest username) in
  await_ (if hasFiles rawRequest
          then callDb (AddRequestWithFiles username) (Db.addRequestWithFiles username)
          else ret tt) in
  await totalCost := callDb (GetTotalCost username) (Db.getTotalCost username) in
  await userCostLimit := callDb (GetCostLimit username) (Db.getCostLimit username) in
  let effectiveLimit :=
    if Number_isFinite userCostLimit then userCostLimit else Finite costLimit in
  let limitReached := js_ge totalCost effectiveLimit in
  if limitReached then ret limitResponse
  else
    match _normalizeRequest rawRequest model with
    | Err e => throw e
    | Ok processedRequest =>
        await response :=
          tryCatch
            (callAdapter (SendChatRequest processedRequest)
                         (sendChatRequest processedRequest))
            (fun error => throw error) in
        let cost := Pricing.computeCostFromUsage (resp_usage response) model in
        await_ (if negb (tokensUsed response =? 0)
                then callDb (AddTokens username (tokensUsed response))
                            (Db.addTokens username (tokensUsed response))
                else ret tt) in
        await_ (if Number_isFinite (Finite cost)
                then callDb (AddCost username cost) (Db.addCost username cost)
                else ret tt) in
        ret (mkServiceResponse (resp_content response) (resp_usage response) cost false)
    end.

Local Abbreviation adapterDeleteFile := (deleteFile (BaseAdapter := adapter)).

(** [deleteFile(fileId)] of the service: [this.adapter.deleteFile(fileId)]. *)
Definition deleteFile (fileId : string) : Async A unit := adapterDeleteFile fileId.

Fixpoint deleteFilesLoop (fileIds : list string) : Async A unit :=
  match fileIds with
  | [] => ret tt
  | fileId :: rest =>
      await_ deleteFile fileId in
      deleteFilesLoop rest
  end.

(** [deleteFiles(fileIds)]; [None] is an argument that is not an array. *)
Definition deleteFiles (fileIds : option (list string)) : Async A unit :=
  match fileIds with
  | None | Some [] => ret tt
  | Some fileIds => deleteFilesLoop fileIds
  end.

End Service.

Arguments World A : clear implicits.
Arguments mkWorld {A}.

End ChatService.

(* ===================================================================== *)
(** ** backend/security/permissions.ts *)
(* ===================================================================== *)

Module Permissions.

Definition denyAll : Db.FeatureFlags.t := Db.FeatureFlags.mk false false.

(** [getPermissionsForCurrentUser()]; [username] is what
    [getWindowsUserName()] returns. *)
Definition getPermissionsForCurrentUser (username : string)
  : Async Db.Store Db.FeatureFlags.t :=
  if String.eqb username "" then ret denyAll
  else
    tryCatch
      (await_ Db.ensureUserExists username in
       await flags := Db.getPermissions username in
       ret flags)
      (fun err => ret denyAll).

End Permissions.

(* ===================================================================== *)
(** ** backend/index.js: the routes *)
(* ===================================================================== *)

Module Server.

(** What [res.json] is given.  The [detail] of a chat error,
    [err?.response?.data], is [undefined] for the errors of this
    development and is left out. *)
Inductive Body :=
  | ChatBody (response : ChatService.ServiceChatResponse)
  | FilesBody (files : list UploadedFile)
  | ErrorBody (error message : string).

Record HttpResponse := mkHttpResponse { statusCode : Z; body : Body }.

(** [Number(err?.status ?? err?.statusCode ?? fallback)], then
    [status >= 400 && status <= 599 ? status : 500].  An error of this
    development has no [statusCode]. *)
Definition errorStatus (err : JsError) (fallback : Z) : Z :=
  let s := Pricing.nullish (status err) fallback in
  if (400 <=? s) && (s <=? 599) then s else 500.

Section Routes.

(** [chatService.adapter], [chatService.costLimit], and the user name of
    the machine. *)
Context {A : Type} {adapter : BaseAdapter A}.
Variable costLimit : Q.
Variable username : string.

(** [handleChatRequest(req, res, model)], on [req.body]. *)
Definition handleChatRequest (reqBody : ChatService.RawRequest) (model : string)
  (w : ChatService.World A) : HttpResponse * ChatService.World A :=
  match ChatService.processChatRequest costLimit username reqBody model w with
  | (Ok response, w') => (mkHttpResponse 200 (ChatBody response), w')
  | (Err err, w') =>
      (mkHttpResponse (errorStatus err 500) (ErrorBody "ChatError" (message err)), w')
  end.

(** [app.post('/api/chat', ...)] *)
Definition postChat (reqBody : ChatService.RawRequest) (w : ChatService.World A)
  : HttpResponse * ChatService.World A :=
  handleChatRequest reqBody "mistral-large-latest" w.


End Routes.

End Server.

(* ===================================================================== *)
(** ** frontend/src: history, context, attachments *)
(* ===================================================================== *)

Module Frontend.

(** [type Sender] *)
Inductive Sender := user | assistant.

Record ChatMessage := mkChatMessage {
  id : string;
  sender : Sender;
  text : string;
  ts : Z
}.

(** [items.slice(start)] for an integer [start]: a negative [start]
    counts from the end. *)
Definition slice {X} (start : Z) (items : list X) : list X :=
  let len := Z.of_nat (length items) in
  let k := if start <? 0 then Z.max (len + start) 0 else Z.min start len in
  skipn (Z.to_nat k) items.

(** [class History]: the state is [this.items]. *)
Module History.

(** [add(sender, text)]; [newId] and [now] are what [makeId()] and
    [Date.now()] return. *)
Definition add (newId : string) (now : Z) (sender : Sender) (text : string)
  (items : list ChatMessage) : ChatMessage * list ChatMessage :=
  let msg := mkChatMessage newId sender text now in
  (msg, (items ++ [msg])%list).

Definition getAll (items : list ChatMessage) : list ChatMessage := items.

(** [getLast(limit)]: [this.items.slice(-limit)] *)
Definition getLast (limit : Z) (items : list ChatMessage) : list ChatMessage :=
  slice (- limit) items.

Definition clear (items : list ChatMessage) : list ChatMessage := [].

End History.

(** [config.ts] *)
Definition HISTORY_WINDOW : Z := 8 * 2.
Definition MAX_FILES : Z := 1.

(** [type FiltreContext] *)
Record FiltreContext := mkFiltreContext {
  longueur : string;
  format : string;
  domaine : string;
  contexte : string
}.

(** [type ChatPayload] *)
Record ChatPayload := mkChatPayload {
  messages : list StandardizedMessage;
  file_ids : list string
}.

(** [formatPromptFromFiltre(f)].  In [f.contexte ?? ''.trim()] the
    [trim] applies to the empty literal: the context is taken as typed. *)
Definition formatPromptFromFiltre (f : option FiltreContext) : option string :=
  match f with
  | None => None
  | Some f =>
      let contexte := contexte f in
      let lignes :=
        ["[Instruction de rédaction]";
         "Réponse attendue :";
         "- Longueur : " ++ longueur f;
         "- Format : " ++ format f;
         "- Domaine : " ++ domaine f] in
      let lignes :=
        if String.eqb contexte "" then lignes
        else (lignes ++ [("- Contexte : " ++ contexte)%string])%list in
      Some (JsString.join JsString.nl lignes)
  end.

Section Context.

(** [SYSTEM_PROMPT] of [config.ts], and the items of the shared
    [history]. *)
Variable SYSTEM_PROMPT : string.
Variable items : list ChatMessage.

(** [buildMessagesForLLM(fileIds, filtre)] *)
Definition buildMessagesForLLM (fileIds : list string) (filtre : option FiltreContext)
  : ChatPayload :=
  let last := History.getLast HISTORY_WINDOW items in
  let messages := [mkMessage "system" SYSTEM_PROMPT] in
  let instruction := formatPromptFromFiltre filtre in
  let messages :=
    match instruction with
    | Some instruction =>
        if String.eqb instruction "" then messages
        else (messages ++ [mkMessage "system" instruction])%list
    | None => messages
    end in
  let messages :=
    (messages ++
     List.map (fun m => mkMessage (match sender m with
                                   | user => "user"
                                   | assistant => "assistant"
                                   end)
                                  (text m)) last)%list in
  mkChatPayload messages fileIds.

End Context.

(** The body that [chat(payload)] of [api.ts] posts, as the route reads
    it once parsed. *)
Definition chatBody (payload : ChatPayload) : ChatService.RawRequest :=
  ChatService.mkRawRequest None
    (Some (List.map (fun m => ChatService.mkRawMessage (Some (role m))
                                (ChatService.ContentString (content m)))
                    (messages payload)))
    (Some (file_ids payload)).

(** [hooks/useAttachments.ts]: the state of the hook and what its
    callbacks make of it. *)
Module UseAttachments.

(** [type FileTokenAttachment] *)
Record FileTokenAttachment := mkFileTokenAttachment {
  token : string;
  name : string;
  size : Z;
  mime : option string
}.

Record State := mkState {
  attachments : list FileTokenAttachment;
  selectedIdx : Z
}.

(** [`${f.name}:${f.size}:${f.token}`] *)
Definition key (f : FileTokenAttachment) : string :=
  name f ++ ":" ++ pretty (size f) ++ ":" ++ token f.

(** The [Map] filled by [forEach] and read back by
    [Array.from(map.values())]: the first attachment of each key, in the
    order of arrival; [seen] holds the keys of the map. *)
Fixpoint dedupe (seen : list string) (fs : list FileTokenAttachment)
  : list FileTokenAttachment :=
  match fs with
  | [] => []
  | f :: rest =>
      if existsb (String.eqb (key f)) seen then dedupe seen rest
      else f :: dedupe (key f :: seen) rest
  end.

Definition noValidFileMessage : string := "Aucun fichier valide sélectionné.".
Definition tooManyMessage : string :=
  "Tu peux joindre au maximum " ++ pretty MAX_FILES ++ " fichiers.".

(** [addFromDialog()]: [picked] is what [window.fileAPI?.openMany()]
    settles to ([None] when it is not an array); the result is the new
    state and the message given to [onLargeOrError], if any. *)
Definition addFromDialog (picked : Res (option (list FileTokenAttachment))) (st : State)
  : State * option string :=
  match picked with
  | Err e => (st, Some (message e))
  | Ok None => (st, None)
  | Ok (Some list) =>
      let limited := firstn (Z.to_nat MAX_FILES) list in
      match limited with
      | [] => (st, Some noValidFileMessage)
      | _ =>
          let merged := dedupe [] (attachments st ++ limited) in
          let tooMany := MAX_FILES <? Z.of_nat (length merged) in
          let merged := if tooMany then firstn (Z.to_nat MAX_FILES) merged else merged in
          (mkState merged
                   (match merged with
                    | [] => selectedIdx st
                    | _ => Z.of_nat (length merged) - 1
                    end),
           if tooMany then Some tooManyMessage else None)
      end
  end.

(** [removeSelected()] *)
Definition removeSelected (st : State) : State :=
  match attachments st with
  | [] => st
  | prev =>
      let next :=
        List.map snd
          (List.filter (fun p => negb (Z.of_nat (fst p) =? selectedIdx st))
                       (combine (seq 0 (length prev)) prev)) in
      mkState next (Z.min (selectedIdx st) (Z.max 0 (Z.of_nat (length next) - 1)))
  end.

(** [clearAttachments()] *)
Definition clearAttachments (st : State) : State := mkState [] 0.

End UseAttachments.

End Frontend.

(* ===================================================================== *)
(** * Vocabulary of the properties, and test doubles *)
(* ===================================================================== *)

(** Unfolding of the plumbing of [Async]. *)
Ltac run :=
  unfold tryCatch, bind, throw, ret in *; cbn beta iota in *.

Section PricingVocabulary.
Import Pricing.




(** The reading of C3 as stated: whenever all four of [input_tokens],
    [output_tokens], [prompt_tokens] and [completion_tokens] are present,
    the counts taken are those of [input_tokens] and [output_tokens]. *)
Definition inputOutputNamingWins : Prop :=
  forall (u : Usage) (i o p c : Z),
    input_tokens u = Some i -> output_tokens u = Some o ->
    prompt_tokens u = Some p -> completion_tokens u = Some c ->
    input (extractUsage (Some u)) = i /\ output (extractUsage (Some u)) = o.

End PricingVocabulary.

Section AdapterVocabulary.
Import Mistral.

(** A file that [validateFile] refuses: empty, or of a name outside the
    accepted extensions. *)
Definition refused (f : UploadFile) : Prop :=
  buffer f = [] \/ DocumentExtractor.isSupportedFormat (originalname f) "" = false.

Definition wrapUploadError (f : UploadFile) (e : JsError) : JsError :=
  newError ("Erreur upload " ++ originalname f ++ ": " ++ message e).

(** The three shapes the specification recognizes: [contents] an array,
    [contents] a string, [pages] an array. *)
Definition recognizedShape (response : Mistral.OcrResponse) : bool :=
match response with
| Mistral.RespObject (Mistral.ContentsArray _) _ _ => true
| Mistral.RespObject (Mistral.ContentsString _) _ _ => true
| Mistral.RespObject Mistral.ContentsOther (Some _) _ => true
| _ => false
end.

(** What [extractTextFromFile] computes from the answer of the OCR call. *)
Definition ocrOutcome (r : Res OcrResponse) : Res string :=
match r with
| Err e => Err (ocrError e)
| Ok response =>
    if falsy response then Err (ocrError emptyOcrError)
    else if String.eqb (extractedText response) "" then Err (ocrError noTextError)
    else Ok (extractedText response)
end.

(** The model name passed to the API: [model || 'mistral-large-latest']. *)
Definition modelOrDefault (m : string) : string :=
if String.eqb m "" then "mistral-large-latest" else m.

End AdapterVocabulary.

Section DbVocabulary.
Variable user_name : string.

(** The table once [ensureUserExists] has run. *)
Definition ensureRow (users : gmap string Db.UserRow) : gmap string Db.UserRow :=
match users !! user_name with
| Some _ => users
| None => <[user_name := Db.defaultRow]> users
end.

(** The user's row once [ensureUserExists] has run. *)
Definition ensuredRow (users : gmap string Db.UserRow) : Db.UserRow :=
default Db.defaultRow (users !! user_name).

(** The table after the counters of a request have been incremented. *)
Definition countedUsers (files : bool) (users : gmap string Db.UserRow)
  : gmap string Db.UserRow :=
let counted := alter Db.bumpRequests user_name (ensureRow users) in
if files then alter Db.bumpRequestsWithFiles user_name counted else counted.

(** The row after the counters of a request have been incremented. *)
Definition countedRow (files : bool) (r : Db.UserRow) : Db.UserRow :=
if files then Db.bumpRequestsWithFiles (Db.bumpRequests r) else Db.bumpRequests r.

End DbVocabulary.

Section ServiceVocabulary.
Import ChatService.
Context {A : Type}.
Variable costLimit : Q.
Variable username : string.

(** The accumulated cost and the effective ceiling that the limit check
    compares. *)
Definition accumulatedCost (store : Db.Store) : JsNumber :=
Finite (Pricing.nullish (Db.users store !! username ≫= Db.totalCost) 0%Q).

Definition effectiveLimit (store : Db.Store) : JsNumber :=
let userCostLimit := Finite (Pricing.nullish (Db.users store !! username ≫= Db.maxCost) 2%Q) in
if Number_isFinite userCostLimit then userCostLimit else Finite costLimit.

(** The calls made up to and including the reads of the limit check. *)
Definition prologue (files : bool) : list Event :=
([EnsureUserExists username; AddRequest username]
 ++ (if files then [AddRequestWithFiles username] else [])
 ++ [GetTotalCost username; GetCostLimit username])%list.

(** The world when the limit check has read its two values. *)
Definition afterPrologue (files : bool) (w : World A) : World A :=
mkWorld (Db.mkStore None (countedUsers username files (Db.users (db w))))
        (adapter_state w)
        (journal w ++ prologue files).

(** The calls that record tokens and cost once the adapter has answered. *)
Definition bookkeepingEvents (response : StandardizedResponse) (cost : Q) : list Event :=
((if negb (tokensUsed response =? 0) then [AddTokens username (tokensUsed response)] else [])
 ++ [AddCost username cost])%list.

(** The table once tokens and cost have been recorded. *)
Definition bookkeptUsers (response : StandardizedResponse) (cost : Q)
  (users : gmap string Db.UserRow) : gmap string Db.UserRow :=
alter (Db.plusCost cost) username
  (if negb (tokensUsed response =? 0)
   then alter (Db.plusTokens (tokensUsed response)) username users
   else users).

End ServiceVocabulary.

(** The calls to the adapter, and the calls that record tokens or cost. *)
Definition isSend (ev : ChatService.Event) : bool :=
match ev with ChatService.SendChatRequest _ => true | _ => false end.

Definition isBookkeeping (ev : ChatService.Event) : bool :=
match ev with
| ChatService.AddTokens _ _ | ChatService.AddCost _ _ => true
| _ => false
end.

(** ** Test doubles *)

(** A ChatGPT client that takes every file. *)
Definition acceptingOpenAI : ChatGPT.Client unit :=
ChatGPT.mkClient unit
  (fun name content c => (Ok "file-1", c))
  (fun fileId c => (Ok tt, c)).

(** A Mistral client whose every endpoint answers. *)
Definition answeringMistral : Mistral.Client unit :=
Mistral.mkClient unit
  (fun name content c => (Ok "file-1", c))
  (fun fileId c => (Ok (Mistral.RespString "text of the file"), c))
  (fun fileId c => (Ok tt, c))
  (fun model messages maxTokens c =>
     (Ok (Mistral.mkCompletion (Some (Some "hi there"))
            (Some (Mistral.mkMistralUsage (Some 15) (Some 10) (Some 5)))), c)).

(** An OCR endpoint that answers with an object holding neither [contents]
    nor [pages]. *)
Definition unknownShapeOcr : Mistral.Client unit :=
Mistral.mkClient unit
  (fun name content c => (Ok "file-1", c))
  (fun fileId c => (Ok (Mistral.RespObject Mistral.ContentsOther None "{}"), c))
  (fun fileId c => (Ok tt, c))
  (fun model messages maxTokens c => (Err (newError "unused"), c)).



(** An adapter double: it counts the calls to [sendChatRequest] in its state
    and settles each of them to [outcome]. *)
Definition stubAdapter (outcome : Res StandardizedResponse) : BaseAdapter nat :=
Build_BaseAdapter nat
  (fun request calls => (outcome, S calls))
  (fun files calls => (Ok [], calls))
  (fun fileId calls => (Ok tt, calls))
  (fun fileId calls => (Ok "", calls))
  "Stub".

(** A Mistral endpoint whose chat API answers 429. *)
Definition rateLimitedMistral : Mistral.Client unit :=
Mistral.mkClient unit
  (fun name content c => (Ok "file-1", c))
  (fun fileId c => (Ok (Mistral.RespString "text of the file"), c))
  (fun fileId c => (Ok tt, c))
  (fun model messages maxTokens c => (Err (mkJsError "Too Many Requests" (Some 429)), c)).

Definition rateLimitedError : JsError :=
newError "Limite de taux API Mistral atteinte. Veuillez réessayer plus tard.".

(** A store with the user [tbo], who has spent [spent] of a ceiling of 2. *)
Definition storeOf (spent : Q) : Db.Store :=
Db.mkStore None
  {[ "tbo" := Db.mkUserRow true true (Some 7) (Some 3) (Some 1200) (Some spent) (Some 2%Q) ]}.

Definition promptHello : ChatService.RawRequest :=
ChatService.mkRawRequest (Some "hello") None None.

Definition promptWithFile : ChatService.RawRequest :=
ChatService.mkRawRequest (Some "hello") None (Some ["file-1"]).

Definition noInput : ChatService.RawRequest :=
ChatService.mkRawRequest None None None.

Definition hiThere : StandardizedResponse :=
mkResponse "hi there"
  (Some (Pricing.mkUsage None None (Some 10) (Some 5) (Some 15) None None None)) 15.

(** ** Vocabulary of the further properties *)



(** The calls that the loop over [file_ids] makes: for each file in turn
    the OCR call, followed by the deletion when the extraction succeeded
    ([extracted] tells which did). *)
Definition fileCallsOf (file_ids : list string) (extracted : list bool) : list Mistral.Call :=
flat_map (fun p : string * bool =>
            Mistral.CallOcr (fst p) :: (if snd p then [Mistral.CallDelete (fst p)] else []))
         (combine file_ids extracted).

(** The calls of an upload of [files] that goes through. *)
Definition uploadCallsOf (files : list UploadFile) : list Mistral.Call :=
List.map (fun f => Mistral.CallUpload (originalname f) (buffer f)) files.

(** The error of a result, if any, carries no HTTP status. *)
Definition noStatus {X} (r : Res X) : Prop :=
match r with
| Err e => status e = None
| Ok _ => True
end.

(** An adapter double whose [deleteFile] fails for the file [locked]; its
    state is the list of the files it was asked to delete. *)
Definition lockingAdapter : BaseAdapter (list string) :=
Build_BaseAdapter (list string)
  (fun request asked => (Ok (mkResponse "" None 0), asked))
  (fun files asked => (Ok [], asked))
  (fun fileId asked =>
     (if String.eqb fileId "locked" then Err (newError "locked") else Ok tt,
      (asked ++ [fileId])%list))
  (fun fileId asked => (Ok "", asked))
  "Locking".

(** The role under which the frontend sends an item of the history. *)
Definition roleOfSender (s : Frontend.Sender) : string :=
match s with
| Frontend.user => "user"
| Frontend.assistant => "assistant"
end.

Definition sentMessage (m : Frontend.ChatMessage) : StandardizedMessage :=
mkMessage (roleOfSender (Frontend.sender m)) (Frontend.text m).

(** The messages that [_handleChatCompletions] sends for a request. *)
Definition completionsInput (request : ChatRequest) : list ChatGPT.ChatInput :=
(List.map (fun m => ChatGPT.mkChatInput (role m) [ChatGPT.TextPart (content m)])
          (messages request)
 ++ match file_ids request with
    | [] => []
    | _ => [ChatGPT.mkChatInput "user"
              (ChatGPT.TextPart "Voici les fichiers à prendre en compte :"
               :: List.map ChatGPT.FilePart (file_ids request))]
    end)%list.

(** Every attached file is known to the adapter as a PDF. *)
Definition allKnownPdf {C} (st : ChatGPT.ChatState C) (file_ids : list string) : Prop :=
forall id, In id file_ids ->
  exists name, ChatGPT.fileMetaById (ChatGPT.files st) !! id = Some (name, "pdf").

(** A ChatGPT chat client: Chat Completions answers, the vector store
    [vs-1] is created, and the attachment of files to it fails. *)
Definition pollFailingOpenAI : ChatGPT.ChatClient unit :=
ChatGPT.mkChatClient unit
  (fun fileId c => (Ok (Some "notes.txt"), c))
  (fun c => (Ok "vs-1", c))
  (fun vectorStoreId file_ids c => (Err (newError "poll failed"), c))
  (fun vectorStoreId c => (Ok tt, c))
  (fun model input vector_store_ids max_output_tokens c =>
     (Ok (ChatGPT.Responses.mkAnswer (Some "answer") None None), c))
  (fun model messages max_completion_tokens c =>
     (Ok (ChatGPT.Completions.mkAnswer (Some "answer") None), c)).

(** A ChatGPT chat client whose every endpoint answers, except the
    deletion of a vector store. *)
Definition answeringOpenAI : ChatGPT.ChatClient unit :=
ChatGPT.mkChatClient unit
  (fun fileId c => (Ok (Some "notes.txt"), c))
  (fun c => (Ok "vs-1", c))
  (fun vectorStoreId file_ids c => (Ok tt, c))
  (fun vectorStoreId c => (Err (newError "gone"), c))
  (fun model input vector_store_ids max_output_tokens c =>
     (Ok (ChatGPT.Responses.mkAnswer (Some "answer") None None), c))
  (fun model messages max_completion_tokens c =>
     (Ok (ChatGPT.Completions.mkAnswer (Some "answer") None), c)).

(** Upper-casing of the ASCII letters, to stand for [toUpperCase] on ASCII
    test data. *)
Fixpoint asciiToUpperCase (s : string) : string :=
match s with
| EmptyString => EmptyString
| String a s' =>
    let n := N_of_ascii a in
    String (if ((97 <=? n) && (n <=? 122))%N then ascii_of_N (n - 32) else a)
           (asciiToUpperCase s')
end.
(* ===================================================================== *)
(** * Properties *)
(* ===================================================================== *)

(** ** Pricing *)

Section PricingFacts.
Import Pricing.
Local Open Scope Q_scope.













(** The counts are not clamped before they are priced: outside the data
    model, a negative [completion_tokens] gives a negative cost. *)
Remark computeCostFromUsage_negative_count :
  computeCostFromUsage
    (Some (mkUsage None None None (Some (-1000000)%Z) None None None None)) "mistral-small"
  = (-300000 # 1000000).
Proof. vm_compute. reflexivity. Qed.

(** C3, counterexample: with [input_tokens: 0, output_tokens: 7,
    prompt_tokens: 12, completion_tokens: 7] the input count taken is 12,
    the one under the prompt/completion naming. *)
Lemma extractUsage_zero_input_tokens_falls_back :
  input (extractUsage
           (Some (mkUsage (Some 0%Z) (Some 7%Z) (Some 12%Z) (Some 7%Z) None None None None)))
    = 12%Z /\
  ~ inputOutputNamingWins.
Proof.
  split; [reflexivity|].
  intros H.
  destruct (H (mkUsage (Some 0%Z) (Some 7%Z) (Some 12%Z) (Some 7%Z) None None None None)
              0%Z 7%Z 12%Z 7%Z eq_refl eq_refl eq_refl eq_refl) as [Hi _].
  vm_compute in Hi. discriminate.
Qed.

(** C3, amended.  When [input_tokens] and [output_tokens] are present, a
    non-zero [input_tokens] (resp. [output_tokens]) is the count taken,
    whatever the prompt/completion fields hold; a zero one is treated as
    absent and the [prompt_tokens] (resp. [completion_tokens]) count, 0
    when absent, is taken instead. *)
Theorem extractUsage_prefers_nonzero_input_output :
  forall (u : Usage) (i o : Z),
    input_tokens u = Some i -> output_tokens u = Some o ->
    (i <> 0%Z -> input (extractUsage (Some u)) = i) /\
    (o <> 0%Z -> output (extractUsage (Some u)) = o) /\
    (i = 0%Z -> input (extractUsage (Some u)) = nullish (prompt_tokens u) 0%Z) /\
    (o = 0%Z -> output (extractUsage (Some u)) = nullish (completion_tokens u) 0%Z).
Proof.
  intros u i o Hi Ho.
  cbn [extractUsage input output].
  unfold rawInput, rawOutput, inputR, outputR, inputC, outputC, orElse.
  rewrite Hi, Ho. cbn [nullish].
  repeat split; intros H.
  - destruct (Z.eqb_spec i 0); [contradiction|].
    destruct (Z.eqb_spec i 0); [contradiction|reflexivity].
  - destruct (Z.eqb_spec o 0); [contradiction|].
    destruct (Z.eqb_spec o 0); [contradiction|reflexivity].
  - subst i. cbn. now destruct (Z.eqb_spec (nullish (prompt_tokens u) 0%Z) 0).
  - subst o. cbn. now destruct (Z.eqb_spec (nullish (completion_tokens u) 0%Z) 0).
Qed.

Lemma extractUsage_prefers_nonzero_input_output_witness :
  let u := mkUsage (Some 20%Z) (Some 0%Z) (Some 12%Z) (Some 7%Z) None None None None in
  input (extractUsage (Some u)) = 20%Z /\ output (extractUsage (Some u)) = 7%Z.
Proof.
  intros u.
  destruct (extractUsage_prefers_nonzero_input_output u 20%Z 0%Z eq_refl eq_refl)
    as (Hi & _ & _ & Ho).
  split; [apply Hi; discriminate | apply Ho; reflexivity].
Defined.



End PricingFacts.

(** ** The Mistral adapter: uploads *)

Section MistralUploadFacts.
Import Mistral.
Variable C : Type.
Variable client : Client C.

Local Abbreviation uploadOne := (uploadOne C client).
Local Abbreviation uploadLoop := (uploadLoop C client).
Local Abbreviation uploadFiles := (uploadFiles C client).

Lemma validateFile_refused f :
  refused f <-> exists e, DocumentExtractor.validateFile (buffer f) (originalname f) = Err e.
Proof.
  unfold refused, DocumentExtractor.validateFile. split.
  - intros [H|H].
    + rewrite H. cbn. eauto.
    + destruct (buffer f); cbn; [eauto|]. rewrite H. cbn. eauto.
  - intros [e He]. destruct (buffer f); [now left|right].
    cbn in He.
    destruct (DocumentExtractor.isSupportedFormat (originalname f) ""); [discriminate|reflexivity].
Qed.

Lemma validateFile_accepts f :
  ~ refused f <-> DocumentExtractor.validateFile (buffer f) (originalname f) = Ok tt.
Proof.
  rewrite validateFile_refused. split.
  - intros H. destruct (DocumentExtractor.validateFile _ _) as [[]|e]; [reflexivity|].
    exfalso. eauto.
  - intros -> [e He]. discriminate.
Qed.

Lemma uploadOne_refused f e st :
  DocumentExtractor.validateFile (buffer f) (originalname f) = Err e ->
  uploadOne f st = (Err (wrapUploadError f e), st).
Proof. intros H. unfold Mistral.uploadOne. run. now rewrite H. Qed.

Lemma uploadOne_ok_accepted f r st st' :
  uploadOne f st = (Ok r, st') -> ~ refused f.
Proof.
  intros H Hr. apply validateFile_refused in Hr as [e He].
  rewrite (uploadOne_refused f e st He) in H. discriminate.
Qed.

Lemma uploadLoop_app pre post acc st :
  uploadLoop (pre ++ post) acc st =
  match uploadLoop pre acc st with
  | (Ok acc', st1) => uploadLoop post acc' st1
  | (Err e, st1) => (Err e, st1)
  end.
Proof.
  revert acc st. induction pre as [|f pre IH]; intros acc st; [reflexivity|].
  cbn [app Mistral.uploadLoop]. unfold bind.
  destruct (uploadOne f st) as [[r|e] st1]; [apply IH|reflexivity].
Qed.

Lemma uploadLoop_aborts pre bad post acc results st st1 e st2 :
  uploadLoop pre acc st = (Ok results, st1) ->
  uploadOne bad st1 = (Err e, st2) ->
  uploadLoop (pre ++ bad :: post) acc st = (Err e, st2).
Proof.
  intros Hpre Hbad. rewrite uploadLoop_app, Hpre.
  cbn [Mistral.uploadLoop]. unfold bind. now rewrite Hbad.
Qed.

Lemma uploadLoop_refused files acc st :
  Exists refused files -> isErr (fst (uploadLoop files acc st)) = true.
Proof.
  intros H. revert acc st. induction H as [f rest Hf | f rest _ IH]; intros acc st.
  - apply validateFile_refused in Hf as [e He].
    cbn [Mistral.uploadLoop]. unfold bind.
    now rewrite (uploadOne_refused f e st He).
  - cbn [Mistral.uploadLoop]. unfold bind.
    destruct (uploadOne f st) as [[r|e] st1]; [apply IH|reflexivity].
Qed.

Lemma uploadLoop_first_accepted f rest acc results st st1 :
  uploadLoop (f :: rest) acc st = (Ok results, st1) -> ~ refused f.
Proof.
  cbn [Mistral.uploadLoop]. unfold bind.
  destruct (uploadOne f st) as [[r|e] st'] eqn:E; [|discriminate].
  intros _. eapply uploadOne_ok_accepted, E.
Qed.

Lemma mistral_upload_empty st : uploadFiles [] st = (Err noFilesError, st).
Proof. reflexivity. Qed.

Lemma mistral_upload_first_empty f rest st :
  buffer f = [] -> uploadFiles (f :: rest) st = (Err DocumentExtractor.emptyFileError, st).
Proof.
  intros H. unfold Mistral.uploadFiles, DocumentExtractor.validateFile.
  rewrite H. reflexivity.
Qed.

Lemma mistral_upload_first_unsupported f rest st :
  buffer f <> [] ->
  DocumentExtractor.isSupportedFormat (originalname f) "" = false ->
  uploadFiles (f :: rest) st =
    (Err (DocumentExtractor.unsupportedFormatError (originalname f)), st).
Proof.
  intros Hb H. unfold Mistral.uploadFiles, DocumentExtractor.validateFile.
  destruct (buffer f); [contradiction|]. cbn. rewrite H. reflexivity.
Qed.

Lemma mistral_upload_refused files f st :
  In f files -> refused f -> isErr (fst (uploadFiles files st)) = true.
Proof.
  intros Hin Hf. unfold Mistral.uploadFiles.
  destruct files as [|first rest]; [reflexivity|].
  destruct (DocumentExtractor.validateFile (buffer first) (originalname first)) as [[]|e];
    [|reflexivity].
  apply uploadLoop_refused, List.Exists_exists. eauto.
Qed.

Lemma mistral_upload_aborts first pre bad post results st st1 e st2 :
  uploadLoop (first :: pre) [] st = (Ok results, st1) ->
  uploadOne bad st1 = (Err e, st2) ->
  uploadFiles ((first :: pre) ++ bad :: post) st = (Err e, st2).
Proof.
  intros Hpre Hbad.
  pose proof (uploadLoop_first_accepted _ _ _ _ _ _ Hpre) as Hfirst.
  apply validateFile_accepts in Hfirst.
  unfold Mistral.uploadFiles. cbn [app]. rewrite Hfirst.
  exact (uploadLoop_aborts (first :: pre) bad post [] results st st1 e st2 Hpre Hbad).
Qed.

End MistralUploadFacts.

(** ** The ChatGPT adapter: uploads *)

Section ChatGPTUploadFacts.
Import ChatGPT.
Variable C : Type.
Variable client : Client C.

Local Abbreviation uploadLoop := (uploadLoop C client).
Local Abbreviation uploadFiles := (uploadFiles C client).

Lemma chatgpt_uploadLoop_app pre post acc st :
  uploadLoop (pre ++ post) acc st =
  match uploadLoop pre acc st with
  | (Ok acc', st1) => uploadLoop post acc' st1
  | (Err e, st1) => (Err e, st1)
  end.
Proof.
  revert acc st. induction pre as [|f pre IH]; intros acc st; [reflexivity|].
  cbn [app ChatGPT.uploadLoop]. unfold bind, perform.
  destruct (files_create C client (originalname f) (buffer f) (remote st)) as [[id|e] c1];
    [|reflexivity].
  unfold setMeta. apply IH.
Qed.

Lemma chatgpt_upload_empty st : uploadFiles [] st = (Err noFilesError, st).
Proof. reflexivity. Qed.

Lemma chatgpt_upload_aborts pre bad post results st st1 e c2 :
  uploadLoop pre [] st = (Ok results, st1) ->
  files_create C client (originalname bad) (buffer bad) (remote st1) = (Err e, c2) ->
  uploadFiles (pre ++ bad :: post) st =
    (Err e, mkState c2 (calls st1 ++ [CallCreate (originalname bad) (buffer bad)])
                    (fileMetaById st1)).
Proof.
  intros Hpre Hbad.
  assert (H : uploadLoop (pre ++ bad :: post) [] st =
              (Err e, mkState c2 (calls st1 ++ [CallCreate (originalname bad) (buffer bad)])
                              (fileMetaById st1))).
  { rewrite chatgpt_uploadLoop_app, Hpre.
    cbn [ChatGPT.uploadLoop]. unfold bind, perform. now rewrite Hbad. }
  unfold ChatGPT.uploadFiles. destruct pre; exact H.
Qed.

(** The adapter looks at neither the bytes nor the name: with a provider
    that takes every file, every non-empty batch is uploaded. *)
Lemma chatgpt_uploadLoop_accepts files acc st :
  (forall name content c, isOk (fst (files_create C client name content c)) = true) ->
  isOk (fst (uploadLoop files acc st)) = true.
Proof.
  intros Hacc. revert acc st. induction files as [|f rest IH]; intros acc st; [reflexivity|].
  cbn [ChatGPT.uploadLoop]. unfold bind, perform.
  specialize (Hacc (originalname f) (buffer f) (remote st)).
  destruct (files_create C client (originalname f) (buffer f) (remote st)) as [[id|e] c1];
    [|discriminate].
  unfold setMeta. apply IH.
Qed.

Lemma chatgpt_upload_accepts files st :
  files <> [] ->
  (forall name content c, isOk (fst (files_create C client name content c)) = true) ->
  isOk (fst (uploadFiles files st)) = true.
Proof.
  intros Hne Hacc. unfold ChatGPT.uploadFiles.
  destruct files; [contradiction|]. now apply chatgpt_uploadLoop_accepts.
Qed.

End ChatGPTUploadFacts.

(** ** C7: [uploadFiles] *)

(** C7, counterexample: the ChatGPT adapter uploads a file of zero bytes
    whose name has the extension [.xyz]; nothing fails. *)
Lemma chatgpt_uploads_empty_unsupported_file :
  fst (ChatGPT.uploadFiles unit acceptingOpenAI
         [mkUploadFile [] "notes.xyz" 0] (ChatGPT.mkState tt [] ∅))
  = Ok [mkUploadedFile "notes.xyz" 0 "file-1"] /\
  ChatGPT.calls (snd (ChatGPT.uploadFiles unit acceptingOpenAI
         [mkUploadFile [] "notes.xyz" 0] (ChatGPT.mkState tt [] ∅)))
  = [ChatGPT.CallCreate "notes.xyz" []].
Proof. split; reflexivity. Qed.

(** C7, amended.  Both adapters fail on an empty sequence and stop at the
    first file that fails, with that file's error, without touching the
    files after it.  The Mistral adapter fails whenever a file of the batch
    is empty or has a name outside the accepted extensions (for the first
    file with the plain validation error, before anything is uploaded).  The
    ChatGPT adapter checks neither size nor name: it hands every file to the
    provider and fails only when the provider does. *)
Theorem uploadFiles_validation_and_abort :
  forall (CM : Type) (mistral : Mistral.Client CM) (CG : Type) (chatgpt : ChatGPT.Client CG),
    (* empty sequence *)
    (forall st, Mistral.uploadFiles CM mistral [] st = (Err (Mistral.noFilesError), st)) /\
    (forall st, ChatGPT.uploadFiles CG chatgpt [] st = (Err (ChatGPT.noFilesError), st)) /\
    (* Mistral: validation *)
    (forall files f st, In f files -> refused f ->
        isErr (fst (Mistral.uploadFiles CM mistral files st)) = true) /\
    (forall f rest st, buffer f = [] ->
        Mistral.uploadFiles CM mistral (f :: rest) st
        = (Err DocumentExtractor.emptyFileError, st)) /\
    (forall f rest st, buffer f <> [] ->
        DocumentExtractor.isSupportedFormat (originalname f) "" = false ->
        Mistral.uploadFiles CM mistral (f :: rest) st
        = (Err (DocumentExtractor.unsupportedFormatError (originalname f)), st)) /\
    (* Mistral: a failure after the first file *)
    (forall first pre bad post results st st1 e st2,
        Mistral.uploadLoop CM mistral (first :: pre) [] st = (Ok results, st1) ->
        Mistral.uploadOne CM mistral bad st1 = (Err e, st2) ->
        Mistral.uploadFiles CM mistral ((first :: pre) ++ bad :: post) st = (Err e, st2)) /\
    (forall bad e st,
        DocumentExtractor.validateFile (buffer bad) (originalname bad) = Err e ->
        Mistral.uploadOne CM mistral bad st = (Err (wrapUploadError bad e), st)) /\
    (* ChatGPT: the provider's failure, unchanged *)
    (forall pre bad post results st st1 e c2,
        ChatGPT.uploadLoop CG chatgpt pre [] st = (Ok results, st1) ->
        ChatGPT.files_create CG chatgpt (originalname bad) (buffer bad) (ChatGPT.remote st1)
          = (Err e, c2) ->
        ChatGPT.uploadFiles CG chatgpt (pre ++ bad :: post) st
        = (Err e, ChatGPT.mkState c2
                    (ChatGPT.calls st1 ++ [ChatGPT.CallCreate (originalname bad) (buffer bad)])
                    (ChatGPT.fileMetaById st1))) /\
    (* ChatGPT: no validation of its own *)
    (forall files st, files <> [] ->
        (forall name content c,
            isOk (fst (ChatGPT.files_create CG chatgpt name content c)) = true) ->
        isOk (fst (ChatGPT.uploadFiles CG chatgpt files st)) = true).
Proof.
  intros CM mistral CG chatgpt.
  repeat split.
  - intros files f st. apply mistral_upload_refused.
  - intros f rest st. apply mistral_upload_first_empty.
  - intros f rest st. apply mistral_upload_first_unsupported.
  - intros first pre bad post results st st1 e st2. apply mistral_upload_aborts.
  - intros bad e st. apply uploadOne_refused.
  - intros pre bad post results st st1 e c2. apply chatgpt_upload_aborts.
  - intros files st. apply chatgpt_upload_accepts.
Qed.

Lemma uploadFiles_validation_and_abort_witness :
  let good := mkUploadFile [Byte.x61] "report.pdf" 1 in
  let empty := mkUploadFile [] "scan.png" 0 in
  let text := mkUploadFile [Byte.x61] "notes.txt" 1 in
  let st := Mistral.mkState tt [] in
  (* a refused file anywhere in the batch *)
  isErr (fst (Mistral.uploadFiles unit answeringMistral [good; text] st)) = true /\
  (* the second file is empty: the first was uploaded, the third was not *)
  Mistral.uploadFiles unit answeringMistral ([good] ++ empty :: [good]) st
  = (Err (wrapUploadError empty DocumentExtractor.emptyFileError),
     Mistral.mkState tt [Mistral.CallUpload "report.pdf" [Byte.x61]]) /\
  (* the ChatGPT adapter takes the same batch *)
  isOk (fst (ChatGPT.uploadFiles unit acceptingOpenAI [good; empty; text]
               (ChatGPT.mkState tt [] ∅))) = true.
Proof.
  intros good empty text st.
  destruct (uploadFiles_validation_and_abort unit answeringMistral unit acceptingOpenAI)
    as (_ & _ & Hrefused & _ & _ & Habort & _ & _ & Haccept).
  split; [|split].
  - apply (Hrefused [good; text] text st).
    + right. left. reflexivity.
    + right. reflexivity.
  - apply (Habort good [] empty [good] [mkUploadedFile "report.pdf" 1 "file-1"] st
             (Mistral.mkState tt [Mistral.CallUpload "report.pdf" [Byte.x61]])).
    + reflexivity.
    + reflexivity.
  - apply Haccept.
    + discriminate.
    + intros name content c. reflexivity.
Defined.

(** ** C5: [deleteFile] *)

Lemma mistral_deleteFile_run (C : Type) (client : Mistral.Client C) fileId st :
  Mistral.deleteFile C client fileId st =
  (Ok tt, Mistral.mkState (snd (Mistral.files_delete C client fileId (Mistral.remote st)))
                          (Mistral.calls st ++ [Mistral.CallDelete fileId])).
Proof.
  unfold Mistral.deleteFile, Mistral.perform. run.
  destruct (Mistral.files_delete C client fileId (Mistral.remote st)) as [[[]|e] c']; reflexivity.
Qed.

(** X1.  The Mistral adapter: whatever the provider answers to the deletion,
    [deleteFile] settles without an error, after exactly one call to
    [client.files.delete]. *)
Theorem mistral_deleteFile_never_raises (C : Type) (client : Mistral.Client C) fileId st :
  fst (Mistral.deleteFile C client fileId st) = Ok tt /\
  Mistral.calls (snd (Mistral.deleteFile C client fileId st))
  = (Mistral.calls st ++ [Mistral.CallDelete fileId])%list.
Proof. now rewrite mistral_deleteFile_run. Qed.

(** The first declaration of [deleteFile] in [ChatGPTAdapter] does not raise
    either. *)
Lemma chatgpt_deleteFile_first_never_raises (C : Type) (client : ChatGPT.Client C) fileId st :
  fst (ChatGPT.deleteFile_first C client fileId st) = Ok tt.
Proof.
  unfold ChatGPT.deleteFile_first, ChatGPT.perform, ChatGPT.deleteMeta. run.
  destruct (ChatGPT.files_delete C client fileId (ChatGPT.remote st)) as [[[]|e] c']; reflexivity.
Qed.

(** C5.  The method that instances of [ChatGPTAdapter] have is the second
    declaration: for every client, file id and state, [deleteFile] rejects,
    and the provider is not called. *)
Theorem chatgpt_deleteFile_always_raises :
  forall (C : Type) (client : ChatGPT.Client C) (fileId : string) (st : ChatGPT.State C),
    ChatGPT.deleteFile C client fileId st = (Err ChatGPT.deleteUnsupportedError, st).
Proof. reflexivity. Qed.

(** ** C6: [extractTextFromFile] *)

(** C6, counterexample: the response has none of the three shapes, and
    [extractTextFromFile] does not fail: it returns the JSON text of the
    response. *)
Lemma extractTextFromFile_unknown_shape_succeeds :
  recognizedShape (Mistral.RespObject Mistral.ContentsOther None "{}") = false /\
  Mistral.extractTextFromFile unit unknownShapeOcr "file-1" (Mistral.mkState tt [])
  = (Ok "{}", Mistral.mkState tt [Mistral.CallOcr "file-1"]).
Proof. split; reflexivity. Qed.

Section MistralExtractFacts.
Import Mistral.
Variable C : Type.
Variable client : Client C.

Lemma extractTextFromFile_run fileId st :
  extractTextFromFile C client fileId st =
  (ocrOutcome (fst (ocr_process C client fileId (remote st))),
   mkState (snd (ocr_process C client fileId (remote st))) (calls st ++ [CallOcr fileId])).
Proof.
  unfold extractTextFromFile, perform. run.
  destruct (ocr_process C client fileId (remote st)) as [[response|e] c']; cbn [fst snd ocrOutcome];
    [|reflexivity].
  destruct (falsy response); [reflexivity|].
  destruct (String.eqb (extractedText response) ""); reflexivity.
Qed.

Lemma extractTextFromFile_fails_iff fileId st :
  isErr (fst (extractTextFromFile C client fileId st)) = true <->
  match fst (ocr_process C client fileId (remote st)) with
  | Err _ => True
  | Ok response => falsy response = true \/ extractedText response = ""
  end.
Proof.
  rewrite extractTextFromFile_run. cbn [fst].
  destruct (fst (ocr_process C client fileId (remote st))) as [response|e]; cbn [ocrOutcome];
    [|now split].
  destruct (falsy response); [now split; auto|].
  destruct (String.eqb_spec (extractedText response) "") as [E|E].
  - split; auto.
  - split; [discriminate|]. intros [H|H]; [discriminate|contradiction].
Qed.

End MistralExtractFacts.

(** C6, amended.  The Mistral adapter reads the OCR answer in a fixed
    order: [contents] when it is an array (the non-empty texts of its
    elements, joined by two line feeds; [pages] is then ignored), else
    [contents] when it is a non-empty string, else [pages] when it is an
    array (the texts of its pages, joined by two line feeds).  Beyond these
    it goes on: an answer that is itself a string is taken as the text, any
    other answer is taken as its JSON text, and so is an element that has
    neither [text] nor [content].  It fails, with the error rewrapped as
    [Erreur OCR: ...], exactly when the OCR call fails, the answer is falsy,
    or the text obtained this way is empty.  The ChatGPT adapter rejects
    every call. *)
Theorem extractTextFromFile_order_and_fallbacks :
  forall (CM : Type) (mistral : Mistral.Client CM) (CG : Type),
    let sep := (JsString.nl ++ JsString.nl)%string in
    (forall items pages json,
        Mistral.extractedText (Mistral.RespObject (Mistral.ContentsArray items) pages json)
        = JsString.join sep (List.filter Mistral.nonEmpty (List.map Mistral.contentText items))) /\
    (forall s pages json, s <> "" ->
        Mistral.extractedText (Mistral.RespObject (Mistral.ContentsString s) pages json) = s) /\
    (forall contents ps json,
        contents = Mistral.ContentsOther \/ contents = Mistral.ContentsString "" ->
        Mistral.extractedText (Mistral.RespObject contents (Some ps) json)
        = JsString.join sep (imap Mistral.pageText ps)) /\
    (forall contents json,
        contents = Mistral.ContentsOther \/ contents = Mistral.ContentsString "" ->
        Mistral.extractedText (Mistral.RespObject contents None json) = json) /\
    (forall s, Mistral.extractedText (Mistral.RespString s) = s) /\
    (forall json i,
        Mistral.contentText (Mistral.ItemObject None None json) = json /\
        Mistral.pageText i (Mistral.ItemObject None None json)
        = ("[Page " ++ pretty (i + 1)%nat ++ "] " ++ json)%string) /\
    (forall fileId st,
        isErr (fst (Mistral.extractTextFromFile CM mistral fileId st)) = true <->
        match fst (Mistral.ocr_process CM mistral fileId (Mistral.remote st)) with
        | Err _ => True
        | Ok response =>
            Mistral.falsy response = true \/ Mistral.extractedText response = ""
        end) /\
    (forall fileId st,
        fst (Mistral.extractTextFromFile CM mistral fileId st)
        = ocrOutcome (fst (Mistral.ocr_process CM mistral fileId (Mistral.remote st)))) /\
    (forall fileId (st : ChatGPT.State CG),
        ChatGPT.extractTextFromFile CG fileId st = (Err ChatGPT.extractUnsupportedError, st)).
Proof.
  intros CM mistral CG sep. repeat split.
  - intros s pages json Hs. cbn. unfold Mistral.nonEmpty.
    destruct (String.eqb_spec s ""); [contradiction|reflexivity].
  - intros contents ps json [-> | ->]; reflexivity.
  - intros contents json [-> | ->]; reflexivity.
  - apply extractTextFromFile_fails_iff.
  - apply extractTextFromFile_fails_iff.
  - intros fileId st. now rewrite extractTextFromFile_run.
Qed.

Lemma extractTextFromFile_order_and_fallbacks_witness :
  Mistral.extractedText
    (Mistral.RespObject (Mistral.ContentsString "plain") (Some [Mistral.ItemString "page"]) "{}")
  = "plain" /\
  Mistral.extractedText
    (Mistral.RespObject Mistral.ContentsOther (Some [Mistral.ItemString "p1"; Mistral.ItemString "p2"]) "{}")
  = ("p1" ++ JsString.nl ++ JsString.nl ++ "p2")%string /\
  isErr (fst (Mistral.extractTextFromFile unit unknownShapeOcr "file-1" (Mistral.mkState tt [])))
  = false.
Proof.
  destruct (extractTextFromFile_order_and_fallbacks unit unknownShapeOcr unit)
    as (_ & Hstring & Hpages & _ & _ & _ & Hfails & _ & _).
  split; [|split].
  - apply Hstring. discriminate.
  - rewrite (Hpages Mistral.ContentsOther); [reflexivity | left; reflexivity].
  - destruct (isErr (fst (Mistral.extractTextFromFile unit unknownShapeOcr "file-1"
                            (Mistral.mkState tt [])))) eqn:E; [|reflexivity].
    apply Hfails in E. cbn in E. destruct E; discriminate.
Defined.

(** ** C8: attached files in [sendChatRequest] *)


Lemma append_nil_r (s : string) : (s ++ "")%string = s.
Proof.
  induction s as [|a s IH]; [reflexivity|].
  change (String a (s ++ "") = String a s). now rewrite IH.
Qed.

Lemma append_assoc (s t u : string) : ((s ++ t) ++ u)%string = (s ++ t ++ u)%string.
Proof.
  induction s as [|a s IH]; [reflexivity|].
  change (String a ((s ++ t) ++ u) = String a (s ++ t ++ u)). now rewrite IH.
Qed.

Lemma map_copy_messages (l : list StandardizedMessage) :
  List.map (fun m => mkMessage (role m) (content m)) l = l.
Proof. induction l as [|[r c] l IH]; cbn; [reflexivity | now rewrite IH]. Qed.

Lemma appendToLastUser_snoc init last documentContext :
  Mistral.appendToLastUser (init ++ [last]) documentContext =
  (init ++ [if String.eqb (role last) "user"
            then mkMessage (role last) (content last ++ documentContext)%string
            else last])%list.
Proof.
  induction init as [|m init IH].
  - cbn. now destruct (String.eqb (role last) "user").
  - cbn [app]. rewrite <- IH. cbn [Mistral.appendToLastUser].
    destruct (init ++ [last])%list eqn:E; [|reflexivity].
    now destruct init.
Qed.

Section MistralAttachFacts.
Import Mistral.
Variable C : Type.
Variable client : Client C.
Variable maxTokens : Z.

Local Abbreviation extractTextFromFile := (extractTextFromFile C client).
Local Abbreviation deleteFile := (deleteFile C client).
Local Abbreviation attachFile := (attachFile C client).
Local Abbreviation attachFiles := (attachFiles C client).
Local Abbreviation sendChatRequest := (sendChatRequest C client maxTokens).



Lemma attachFile_extracted fileId documentContext st text st1 :
  extractTextFromFile fileId st = (Ok text, st1) ->
  attachFile fileId documentContext st =
  (Ok (documentContext ++ fileSection fileId (truncate text))%string,
   snd (deleteFile fileId st1)).
Proof.
  intros H. unfold Mistral.attachFile.
  unfold tryCatch at 1. unfold bind at 1. rewrite H.
  unfold bind, tryCatch. rewrite mistral_deleteFile_run. reflexivity.
Qed.

Lemma attachFile_failed fileId documentContext st e st1 :
  extractTextFromFile fileId st = (Err e, st1) ->
  attachFile fileId documentContext st =
  (Ok (documentContext ++ fileErrorSection fileId)%string, st1).
Proof.
  intros H. unfold Mistral.attachFile.
  unfold tryCatch at 1. unfold bind at 1. now rewrite H.
Qed.

Lemma attachFile_total fileId documentContext st :
  exists suffix st', attachFile fileId documentContext st
                     = (Ok (documentContext ++ suffix)%string, st').
Proof.
  destruct (extractTextFromFile fileId st) as [[text|e] st1] eqn:E.
  - rewrite (attachFile_extracted _ _ _ _ _ E). eauto.
  - rewrite (attachFile_failed _ _ _ _ _ E). eauto.
Qed.

Lemma attachFiles_total file_ids documentContext st :
  exists suffix st', attachFiles file_ids documentContext st
                     = (Ok (documentContext ++ suffix)%string, st').
Proof.
  revert documentContext st.
  induction file_ids as [|fileId rest IH]; intros documentContext st.
  - exists ""%string, st. cbn. unfold ret. now rewrite append_nil_r.
  - cbn [Mistral.attachFiles]. unfold bind.
    destruct (attachFile_total fileId documentContext st) as (s1 & st1 & ->).
    destruct (IH (documentContext ++ s1)%string st1) as (s2 & st2 & ->).
    exists (s1 ++ s2)%string, st2. now rewrite append_assoc.
Qed.




End MistralAttachFacts.



(** ** The store *)

Section DbFacts.
Variable user_name : string.

Local Abbreviation ensureRow := (ensureRow user_name).
Local Abbreviation ensuredRow := (ensuredRow user_name).
Local Abbreviation countedUsers := (countedUsers user_name).

Lemma ensureUserExists_run users :
  Db.ensureUserExists user_name (Db.mkStore None users)
  = (Ok tt, Db.mkStore None (ensureRow users)).
Proof.
  unfold Db.ensureUserExists, Db.connectDB, ensureRow. run. cbn.
  destruct (users !! user_name); reflexivity.
Qed.

Lemma addRequest_run users :
  Db.addRequest user_name (Db.mkStore None users)
  = (Ok tt, Db.mkStore None (alter Db.bumpRequests user_name users)).
Proof. reflexivity. Qed.

Lemma addRequestWithFiles_run users :
  Db.addRequestWithFiles user_name (Db.mkStore None users)
  = (Ok tt, Db.mkStore None (alter Db.bumpRequestsWithFiles user_name users)).
Proof. reflexivity. Qed.

Lemma addTokens_run n users :
  Db.addTokens user_name n (Db.mkStore None users)
  = (Ok tt, Db.mkStore None (alter (Db.plusTokens n) user_name users)).
Proof. reflexivity. Qed.

Lemma addCost_run c users :
  Db.addCost user_name c (Db.mkStore None users)
  = (Ok tt, Db.mkStore None (alter (Db.plusCost c) user_name users)).
Proof. reflexivity. Qed.

Lemma getTotalCost_run users :
  Db.getTotalCost user_name (Db.mkStore None users)
  = (Ok (Finite (Pricing.nullish (users !! user_name ≫= Db.totalCost) 0%Q)),
     Db.mkStore None users).
Proof. reflexivity. Qed.

Lemma getCostLimit_run users :
  Db.getCostLimit user_name (Db.mkStore None users)
  = (Ok (Finite (Pricing.nullish (users !! user_name ≫= Db.maxCost) 2%Q)),
     Db.mkStore None users).
Proof. reflexivity. Qed.

Lemma lookup_ensureRow users : ensureRow users !! user_name = Some (ensuredRow users).
Proof.
  unfold ensureRow, ensuredRow.
  destruct (users !! user_name) eqn:E; cbn; [exact E | apply lookup_insert_eq].
Qed.

Lemma lookup_countedUsers files users :
  countedUsers files users !! user_name = Some (countedRow files (ensuredRow users)).
Proof.
  unfold countedUsers, countedRow.
  destruct files; rewrite ?lookup_alter_eq, lookup_ensureRow; reflexivity.
Qed.

Lemma lookup_countedUsers_other files users other :
  other <> user_name -> countedUsers files users !! other = users !! other.
Proof.
  intros Hne. unfold countedUsers.
  assert (He : ensureRow users !! other = users !! other).
  { unfold ensureRow. destruct (users !! user_name); [reflexivity|].
    now rewrite lookup_insert_ne. }
  destruct files; rewrite ?lookup_alter_ne by congruence; exact He.
Qed.

Lemma countedUsers_totalCost files users :
  Pricing.nullish (countedUsers files users !! user_name ≫= Db.totalCost) 0%Q
  = Pricing.nullish (users !! user_name ≫= Db.totalCost) 0%Q.
Proof.
  rewrite lookup_countedUsers. unfold ensuredRow, countedRow.
  destruct (users !! user_name) as [r|]; destruct files; reflexivity.
Qed.

Lemma countedUsers_maxCost files users :
  Pricing.nullish (countedUsers files users !! user_name ≫= Db.maxCost) 2%Q
  = Pricing.nullish (users !! user_name ≫= Db.maxCost) 2%Q.
Proof.
  rewrite lookup_countedUsers. unfold ensuredRow, countedRow.
  destruct (users !! user_name) as [r|]; destruct files; reflexivity.
Qed.

End DbFacts.

(** ** The chat service *)

Lemma bind_ok {S X Y} (m : Async S X) (k : X -> Async S Y) s x s' :
  m s = (Ok x, s') -> bind m k s = k x s'.
Proof. intros H. unfold bind. now rewrite H. Qed.

Lemma bind_err {S X Y} (m : Async S X) (k : X -> Async S Y) s e s' :
  m s = (Err e, s') -> bind m k s = (Err e, s').
Proof. intros H. unfold bind. now rewrite H. Qed.

Section ServiceFacts.
Import ChatService.
Context {A : Type} {adapter : BaseAdapter A}.
Variable costLimit : Q.
Variable username : string.

Local Abbreviation processChatRequest :=
  (processChatRequest (adapter := adapter) costLimit username).
Local Abbreviation accumulatedCost := (accumulatedCost username).
Local Abbreviation effectiveLimit := (effectiveLimit costLimit username).
Local Abbreviation prologue := (prologue username).
Local Abbreviation afterPrologue := (afterPrologue (A := A) username).
Local Abbreviation bookkeepingEvents := (bookkeepingEvents username).
Local Abbreviation bookkeptUsers := (bookkeptUsers username).

(** [processChatRequest] on a store that can be reached, step by step. *)
Lemma processChatRequest_run rawRequest model w :
  Db.connectError (db w) = None ->
  processChatRequest rawRequest model w =
  let w1 := afterPrologue (hasFiles rawRequest) w in
  if js_ge (accumulatedCost (db w)) (effectiveLimit (db w))
  then (Ok limitResponse, w1)
  else
    match _normalizeRequest rawRequest model with
    | Err e => (Err e, w1)
    | Ok processedRequest =>
        match sendChatRequest processedRequest (adapter_state w) with
        | (Err e, a') =>
            (Err e, mkWorld (db w1) a' (journal w1 ++ [SendChatRequest processedRequest]))
        | (Ok response, a') =>
            let cost := Pricing.computeCostFromUsage (resp_usage response) model in
            (Ok (mkServiceResponse (resp_content response) (resp_usage response) cost false),
             mkWorld (Db.mkStore None (bookkeptUsers response cost (Db.users (db w1)))) a'
                     (journal w1 ++ [SendChatRequest processedRequest]
                      ++ bookkeepingEvents response cost))
        end
    end.
Proof.
  intros Hc. destruct w as [[ce users] a j]. cbn in Hc. subst ce.
  unfold ChatService.processChatRequest.
  erewrite bind_ok by (unfold callDb; cbn [db]; rewrite ensureUserExists_run; reflexivity).
  erewrite bind_ok by (unfold callDb; cbn [db]; rewrite addRequest_run; reflexivity).
  cbn [adapter_state journal].
  erewrite bind_ok with
    (s' := mkWorld (Db.mkStore None (countedUsers username (hasFiles rawRequest) users)) a
             (j ++ [EnsureUserExists username; AddRequest username]
                ++ (if hasFiles rawRequest then [AddRequestWithFiles username] else [])));
    cycle 1.
  { unfold countedUsers. destruct (hasFiles rawRequest).
    - unfold callDb. cbn [db]. rewrite addRequestWithFiles_run.
      cbn [adapter_state journal]. now rewrite <- !app_assoc.
    - unfold ret. now rewrite <- !app_assoc. }
  erewrite bind_ok by (unfold callDb; cbn [db]; rewrite getTotalCost_run; reflexivity).
  erewrite bind_ok by (unfold callDb; cbn [db]; rewrite getCostLimit_run; reflexivity).
  cbn [adapter_state journal db].
  rewrite countedUsers_totalCost, countedUsers_maxCost.
  unfold afterPrologue, prologue, accumulatedCost, effectiveLimit.
  cbn [db adapter_state journal Db.users].
  rewrite <- !app_assoc. cbn [app].
  destruct (js_ge _ _); [reflexivity|].
  destruct (_normalizeRequest rawRequest model) as [request|e]; [|reflexivity].
  unfold tryCatch, bind at 1, callAdapter. cbn [adapter_state db journal].
  destruct (sendChatRequest request a) as [[response|e] a']; [|unfold throw; now rewrite <- !app_assoc].
  unfold bookkeptUsers, bookkeepingEvents.
  destruct (negb (tokensUsed response =? 0)).
  - erewrite bind_ok by (unfold callDb; cbn [db]; rewrite addTokens_run; reflexivity).
    cbn [Number_isFinite].
    erewrite bind_ok by (unfold callDb; cbn [db]; rewrite addCost_run; reflexivity).
    unfold ret. cbn [adapter_state journal]. now rewrite <- !app_assoc.
  - erewrite bind_ok by reflexivity.
    cbn [Number_isFinite].
    erewrite bind_ok by (unfold callDb; cbn [db]; rewrite addCost_run; reflexivity).
    unfold ret. cbn [adapter_state journal]. now rewrite <- !app_assoc.
Qed.

Lemma lookup_bookkeptUsers response cost users r :
  users !! username = Some r ->
  exists r', bookkeptUsers response cost users !! username = Some r' /\
             Db.totalRequests r' = Db.totalRequests r /\
             Db.totalRequestsWithFiles r' = Db.totalRequestsWithFiles r.
Proof.
  intros H. unfold bookkeptUsers.
  destruct (negb (tokensUsed response =? 0));
    rewrite ?lookup_alter_eq, H; cbn; eauto.
Qed.

End ServiceFacts.

Lemma prologue_no_send username files : List.filter isSend (prologue username files) = [].
Proof. destruct files; reflexivity. Qed.

Lemma prologue_no_bookkeeping username files :
  List.filter isBookkeeping (prologue username files) = [].
Proof. destruct files; reflexivity. Qed.

(** C1.  When the store can be reached and the user's accumulated cost is
    at least the effective ceiling, [processChatRequest] resolves to
    [{content: '', usage: null, cost: 0, limitReached: true}], the adapter is
    left as it was and its [sendChatRequest] is not called. *)
Theorem processChatRequest_limit_reached :
  forall (A : Type) (adapter : BaseAdapter A) (costLimit : Q) (username : string)
         (rawRequest : ChatService.RawRequest) (model : string) (w : ChatService.World A),
    Db.connectError (ChatService.db w) = None ->
    js_ge (accumulatedCost username (ChatService.db w))
          (effectiveLimit costLimit username (ChatService.db w)) = true ->
    exists w',
      ChatService.processChatRequest costLimit username rawRequest model w
      = (Ok (ChatService.mkServiceResponse "" None 0%Q true), w') /\
      ChatService.adapter_state w' = ChatService.adapter_state w /\
      List.filter isSend (ChatService.journal w') = List.filter isSend (ChatService.journal w).
Proof.
  intros A adapter costLimit username rawRequest model w Hc Hlimit.
  rewrite (processChatRequest_run costLimit username rawRequest model w Hc).
  cbv zeta. rewrite Hlimit.
  eexists. split; [reflexivity|]. split; [reflexivity|].
  cbn [afterPrologue ChatService.journal].
  now rewrite List.filter_app, prologue_no_send, app_nil_r.
Qed.

(** C9.  When the store can be reached, the limit is not reached, the
    request normalizes and the adapter's [sendChatRequest] rejects with
    [e], [processChatRequest] rejects with [e] itself; the adapter was
    called once, and neither [addTokens] nor [addCost] was: the user's
    totals are those read before the call. *)
Theorem processChatRequest_adapter_failure :
  forall (A : Type) (adapter : BaseAdapter A) (costLimit : Q) (username : string)
         (rawRequest : ChatService.RawRequest) (model : string) (w : ChatService.World A)
         (request : ChatRequest) (e : JsError) (a' : A),
    Db.connectError (ChatService.db w) = None ->
    js_ge (accumulatedCost username (ChatService.db w))
          (effectiveLimit costLimit username (ChatService.db w)) = false ->
    ChatService._normalizeRequest rawRequest model = Ok request ->
    sendChatRequest request (ChatService.adapter_state w) = (Err e, a') ->
    exists w',
      ChatService.processChatRequest costLimit username rawRequest model w = (Err e, w') /\
      ChatService.adapter_state w' = a' /\
      ChatService.journal w' =
        (ChatService.journal w ++ prologue username (ChatService.hasFiles rawRequest)
         ++ [ChatService.SendChatRequest request])%list /\
      List.filter isSend (ChatService.journal w') =
        (List.filter isSend (ChatService.journal w) ++ [ChatService.SendChatRequest request])%list /\
      List.filter isBookkeeping (ChatService.journal w') =
        List.filter isBookkeeping (ChatService.journal w) /\
      exists row,
        Db.users (ChatService.db w') !! username = Some row /\
        Db.totalTokens row = Db.totalTokens (ensuredRow username (Db.users (ChatService.db w))) /\
        Db.totalCost row = Db.totalCost (ensuredRow username (Db.users (ChatService.db w))).
Proof.
  intros A adapter costLimit username rawRequest model w request e a' Hc Hlimit Hnorm Hsend.
  rewrite (processChatRequest_run costLimit username rawRequest model w Hc).
  cbv zeta. rewrite Hlimit, Hnorm, Hsend.
  eexists. split; [reflexivity|]. split; [reflexivity|].
  cbn [afterPrologue ChatService.journal ChatService.db Db.users].
  split; [now rewrite <- app_assoc|].
  split; [now rewrite !List.filter_app, prologue_no_send, app_nil_r|].
  split; [now rewrite !List.filter_app, prologue_no_bookkeeping, !app_nil_r|].
  rewrite lookup_countedUsers. eexists. split; [reflexivity|].
  unfold countedRow. destruct (ChatService.hasFiles rawRequest); split; reflexivity.
Qed.

(** C10.  When the store can be reached, whatever becomes of the request,
    [totalRequests] of the user is one more than before (and
    [totalRequestsWithFiles] too when [file_ids] is a non-empty array), and
    the increments are the first calls after [ensureUserExists], ahead of
    the reads of the limit check.  In particular this holds when the
    request is refused for the limit, when it fails for missing input, and
    when the adapter fails. *)
Theorem processChatRequest_counts_before_checks :
  forall (A : Type) (adapter : BaseAdapter A) (costLimit : Q) (username : string)
         (rawRequest : ChatService.RawRequest) (model : string) (w : ChatService.World A),
    Db.connectError (ChatService.db w) = None ->
    let files := ChatService.hasFiles rawRequest in
    let before := ensuredRow username (Db.users (ChatService.db w)) in
    let limit := js_ge (accumulatedCost username (ChatService.db w))
                       (effectiveLimit costLimit username (ChatService.db w)) in
    let result := ChatService.processChatRequest costLimit username rawRequest model w in
    (exists row,
        Db.users (ChatService.db (snd result)) !! username = Some row /\
        Db.totalRequests row = Some (Db.ISNULL (Db.totalRequests before) 0 + 1) /\
        Db.totalRequestsWithFiles row =
          if files then Some (Db.ISNULL (Db.totalRequestsWithFiles before) 0 + 1)
          else Db.totalRequestsWithFiles before) /\
    (exists rest,
        ChatService.journal (snd result) =
        (ChatService.journal w ++ prologue username files ++ rest)%list) /\
    (limit = true -> fst result = Ok ChatService.limitResponse) /\
    (forall e, limit = false ->
        ChatService._normalizeRequest rawRequest model = Err e -> fst result = Err e) /\
    (forall request e a', limit = false ->
        ChatService._normalizeRequest rawRequest model = Ok request ->
        sendChatRequest request (ChatService.adapter_state w) = (Err e, a') ->
        fst result = Err e).
Proof.
  intros A adapter costLimit username rawRequest model w Hc files before limit result.
  subst result.
  rewrite (processChatRequest_run costLimit username rawRequest model w Hc).
  cbv zeta. fold files. fold limit.
  assert (Hrow : exists row,
             countedUsers username files (Db.users (ChatService.db w)) !! username = Some row /\
             Db.totalRequests row = Some (Db.ISNULL (Db.totalRequests before) 0 + 1) /\
             Db.totalRequestsWithFiles row =
               if files then Some (Db.ISNULL (Db.totalRequestsWithFiles before) 0 + 1)
               else Db.totalRequestsWithFiles before).
  { rewrite lookup_countedUsers. eexists. split; [reflexivity|].
    fold before. unfold countedRow. destruct files; split; reflexivity. }
  destruct Hrow as (row & Hrow & Hreq & Hfiles).
  split; [|split; [|split; [|split]]].
  - destruct limit; [exists row; auto|].
    destruct (ChatService._normalizeRequest rawRequest model) as [request|e]; [|exists row; auto].
    destruct (sendChatRequest request (ChatService.adapter_state w)) as [[response|e] a'];
      [|exists row; auto].
    cbn [snd ChatService.db Db.users afterPrologue].
    destruct (lookup_bookkeptUsers username response
                (Pricing.computeCostFromUsage (resp_usage response) model) _ row Hrow)
      as (row' & Hrow' & Hreq' & Hfiles').
    exists row'. rewrite Hreq', Hfiles'. auto.
  - destruct limit; [exists []; cbn; now rewrite app_nil_r|].
    destruct (ChatService._normalizeRequest rawRequest model) as [request|e];
      [|exists []; cbn; now rewrite app_nil_r].
    destruct (sendChatRequest request (ChatService.adapter_state w)) as [[response|e] a'];
      cbn [snd ChatService.journal afterPrologue]; rewrite <- app_assoc; eauto.
  - now intros ->.
  - intros e -> ->. reflexivity.
  - intros request e a' -> -> ->. reflexivity.
Qed.

Lemma processChatRequest_limit_reached_witness :
  exists w',
    ChatService.processChatRequest (adapter := stubAdapter (Ok hiThere)) 2%Q "tbo"
      promptHello "mistral-small" (ChatService.mkWorld (storeOf (5 # 2)) 0%nat [])
    = (Ok (ChatService.mkServiceResponse "" None 0%Q true), w') /\
    ChatService.adapter_state w' = 0%nat /\
    List.filter isSend (ChatService.journal w') = [].
Proof.
  apply (processChatRequest_limit_reached nat (stubAdapter (Ok hiThere)) 2%Q "tbo"
           promptHello "mistral-small" (ChatService.mkWorld (storeOf (5 # 2)) 0%nat [])).
  - reflexivity.
  - vm_compute. reflexivity.
Defined.

Lemma processChatRequest_adapter_failure_witness :
  let w := ChatService.mkWorld (storeOf 0%Q) (Mistral.mkState tt []) [] in
  exists w',
    ChatService.processChatRequest (adapter := Mistral.adapter rateLimitedMistral 4096)
      2%Q "tbo" promptHello "mistral-small" w
    = (Err rateLimitedError, w') /\
    List.filter isBookkeeping (ChatService.journal w') = [] /\
    List.filter isSend (ChatService.journal w')
    = [ChatService.SendChatRequest (mkChatRequest [mkMessage "user" "hello"] [] "mistral-small")].
Proof.
  intros w.
  destruct (processChatRequest_adapter_failure (Mistral.State unit)
              (Mistral.adapter rateLimitedMistral 4096) 2%Q "tbo"
              promptHello "mistral-small" w
              (mkChatRequest [mkMessage "user" "hello"] [] "mistral-small")
              rateLimitedError
              (Mistral.mkState tt
                 [Mistral.CallChat "mistral-small" [mkMessage "user" "hello"] 4096]))
    as (w' & Hrun & _ & _ & Hsend & Hbook & _).
  - reflexivity.
  - vm_compute. reflexivity.
  - reflexivity.
  - reflexivity.
  - exists w'. split; [exact Hrun|]. split; [exact Hbook | exact Hsend].
Defined.

Lemma processChatRequest_counts_before_checks_witness :
  let counted (result : Res ChatService.ServiceChatResponse * ChatService.World nat)
              (requests withFiles : Z) :=
    exists row,
      Db.users (ChatService.db (snd result)) !! "tbo" = Some row /\
      Db.totalRequests row = Some requests /\
      Db.totalRequestsWithFiles row = Some withFiles in
  (* refused for the limit *)
  (let result := ChatService.processChatRequest (adapter := stubAdapter (Ok hiThere)) 2%Q "tbo"
                   promptWithFile "mistral-small"
                   (ChatService.mkWorld (storeOf (5 # 2)) 0%nat []) in
   counted result 8 4 /\ fst result = Ok ChatService.limitResponse) /\
  (* missing input *)
  (let result := ChatService.processChatRequest (adapter := stubAdapter (Ok hiThere)) 2%Q "tbo"
                   noInput "mistral-small"
                   (ChatService.mkWorld (storeOf 0%Q) 0%nat []) in
   counted result 8 3 /\ fst result = Err ChatService.missingInputError) /\
  (* the adapter fails *)
  (let result := ChatService.processChatRequest
                   (adapter := stubAdapter (Err rateLimitedError)) 2%Q "tbo"
                   promptHello "mistral-small"
                   (ChatService.mkWorld (storeOf 0%Q) 0%nat []) in
   counted result 8 3 /\ fst result = Err rateLimitedError).
Proof.
  intros counted. split; [|split].
  - destruct (processChatRequest_counts_before_checks nat (stubAdapter (Ok hiThere)) 2%Q "tbo"
                promptWithFile "mistral-small"
                (ChatService.mkWorld (storeOf (5 # 2)) 0%nat []) eq_refl)
      as (Hrow & _ & Hlimit & _ & _).
    split; [exact Hrow | apply Hlimit; vm_compute; reflexivity].
  - destruct (processChatRequest_counts_before_checks nat (stubAdapter (Ok hiThere)) 2%Q "tbo"
                noInput "mistral-small"
                (ChatService.mkWorld (storeOf 0%Q) 0%nat []) eq_refl)
      as (Hrow & _ & _ & Hmissing & _).
    split; [exact Hrow | apply Hmissing; [vm_compute; reflexivity | reflexivity]].
  - destruct (processChatRequest_counts_before_checks nat (stubAdapter (Err rateLimitedError))
                2%Q "tbo" promptHello "mistral-small"
                (ChatService.mkWorld (storeOf 0%Q) 0%nat []) eq_refl)
      as (Hrow & _ & _ & _ & Hadapter).
    split; [exact Hrow|].
    apply (Hadapter (mkChatRequest [mkMessage "user" "hello"] [] "mistral-small")
             rateLimitedError 1%nat); [vm_compute; reflexivity | reflexivity | reflexivity].
Defined.

(** ** Further properties *)

(** X2.  When the chat API of Mistral answers with status 429, [sendChatRequest]
    (here without attached files) rejects with the rate-limit error of the
    adapter. *)
Theorem mistral_sendChatRequest_maps_rate_limit :
  forall (C : Type) (client : Mistral.Client C) (maxTokens : Z) (request : ChatRequest)
         (st : Mistral.State C) (e : JsError) (c' : C),
    messages request <> [] ->
    file_ids request = [] ->
    Mistral.chat_complete C client (modelOrDefault (model request)) (messages request)
      maxTokens (Mistral.remote st) = (Err e, c') ->
    status e = Some 429 ->
    fst (Mistral.sendChatRequest C client maxTokens request st) = Err rateLimitedError.
Proof.
  intros C client maxTokens request st e c' Hm Hf Hcall Hstatus.
  unfold Mistral.sendChatRequest.
  destruct (messages request) as [|m rest] eqn:E; [contradiction|].
  rewrite <- E in Hcall |- *. rewrite map_copy_messages, Hf.
  unfold bind at 1, ret at 1, tryCatch, bind, Mistral.perform.
  fold (modelOrDefault (model request)).
  rewrite Hcall. unfold throw, Mistral.mapApiError. now rewrite Hstatus.
Qed.

Lemma mistral_sendChatRequest_maps_rate_limit_witness :
  fst (Mistral.sendChatRequest unit rateLimitedMistral 4096
         (mkChatRequest [mkMessage "user" "hello"] [] "mistral-small")
         (Mistral.mkState tt []))
  = Err rateLimitedError.
Proof.
  apply (mistral_sendChatRequest_maps_rate_limit unit rateLimitedMistral 4096
           (mkChatRequest [mkMessage "user" "hello"] [] "mistral-small")
           (Mistral.mkState tt []) (mkJsError "Too Many Requests" (Some 429)) tt).
  - discriminate.
  - reflexivity.
  - reflexivity.
  - reflexivity.
Defined.



(** ** Pricing: how the cost varies with the counts *)

Section PricingMoreFacts.
Import Pricing.
Local Open Scope Q_scope.






End PricingMoreFacts.





(** ** The chat service: normalization *)


(** ** The chat service: what a request does to its collaborators *)

(** X7.  When the store cannot be reached, [processChatRequest] rejects with
    the error of the connection: the only call made is [ensureUserExists],
    the table and the adapter are left as they were, and the adapter is not
    called, whatever the request. *)
Theorem processChatRequest_store_unreachable :
  forall (A : Type) (adapter : BaseAdapter A) (costLimit : Q) (username : string)
         (rawRequest : ChatService.RawRequest) (model : string) (w : ChatService.World A)
         (e : JsError),
    Db.connectError (ChatService.db w) = Some e ->
    ChatService.processChatRequest costLimit username rawRequest model w
    = (Err e, ChatService.mkWorld (ChatService.db w) (ChatService.adapter_state w)
                (ChatService.journal w ++ [ChatService.EnsureUserExists username])).
Proof.
  intros A adapter costLimit username rawRequest model w e Hc.
  unfold ChatService.processChatRequest.
  apply bind_err. unfold ChatService.callDb, Db.ensureUserExists.
  erewrite bind_err; [reflexivity|]. unfold Db.connectDB. now rewrite Hc.
Qed.

Lemma processChatRequest_store_unreachable_witness :
  ChatService.processChatRequest (adapter := stubAdapter (Ok hiThere)) 2%Q "tbo"
    promptHello "mistral-small"
    (ChatService.mkWorld (Db.mkStore (Some (newError "ESOCKET")) ∅) 0%nat [])
  = (Err (newError "ESOCKET"),
     ChatService.mkWorld (Db.mkStore (Some (newError "ESOCKET")) ∅) 0%nat
       [ChatService.EnsureUserExists "tbo"]).
Proof.
  apply (processChatRequest_store_unreachable nat (stubAdapter (Ok hiThere)) 2%Q "tbo"
           promptHello "mistral-small"
           (ChatService.mkWorld (Db.mkStore (Some (newError "ESOCKET")) ∅) 0%nat [])
           (newError "ESOCKET")).
  reflexivity.
Defined.

Lemma bookkeepingEvents_no_send username response cost :
  List.filter isSend (bookkeepingEvents username response cost) = [].
Proof.
  unfold bookkeepingEvents. now destruct (negb (tokensUsed response =? 0)).
Qed.

Lemma normalizeRequest_nonempty rawRequest model request :
  ChatService._normalizeRequest rawRequest model = Ok request -> messages request <> [].
Proof.
  destruct rawRequest as [prompt msgs ids]. unfold ChatService._normalizeRequest.
  cbn [ChatService.raw_messages ChatService.raw_prompt ChatService.raw_file_ids].
  destruct msgs as [[|m ms]|]; destruct prompt as [p|];
    try destruct (String.eqb p ""); intros H; try discriminate H;
    injection H as <-; discriminate.
Qed.

(** X8.  When the store can be reached, one [processChatRequest] calls the
    adapter at most once, and only with the normalized request, whose
    [messages] is never empty; when it does not call it, the adapter is left
    as it was.  [addTokens] and [addCost] are called only when the request
    resolves with [limitReached: false]. *)
Theorem processChatRequest_adapter_called_at_most_once :
  forall (A : Type) (adapter : BaseAdapter A) (costLimit : Q) (username : string)
         (rawRequest : ChatService.RawRequest) (model : string) (w : ChatService.World A),
    Db.connectError (ChatService.db w) = None ->
    let result := ChatService.processChatRequest costLimit username rawRequest model w in
    exists events,
      ChatService.journal (snd result) = (ChatService.journal w ++ events)%list /\
      ((List.filter isSend events = [] /\
        ChatService.adapter_state (snd result) = ChatService.adapter_state w)
       \/
       (exists request,
           List.filter isSend events = [ChatService.SendChatRequest request] /\
           ChatService._normalizeRequest rawRequest model = Ok request /\
           messages request <> [] /\
           ChatService.adapter_state (snd result)
           = snd (sendChatRequest request (ChatService.adapter_state w)))) /\
      (List.filter isBookkeeping events <> [] ->
       exists response, fst result = Ok response /\
                        ChatService.limitReached response = false).
Proof.
  intros A adapter costLimit username rawRequest model w Hc result. subst result.
  rewrite (processChatRequest_run costLimit username rawRequest model w Hc). cbv zeta.
  destruct (js_ge _ _).
  { exists (prologue username (ChatService.hasFiles rawRequest)).
    cbn [snd fst ChatService.journal ChatService.adapter_state afterPrologue].
    split; [reflexivity|]. rewrite prologue_no_send, prologue_no_bookkeeping.
    split; [left; auto | congruence]. }
  destruct (ChatService._normalizeRequest rawRequest model) as [request|e] eqn:Hn.
  2:{ exists (prologue username (ChatService.hasFiles rawRequest)).
      cbn [snd fst ChatService.journal ChatService.adapter_state afterPrologue].
      split; [reflexivity|]. rewrite prologue_no_send, prologue_no_bookkeeping.
      split; [left; auto | congruence]. }
  destruct (sendChatRequest request (ChatService.adapter_state w)) as [[response|e] a'] eqn:Hs.
  - eexists. cbn [snd fst ChatService.journal ChatService.adapter_state afterPrologue].
    split; [now rewrite <- app_assoc|].
    split.
    + right. exists request.
      rewrite !List.filter_app, prologue_no_send, bookkeepingEvents_no_send.
      split; [reflexivity|]. split; [reflexivity|].
      split; [eapply normalizeRequest_nonempty; eassumption | now rewrite Hs].
    + intros _. eexists. split; reflexivity.
  - eexists. cbn [snd fst ChatService.journal ChatService.adapter_state afterPrologue].
    split; [now rewrite <- app_assoc|].
    split.
    + right. exists request. rewrite !List.filter_app, prologue_no_send.
      split; [reflexivity|]. split; [reflexivity|].
      split; [eapply normalizeRequest_nonempty; eassumption | now rewrite Hs].
    + rewrite !List.filter_app, prologue_no_bookkeeping. cbn. congruence.
Qed.

Lemma processChatRequest_adapter_called_at_most_once_witness :
  let w := ChatService.mkWorld (storeOf 0%Q) 0%nat [] in
  let result := ChatService.processChatRequest (adapter := stubAdapter (Ok hiThere)) 2%Q "tbo"
                  noInput "mistral-small" w in
  exists events,
    ChatService.journal (snd result) = events /\
    List.filter isSend events = [] /\
    ChatService.adapter_state (snd result) = 0%nat.
Proof.
  intros w result.
  destruct (processChatRequest_adapter_called_at_most_once nat (stubAdapter (Ok hiThere))
              2%Q "tbo" noInput "mistral-small" w eq_refl)
    as (events & Hj & [[Hs Ha]|(request & _ & Hn & _)] & _).
  - exists events. split; [exact Hj|]. split; [exact Hs | exact Ha].
  - discriminate Hn.
Defined.

(** ** The Mistral adapter: calls made and errors raised *)

Section MistralCallFacts.
Import Mistral.
Variable C : Type.
Variable client : Client C.
Variable maxTokens : Z.

Local Abbreviation extractTextFromFile := (extractTextFromFile C client).
Local Abbreviation attachFile := (attachFile C client).
Local Abbreviation attachFiles := (attachFiles C client).
Local Abbreviation sendChatRequest := (sendChatRequest C client maxTokens).
Local Abbreviation uploadOne := (uploadOne C client).
Local Abbreviation uploadLoop := (uploadLoop C client).
Local Abbreviation uploadFiles := (uploadFiles C client).

Lemma attachFile_calls fileId documentContext st :
  exists ok : bool,
    calls (snd (attachFile fileId documentContext st))
    = (calls st ++ CallOcr fileId :: (if ok then [CallDelete fileId] else []))%list.
Proof.
  destruct (extractTextFromFile fileId st) as [[text|e] st1] eqn:E.
  - exists true. rewrite (attachFile_extracted _ _ _ _ _ _ _ E), mistral_deleteFile_run.
    rewrite extractTextFromFile_run in E. injection E as _ <-.
    cbn [snd calls]. now rewrite <- app_assoc.
  - exists false. rewrite (attachFile_failed _ _ _ _ _ _ _ E).
    rewrite extractTextFromFile_run in E. injection E as _ <-. reflexivity.
Qed.

Lemma attachFiles_calls file_ids documentContext st :
  exists extracted,
    length extracted = length file_ids /\
    calls (snd (attachFiles file_ids documentContext st))
    = (calls st ++ fileCallsOf file_ids extracted)%list.
Proof.
  revert documentContext st.
  induction file_ids as [|fileId rest IH]; intros documentContext st.
  - exists []. split; [reflexivity|]. cbn. now rewrite app_nil_r.
  - cbn [Mistral.attachFiles]. unfold bind.
    destruct (attachFile_calls fileId documentContext st) as [ok Hok].
    destruct (attachFile_total C client fileId documentContext st) as (suffix & st1 & E).
    rewrite E in Hok |- *. cbn [snd] in Hok.
    destruct (IH (documentContext ++ suffix)%string st1) as (extracted & Hlen & Hcalls).
    exists (ok :: extracted). split; [cbn; now rewrite Hlen|].
    rewrite Hcalls, Hok. unfold fileCallsOf. cbn [combine flat_map fst snd].
    now rewrite <- !app_assoc.
Qed.

(** The state in which, and the messages with which, [sendChatRequest]
    reaches the chat API. *)
Lemma sendChatRequest_calls request st :
  messages request <> [] ->
  calls (snd (sendChatRequest request st)) =
  match file_ids request with
  | [] => (calls st ++ [CallChat (modelOrDefault (model request)) (messages request)
                                 maxTokens])%list
  | _ =>
      match attachFiles (file_ids request) documentHeader st with
      | (Ok documentContext, st1) =>
          (calls st1 ++ [CallChat (modelOrDefault (model request))
                           (appendToLastUser (messages request) documentContext)
                           maxTokens])%list
      | (Err _, st1) => calls st1
      end
  end.
Proof.
  intros Hm. unfold Mistral.sendChatRequest.
  destruct (messages request) as [|m ms] eqn:Em; [contradiction|]. rewrite <- Em. clear Em Hm.
  rewrite map_copy_messages. fold (modelOrDefault (model request)).
  destruct (file_ids request) as [|fileId rest].
  - unfold bind at 1, ret at 1. unfold tryCatch, bind, perform.
    destruct (chat_complete C client _ _ maxTokens (remote st)) as [[response|e] c'];
      [|reflexivity].
    cbn [snd]. destruct (choice0_message response); reflexivity.
  - unfold bind at 1. unfold bind at 1.
    destruct (attachFiles (fileId :: rest) documentHeader st) as [[ctx|e] st1]; [|reflexivity].
    unfold ret at 1. unfold tryCatch, bind, perform.
    destruct (chat_complete C client _ _ maxTokens (remote st1)) as [[response|e] c'];
      [|reflexivity].
    cbn [snd]. destruct (choice0_message response); reflexivity.
Qed.


Lemma uploadOne_status f st : noStatus (fst (uploadOne f st)).
Proof.
  unfold Mistral.uploadOne, tryCatch.
  match goal with |- context [match ?m st with _ => _ end] => destruct (m st) as [[r|e] st1] end;
    reflexivity.
Qed.

Lemma uploadLoop_status files acc st : noStatus (fst (uploadLoop files acc st)).
Proof.
  revert acc st. induction files as [|f rest IH]; intros acc st; [exact I|].
  cbn [Mistral.uploadLoop]. unfold bind.
  pose proof (uploadOne_status f st) as H.
  destruct (uploadOne f st) as [[r|e] st1]; [apply IH | exact H].
Qed.

Lemma uploadOne_ok f r st st' :
  uploadOne f st = (Ok r, st') ->
  up_name r = originalname f /\ up_size r = size f /\
  calls st' = (calls st ++ [CallUpload (originalname f) (buffer f)])%list.
Proof.
  unfold Mistral.uploadOne, tryCatch.
  destruct (DocumentExtractor.validateFile (buffer f) (originalname f)) as [[]|e].
  - unfold bind, perform, ret.
    destruct (files_upload C client (originalname f) (buffer f) (remote st)) as [[id|e] c'];
      [|discriminate].
    intros H. injection H as <- <-. auto.
  - unfold throw. discriminate.
Qed.

Lemma uploadLoop_ok files acc results st st' :
  uploadLoop files acc st = (Ok results, st') ->
  exists news,
    results = (acc ++ news)%list /\
    List.map up_name news = List.map originalname files /\
    List.map up_size news = List.map size files /\
    calls st' = (calls st ++ uploadCallsOf files)%list.
Proof.
  revert acc st. induction files as [|f rest IH]; intros acc st.
  - cbn. unfold ret. intros H. injection H as <- <-. exists [].
    now rewrite !app_nil_r.
  - cbn [Mistral.uploadLoop]. unfold bind.
    destruct (uploadOne f st) as [[r|e] st1] eqn:E; [|discriminate].
    intros H. destruct (IH _ _ H) as (news & -> & Hn & Hs & Hc).
    destruct (uploadOne_ok _ _ _ _ E) as (Hrn & Hrs & Hrc).
    exists (r :: news). rewrite <- app_assoc. cbn [app List.map uploadCallsOf].
    rewrite Hn, Hs, Hrn, Hrs, Hc, Hrc, <- app_assoc. auto.
Qed.

Lemma mistral_uploadFiles_noStatus files st : noStatus (fst (uploadFiles files st)).
Proof.
  destruct files as [|first rest]; [reflexivity|]. unfold Mistral.uploadFiles.
  unfold DocumentExtractor.validateFile.
  destruct (buffer first); [reflexivity|]. cbn [negb andb length Nat.eqb].
  destruct (DocumentExtractor.isSupportedFormat (originalname first) "");
    [apply uploadLoop_status | reflexivity].
Qed.

Lemma mistral_extractTextFromFile_noStatus fileId st :
  noStatus (fst (extractTextFromFile fileId st)).
Proof.
  rewrite extractTextFromFile_run. cbn [fst].
  destruct (fst (ocr_process C client fileId (remote st))) as [response|e];
    cbn [ocrOutcome]; [|reflexivity].
  destruct (falsy response); [reflexivity|].
  destruct (String.eqb (extractedText response) ""); reflexivity.
Qed.

Lemma mapApiError_noStatus e : status (mapApiError e) = None.
Proof.
  unfold mapApiError. destruct (status e) as [[|p|p]|]; try reflexivity.
  repeat (destruct p; try reflexivity).
Qed.

Lemma mistral_sendChatRequest_noStatus request st :
  noStatus (fst (sendChatRequest request st)).
Proof.
  unfold Mistral.sendChatRequest.
  destruct (messages request) as [|m ms]; [reflexivity|].
  unfold bind at 1.
  match goal with |- context [match ?m st with _ => _ end] =>
    destruct (m st) as [[sent|e] st1] eqn:E end.
  - unfold tryCatch, bind, perform.
    destruct (chat_complete C client _ _ maxTokens (remote st1)) as [[response|e] c'].
    + destruct (choice0_message response); cbn; [exact I | reflexivity].
    + cbn. apply mapApiError_noStatus.
  - exfalso. destruct (file_ids request) as [|fileId rest]; [discriminate E|].
    unfold bind in E.
    destruct (attachFiles_total C client (fileId :: rest) documentHeader st)
      as (suffix & st' & Ha).
    rewrite Ha in E. discriminate E.
Qed.

End MistralCallFacts.

(** X9.  Every error that [uploadFiles], [extractTextFromFile] and
    [sendChatRequest] of the Mistral adapter reject with is a fresh [Error]
    that carries no [status]: the status of the provider's answer (401, 429,
    400, ...) only selects the message. *)
Theorem mistral_errors_carry_no_status :
  forall (C : Type) (client : Mistral.Client C) (maxTokens : Z) (st : Mistral.State C),
    (forall files, noStatus (fst (Mistral.uploadFiles C client files st))) /\
    (forall fileId, noStatus (fst (Mistral.extractTextFromFile C client fileId st))) /\
    (forall request, noStatus (fst (Mistral.sendChatRequest C client maxTokens request st))).
Proof.
  intros C client maxTokens st. split; [|split].
  - intros files. apply mistral_uploadFiles_noStatus.
  - intros fileId. apply mistral_extractTextFromFile_noStatus.
  - intros request. apply mistral_sendChatRequest_noStatus.
Qed.



(** X11.  When the last message of the request is not the user's, the
    Mistral adapter sends the messages exactly as they came: the text of the
    attached files is dropped, although every file went through OCR (and was
    deleted when a text was extracted). *)
Theorem mistral_sendChatRequest_drops_context :
  forall (C : Type) (client : Mistral.Client C) (maxTokens : Z) (request : ChatRequest)
         (init : list StandardizedMessage) (last : StandardizedMessage)
         (st : Mistral.State C),
    messages request = (init ++ [last])%list ->
    role last <> "user" ->
    exists extracted,
      length extracted = length (file_ids request) /\
      Mistral.calls (snd (Mistral.sendChatRequest C client maxTokens request st))
      = (Mistral.calls st ++ fileCallsOf (file_ids request) extracted
         ++ [Mistral.CallChat (modelOrDefault (model request)) (messages request)
               maxTokens])%list.
Proof.
  intros C client maxTokens request init last st Hmsgs Hrole.
  assert (Hm : messages request <> []) by (rewrite Hmsgs; now destruct init).
  rewrite (sendChatRequest_calls C client maxTokens request st Hm).
  destruct (file_ids request) as [|fileId rest] eqn:Eids.
  - exists []. cbn. auto.
  - destruct (attachFiles_calls C client (fileId :: rest) Mistral.documentHeader st)
      as (extracted & Hlen & Hcalls).
    destruct (attachFiles_total C client (fileId :: rest) Mistral.documentHeader st)
      as (suffix & st1 & Ha).
    rewrite Ha in Hcalls |- *. cbn [snd] in Hcalls.
    exists extracted. split; [exact Hlen|].
    rewrite Hcalls, <- app_assoc, Hmsgs, appendToLastUser_snoc.
    apply String.eqb_neq in Hrole. now rewrite Hrole.
Qed.

Lemma mistral_sendChatRequest_drops_context_witness :
  let request := mkChatRequest [mkMessage "user" "summarize"; mkMessage "assistant" "ok"]
                   ["file-1"] "mistral-small" in
  exists extracted,
    length extracted = 1%nat /\
    Mistral.calls (snd (Mistral.sendChatRequest unit answeringMistral 4096 request
                          (Mistral.mkState tt [])))
    = (fileCallsOf ["file-1"] extracted
       ++ [Mistral.CallChat "mistral-small"
             [mkMessage "user" "summarize"; mkMessage "assistant" "ok"] 4096])%list.
Proof.
  intros request.
  apply (mistral_sendChatRequest_drops_context unit answeringMistral 4096 request
           [mkMessage "user" "summarize"] (mkMessage "assistant" "ok")
           (Mistral.mkState tt [])).
  - reflexivity.
  - discriminate.
Defined.

(** X12.  When [uploadFiles] of the Mistral adapter resolves, it made one
    upload call per file, in order and with the file's name and content, and
    it returns one entry per file, in order, with the file's name and size;
    no file of the batch was empty or of an unsupported name. *)
Theorem mistral_uploadFiles_success :
  forall (C : Type) (client : Mistral.Client C) (files : list UploadFile)
         (results : list UploadedFile) (st st' : Mistral.State C),
    Mistral.uploadFiles C client files st = (Ok results, st') ->
    List.map up_name results = List.map originalname files /\
    List.map up_size results = List.map size files /\
    Mistral.calls st' = (Mistral.calls st ++ uploadCallsOf files)%list /\
    files <> [] /\
    (forall f, In f files -> ~ refused f).
Proof.
  intros C client files results st st' H.
  assert (Hall : forall f, In f files -> ~ refused f).
  { intros f Hin Hf.
    pose proof (mistral_upload_refused C client files f st Hin Hf) as He.
    rewrite H in He. discriminate. }
  unfold Mistral.uploadFiles in H.
  destruct files as [|first rest]; [discriminate|].
  destruct (DocumentExtractor.validateFile (buffer first) (originalname first)) as [[]|e];
    [|discriminate].
  destruct (uploadLoop_ok C client _ _ _ _ _ H) as (news & -> & Hn & Hs & Hc).
  cbn [app]. repeat split; auto.
Qed.

Lemma mistral_uploadFiles_success_witness :
  let files := [mkUploadFile [Byte.x61] "report.pdf" 1; mkUploadFile [Byte.x61] "scan.png" 1] in
  let results := [mkUploadedFile "report.pdf" 1 "file-1"; mkUploadedFile "scan.png" 1 "file-1"] in
  List.map up_name results = ["report.pdf"; "scan.png"] /\
  forall f, In f files -> ~ refused f.
Proof.
  intros files results.
  destruct (mistral_uploadFiles_success unit answeringMistral files results
              (Mistral.mkState tt [])
              (Mistral.mkState tt [Mistral.CallUpload "report.pdf" [Byte.x61];
                                   Mistral.CallUpload "scan.png" [Byte.x61]]) eq_refl)
    as (Hnames & _ & _ & _ & Hvalid).
  split; [exact Hnames | exact Hvalid].
Defined.

(** ** The store: what an update touches, and what is read back *)


(** X13.  An update of the store for one user leaves the row of every other
    user as it was, and creates no row: [addRequest], [addRequestWithFiles],
    [addTokens] and [addCost] on a user without a row change nothing (only
    [ensureUserExists] inserts, and only when the row is missing). *)
Theorem db_updates_touch_only_the_user :
  forall (user_name : string) (tokens_to_add : Z) (cost_to_add : Q) (store : Db.Store),
    let after (m : Async Db.Store unit) := Db.users (snd (m store)) in
    (forall other, other <> user_name ->
        after (Db.ensureUserExists user_name) !! other = Db.users store !! other /\
        after (Db.addRequest user_name) !! other = Db.users store !! other /\
        after (Db.addRequestWithFiles user_name) !! other = Db.users store !! other /\
        after (Db.addTokens user_name tokens_to_add) !! other = Db.users store !! other /\
        after (Db.addCost user_name cost_to_add) !! other = Db.users store !! other) /\
    (Db.users store !! user_name = None ->
        after (Db.addRequest user_name) !! user_name = None /\
        after (Db.addRequestWithFiles user_name) !! user_name = None /\
        after (Db.addTokens user_name tokens_to_add) !! user_name = None /\
        after (Db.addCost user_name cost_to_add) !! user_name = None) /\
    (forall row, Db.users store !! user_name = Some row ->
        after (Db.ensureUserExists user_name) = Db.users store).
Proof.
  intros user_name tokens_to_add cost_to_add [[e|] users] after; subst after;
    unfold Db.ensureUserExists, Db.addRequest, Db.addRequestWithFiles, Db.addTokens,
      Db.addCost, Db.update, Db.connectDB, bind; cbn [Db.connectError Db.users snd].
  - repeat split; auto.
  - split; [|split].
    + intros other Hne.
      rewrite !lookup_alter_ne by congruence.
      repeat split; try reflexivity.
      destruct (users !! user_name); cbn [snd Db.users Db.connectError]; [reflexivity|].
      now rewrite lookup_insert_ne by congruence.
    + intros Hnone. rewrite !lookup_alter_eq, Hnone. cbn. auto.
    + intros row Hrow. now rewrite Hrow.
Qed.



(** ** Permissions *)

(** X15.  [getPermissionsForCurrentUser] never rejects and denies by default:
    a right is granted only when the user name is not empty, the store can be
    reached and the user's row holds the flag; with an empty name the store
    is not touched, and a user met for the first time gets a row and no
    right. *)
Theorem getPermissionsForCurrentUser_denies_by_default :
  forall (username : string) (store : Db.Store),
    exists flags store',
      Permissions.getPermissionsForCurrentUser username store = (Ok flags, store') /\
      (Db.FeatureFlags.canUseApp flags = true ->
       username <> "" /\ Db.connectError store = None /\
       exists row, Db.users store !! username = Some row /\ Db.canUseApp row = true) /\
      (Db.FeatureFlags.canImportFiles flags = true ->
       username <> "" /\ Db.connectError store = None /\
       exists row, Db.users store !! username = Some row /\ Db.canImportFiles row = true) /\
      (username = "" \/ Db.connectError store <> None -> store' = store) /\
      (username <> "" -> Db.connectError store = None ->
       Db.users store !! username = None ->
       flags = Permissions.denyAll /\
       Db.users store' = <[username := Db.defaultRow]> (Db.users store)) /\
      (forall row, username <> "" -> Db.connectError store = None ->
       Db.users store !! username = Some row ->
       flags = Db.FeatureFlags.mk (Db.canUseApp row) (Db.canImportFiles row) /\
       store' = store).
Proof.
  intros username [ce users]. unfold Permissions.getPermissionsForCurrentUser.
  destruct (String.eqb_spec username "") as [->|Hne].
  { eexists _, _. split; [reflexivity|]. cbn.
    repeat split; try discriminate; try congruence; tauto. }
  destruct ce as [e|].
  { eexists _, _. split; [reflexivity|]. cbn.
    repeat split; try discriminate; try congruence. }
  unfold tryCatch. erewrite bind_ok by apply ensureUserExists_run.
  unfold Db.getPermissions, Db.connectDB, Db.selectRow, bind, ret.
  cbn [Db.connectError Db.users]. rewrite lookup_ensureRow.
  unfold ensuredRow, ensureRow.
  destruct (users !! username) as [row|] eqn:Hrow; cbn [default].
  - eexists _, _. split; [reflexivity|]. cbn.
    repeat split; eauto; try congruence; try (intros [H|H]; congruence).
  - eexists _, _. split; [reflexivity|]. cbn.
    repeat split; try discriminate; try congruence; try (intros [H|H]; congruence).
Qed.

(** ** Cleaning the provider's storage *)

Section MistralCleanupFacts.
Import Mistral.
Variable C : Type.
Variable client : Client C.

Lemma deleteLoop_run files deleted0 failed0 st :
  exists result,
    fst (deleteLoop C client files deleted0 failed0 st) = Ok result /\
    deleted0 <= deleted result /\ failed0 <= failed result /\
    (deleted result - deleted0) + (failed result - failed0) = Z.of_nat (length files) /\
    calls (snd (deleteLoop C client files deleted0 failed0 st))
    = (calls st ++ List.map (fun f => CallDelete (id f)) files)%list.
Proof.
  revert deleted0 failed0 st.
  induction files as [|file rest IH]; intros deleted0 failed0 st.
  - exists (mkCleanupResult deleted0 failed0). cbn. rewrite app_nil_r.
    repeat split; lia.
  - cbn [deleteLoop]. unfold bind at 1, tryCatch, bind, perform, ret.
    destruct (files_delete C client (id file) (remote st)) as [[[]|e] c']; cbn [fst snd].
    + destruct (IH (deleted0 + 1) failed0 (mkState c' (calls st ++ [CallDelete (id file)])))
        as (result & Hr & Hd & Hf & Hsum & Hcalls).
      exists result. rewrite Hr, Hcalls. cbn [calls List.map length].
      rewrite <- app_assoc. repeat split; lia.
    + destruct (IH deleted0 (failed0 + 1) (mkState c' (calls st ++ [CallDelete (id file)])))
        as (result & Hr & Hd & Hf & Hsum & Hcalls).
      exists result. rewrite Hr, Hcalls. cbn [calls List.map length].
      rewrite <- app_assoc. repeat split; lia.
Qed.

End MistralCleanupFacts.

(** X16.  [deleteAllFiles] of the Mistral adapter never rejects.  When the
    listing answers, it asks for the deletion of every listed file, once and
    in the order of the list, going on after a deletion that fails, and its
    two counters add up to the number of files listed.  When the listing
    fails it makes no deletion and resolves to zero deleted, zero failed, as
    it does for an empty listing. *)
Theorem mistral_deleteAllFiles_attempts_every_file :
  forall (C : Type) (client : Mistral.Client C)
         (files_list : C -> Res (option (list Mistral.StoredFile)) * C)
         (st : Mistral.State C),
    let run := Mistral.deleteAllFiles C client files_list st in
    exists result,
      fst run = Ok result /\
      0 <= Mistral.deleted result /\ 0 <= Mistral.failed result /\
      match fst (files_list (Mistral.remote st)) with
      | Ok response =>
          let files := Pricing.nullish response [] in
          Mistral.deleted result + Mistral.failed result = Z.of_nat (length files) /\
          Mistral.calls (snd run)
          = (Mistral.calls st
             ++ List.map (fun f => Mistral.CallDelete (Mistral.id f)) files)%list
      | Err _ =>
          result = Mistral.mkCleanupResult 0 0 /\
          Mistral.calls (snd run) = Mistral.calls st
      end.
Proof.
  intros C client files_list st run. subst run.
  unfold Mistral.deleteAllFiles, tryCatch, bind, Mistral.listFiles. cbn beta.
  destruct (files_list (Mistral.remote st)) as [[response|e] c']; cbn [fst snd].
  - destruct (Pricing.nullish response []) as [|file rest] eqn:Efiles.
    + exists (Mistral.mkCleanupResult 0 0). cbn. rewrite app_nil_r.
      repeat split; lia.
    + destruct (deleteLoop_run C client (file :: rest) 0 0 (Mistral.mkState c' (Mistral.calls st)))
        as (result & Hr & Hd & Hf & Hsum & Hcalls).
      exists result.
      destruct (Mistral.deleteLoop C client (file :: rest) 0 0 _) as [[r|e] st'];
        cbn [fst snd] in *; [|discriminate].
      repeat split; try assumption; try lia.
  - exists (Mistral.mkCleanupResult 0 0). cbn. repeat split; lia.
Qed.

Section DeleteFilesFacts.
Context {A : Type} {adapter : BaseAdapter A}.

Lemma deleteFilesLoop_app pre post a :
  ChatService.deleteFilesLoop (pre ++ post) a =
  match ChatService.deleteFilesLoop pre a with
  | (Ok _, a1) => ChatService.deleteFilesLoop post a1
  | (Err e, a1) => (Err e, a1)
  end.
Proof.
  revert a. induction pre as [|fileId pre IH]; intros a; [reflexivity|].
  cbn [app ChatService.deleteFilesLoop]. unfold bind.
  destruct (ChatService.deleteFile fileId a) as [[[]|e] a1]; [apply IH|reflexivity].
Qed.

End DeleteFilesFacts.

Lemma mistral_deleteFilesLoop_run (C : Type) (client : Mistral.Client C) (maxTokens : Z)
  fileIds st :
  fst (ChatService.deleteFilesLoop (adapter := Mistral.adapter client maxTokens) fileIds st)
  = Ok tt /\
  Mistral.calls
    (snd (ChatService.deleteFilesLoop (adapter := Mistral.adapter client maxTokens) fileIds st))
  = (Mistral.calls st ++ List.map Mistral.CallDelete fileIds)%list.
Proof.
  revert st. induction fileIds as [|fileId rest IH]; intros st.
  - cbn. now rewrite app_nil_r.
  - cbn [ChatService.deleteFilesLoop]. unfold bind, ChatService.deleteFile.
    cbn [deleteFile Mistral.adapter]. rewrite mistral_deleteFile_run.
    destruct (IH (Mistral.mkState (snd (Mistral.files_delete C client fileId (Mistral.remote st)))
                    (Mistral.calls st ++ [Mistral.CallDelete fileId]))) as [Hr Hc].
    rewrite Hr, Hc. cbn [Mistral.calls List.map]. now rewrite <- app_assoc.
Qed.

(** X17.  [deleteFiles] of the service deletes in order and stops at the
    first deletion that the adapter rejects: it rejects with that error and
    the files after it are not asked for.  It resolves without any call for
    an argument that is not an array or is empty.  With the Mistral adapter
    it never rejects and asks for every file; with the ChatGPT adapter it
    rejects on every non-empty array, before any call to the provider. *)
Theorem deleteFiles_stops_at_first_failure :
  forall (A : Type) (adapter : BaseAdapter A),
    (forall a, ChatService.deleteFiles None a = (Ok tt, a) /\
               ChatService.deleteFiles (Some []) a = (Ok tt, a)) /\
    (forall pre bad post a a1 e a2,
        ChatService.deleteFilesLoop pre a = (Ok tt, a1) ->
        deleteFile bad a1 = (Err e, a2) ->
        ChatService.deleteFiles (Some (pre ++ bad :: post)%list) a = (Err e, a2)) /\
    (forall (C : Type) (client : Mistral.Client C) (maxTokens : Z) fileIds st,
        let run := ChatService.deleteFiles (adapter := Mistral.adapter client maxTokens)
                     (Some fileIds) st in
        fst run = Ok tt /\
        Mistral.calls (snd run)
        = (Mistral.calls st ++ List.map Mistral.CallDelete fileIds)%list) /\
    (forall (C : Type) (fileClient : ChatGPT.Client C) (client : ChatGPT.ChatClient C)
            (maxOutputTokens : Z) (trim toUpperCase : string -> string)
            fileId rest (st : ChatGPT.ChatState C),
        ChatService.deleteFiles
          (adapter := ChatGPT.adapter fileClient client maxOutputTokens trim toUpperCase)
          (Some (fileId :: rest)) st
        = (Err ChatGPT.deleteUnsupportedError, st)).
Proof.
  intros A adapter. split; [|split; [|split]]; cycle 3.
  { intros C fileClient client maxOutputTokens trim toUpperCase fileId rest [files chatCalls].
    reflexivity. }
  - intros a. split; reflexivity.
  - intros pre bad post a a1 e a2 Hpre Hbad.
    assert (Hloop : ChatService.deleteFilesLoop (pre ++ bad :: post) a = (Err e, a2)).
    { rewrite deleteFilesLoop_app, Hpre. cbn [ChatService.deleteFilesLoop].
      unfold bind, ChatService.deleteFile. now rewrite Hbad. }
    unfold ChatService.deleteFiles.
    destruct (pre ++ bad :: post)%list eqn:E; [now destruct pre|exact Hloop].
  - intros C client maxTokens fileIds st run. subst run.
    destruct fileIds as [|fileId rest].
    + cbn. now rewrite app_nil_r.
    + apply mistral_deleteFilesLoop_run.
Qed.

Lemma deleteFiles_stops_at_first_failure_witness :
  ChatService.deleteFiles (adapter := lockingAdapter) (Some ["a"; "locked"; "b"]) []
  = (Err (newError "locked"), ["a"; "locked"]).
Proof.
  destruct (deleteFiles_stops_at_first_failure (list string) lockingAdapter)
    as (_ & Hstop & _ & _).
  apply (Hstop ["a"] "locked" ["b"] [] ["a"] (newError "locked") ["a"; "locked"]);
    reflexivity.
Defined.

(** ** The routes *)

Lemma errorStatus_range err fallback :
  400 <= Server.errorStatus err fallback <= 599.
Proof.
  unfold Server.errorStatus.
  destruct (400 <=? Pricing.nullish (status err) fallback) eqn:E1;
    destruct (Pricing.nullish (status err) fallback <=? 599) eqn:E2; cbn [andb]; lia.
Qed.

Lemma errorStatus_noStatus err fallback :
  status err = None ->
  Server.errorStatus err fallback
  = if (400 <=? fallback) && (fallback <=? 599) then fallback else 500.
Proof. intros H. unfold Server.errorStatus. now rewrite H. Qed.

Lemma normalizeRequest_error rawRequest model e :
  ChatService._normalizeRequest rawRequest model = Err e ->
  e = ChatService.missingInputError.
Proof.
  destruct rawRequest as [prompt msgs ids]. unfold ChatService._normalizeRequest.
  cbn [ChatService.raw_messages ChatService.raw_prompt ChatService.raw_file_ids].
  destruct msgs as [[|m ms]|]; destruct prompt as [p|];
    try destruct (String.eqb p ""); intros H; try discriminate H; congruence.
Qed.

Lemma processChatRequest_noStatus {A : Type} (adapter : BaseAdapter A) costLimit username
  rawRequest model w :
  Db.connectError (ChatService.db w) = None ->
  (forall request a, noStatus (fst (sendChatRequest request a))) ->
  noStatus (fst (ChatService.processChatRequest costLimit username rawRequest model w)).
Proof.
  intros Hc Hadapter.
  rewrite (processChatRequest_run costLimit username rawRequest model w Hc). cbv zeta.
  destruct (js_ge _ _); [exact I|].
  destruct (ChatService._normalizeRequest rawRequest model) as [request|e] eqn:Hn.
  - pose proof (Hadapter request (ChatService.adapter_state w)) as H.
    destruct (sendChatRequest request (ChatService.adapter_state w)) as [[response|e] a'];
      [exact I | exact H].
  - rewrite (normalizeRequest_error _ _ _ Hn). reflexivity.
Qed.

(** X18.  The chat route answers 200 exactly when [processChatRequest]
    resolves (a request refused for the cost limit included), and a status
    between 400 and 599 with the message of the error otherwise.  With the
    Mistral adapter and a store that can be reached the status of a failure
    is always 500: the errors of the adapter and the missing-input error
    carry no status, so that neither a rate limit (429) of the provider nor
    an empty request (400) is told apart. *)
Theorem handleChatRequest_status :
  forall (A : Type) (adapter : BaseAdapter A) (costLimit : Q) (username : string)
         (reqBody : ChatService.RawRequest) (model : string) (w : ChatService.World A),
    let result := ChatService.processChatRequest costLimit username reqBody model w in
    let answer := Server.handleChatRequest costLimit username reqBody model w in
    snd answer = snd result /\
    match fst result with
    | Ok response => fst answer = Server.mkHttpResponse 200 (Server.ChatBody response)
    | Err err =>
        400 <= Server.statusCode (fst answer) <= 599 /\
        Server.body (fst answer) = Server.ErrorBody "ChatError" (message err)
    end /\
    (forall (C : Type) (client : Mistral.Client C) (maxTokens : Z)
            (wm : ChatService.World (Mistral.State C)),
        Db.connectError (ChatService.db wm) = None ->
        let code := Server.statusCode
                      (fst (Server.handleChatRequest
                              (adapter := Mistral.adapter client maxTokens)
                              costLimit username reqBody model wm)) in
        code = 200 \/ code = 500).
Proof.
  intros A adapter costLimit username reqBody model w result answer.
  subst result answer. unfold Server.handleChatRequest.
  split; [|split].
  - destruct (ChatService.processChatRequest _ _ _ _ w) as [[response|err] w']; reflexivity.
  - destruct (ChatService.processChatRequest _ _ _ _ w) as [[response|err] w'];
      cbn [fst Server.statusCode Server.body]; [reflexivity|].
    split; [apply errorStatus_range | reflexivity].
  - intros C client maxTokens wm Hc.
    pose proof (processChatRequest_noStatus (Mistral.adapter client maxTokens)
                  costLimit username reqBody model wm Hc
                  (mistral_sendChatRequest_noStatus C client maxTokens)) as H.
    destruct (ChatService.processChatRequest _ _ _ _ wm) as [[response|err] w'];
      cbn [fst Server.statusCode]; [now left|right].
    cbn in H. now rewrite (errorStatus_noStatus err 500 H).
Qed.

Lemma handleChatRequest_status_witness :
  Server.statusCode
    (fst (Server.handleChatRequest (adapter := Mistral.adapter rateLimitedMistral 4096)
            2%Q "tbo" promptHello "mistral-large-latest"
            (ChatService.mkWorld (storeOf 0%Q) (Mistral.mkState tt []) []))) = 500.
Proof.
  destruct (handleChatRequest_status (Mistral.State unit)
              (Mistral.adapter rateLimitedMistral 4096) 2%Q "tbo" promptHello
              "mistral-large-latest"
              (ChatService.mkWorld (storeOf 0%Q) (Mistral.mkState tt []) []))
    as (_ & _ & Hmistral).
  destruct (Hmistral unit rateLimitedMistral 4096
              (ChatService.mkWorld (storeOf 0%Q) (Mistral.mkState tt []) []) eq_refl)
    as [H|H]; [|exact H].
  vm_compute in H. discriminate H.
Defined.


(** ** The frontend: history window and payload *)

Lemma slice_skipn {X} (start : Z) (items : list X) :
  exists k, Frontend.slice start items = skipn k items /\
            (start < 0 -> k = (length items - Z.to_nat (- start))%nat) /\
            (0 <= start -> k = Nat.min (Z.to_nat start) (length items)).
Proof.
  unfold Frontend.slice. cbv zeta.
  destruct (Z.ltb_spec start 0).
  - eexists. split; [reflexivity|]. split; [intros _; lia | lia].
  - eexists. split; [reflexivity|]. split; [lia | intros _; lia].
Qed.

Lemma slice_last {X} (limit : Z) (init : list X) (last : X) :
  0 < limit ->
  exists before, Frontend.slice (- limit) (init ++ [last]) = (before ++ [last])%list.
Proof.
  intros Hpos. destruct (slice_skipn (- limit) (init ++ [last])) as (k & -> & Hk & _).
  rewrite Hk by lia. clear Hk. rewrite length_app. cbn [length].
  replace (length init + 1 - Z.to_nat (- - limit))%nat
    with (length init - (Z.to_nat limit - 1))%nat by lia.
  rewrite skipn_app.
  replace (length init - (Z.to_nat limit - 1) - length init)%nat with 0%nat by lia.
  eexists. reflexivity.
Qed.

(** X20.  [History.getLast(limit)] returns a suffix of the history, in order:
    its last [limit] items when [limit] is positive (all of them when there
    are fewer), so that the message just added by [add] is the last one
    returned.  For [limit] 0 it returns the whole history, not nothing, and
    for a negative [limit] the history without its first [-limit] items. *)
Theorem history_getLast_suffix :
  forall (limit : Z) (items : list Frontend.ChatMessage),
    (exists older, items = (older ++ Frontend.History.getLast limit items)%list) /\
    (0 < limit ->
     length (Frontend.History.getLast limit items)
     = Nat.min (Z.to_nat limit) (length items)) /\
    (forall newId now sender text, 0 < limit ->
        let added := Frontend.History.add newId now sender text items in
        exists before,
          Frontend.History.getLast limit (snd added) = (before ++ [fst added])%list) /\
    Frontend.History.getLast 0 items = items /\
    (limit < 0 -> Frontend.History.getLast limit items = skipn (Z.to_nat (- limit)) items).
Proof.
  intros limit items. unfold Frontend.History.getLast.
  split; [|split; [|split; [|split]]].
  - destruct (slice_skipn (- limit) items) as (k & -> & _).
    exists (firstn k items). now rewrite firstn_skipn.
  - intros Hpos. destruct (slice_skipn (- limit) items) as (k & -> & Hk & _).
    rewrite length_skipn, Hk by lia. rewrite Z.opp_involutive. lia.
  - intros newId now sender text Hpos. unfold Frontend.History.add. cbn [fst snd].
    now apply slice_last.
  - destruct (slice_skipn (- 0) items) as (k & -> & _ & Hk).
    now rewrite Hk by reflexivity.
  - intros Hneg. destruct (slice_skipn (- limit) items) as (k & -> & _ & Hk).
    rewrite Hk by lia.
    destruct (Nat.min_spec (Z.to_nat (- limit)) (length items)) as [[_ ->]|[Hle ->]];
      [reflexivity|].
    now rewrite !skipn_all2 by lia.
Qed.

Lemma history_getLast_suffix_witness :
  let m (n : Z) := Frontend.mkChatMessage "id" Frontend.user "text" n in
  Frontend.History.getLast (-1) [m 1; m 2; m 3] = [m 2; m 3].
Proof.
  intros m.
  destruct (history_getLast_suffix (-1) [m 1; m 2; m 3]) as (_ & _ & _ & _ & H).
  apply H. reflexivity.
Defined.

Lemma normalize_sent_messages (ms : list StandardizedMessage) :
  Forall (fun m => role m <> "") ms ->
  List.map (fun m : ChatService.RawMessage =>
              mkMessage (ChatService.roleOrUser (ChatService.raw_role m))
                        (ChatService.messageText (ChatService.raw_content m)))
           (List.map (fun m => ChatService.mkRawMessage (Some (role m))
                                 (ChatService.ContentString (content m))) ms)
  = ms.
Proof.
  induction 1 as [|[r c] ms Hr _ IH]; [reflexivity|].
  cbn [List.map ChatService.raw_role ChatService.raw_content ChatService.roleOrUser
       ChatService.messageText role content] in *.
  rewrite IH. apply String.eqb_neq in Hr. now rewrite Hr.
Qed.

(** X21.  The payload that [buildMessagesForLLM] builds starts with the
    system prompt, holds at most 18 messages (the prompt, the instruction
    of the filter when there is one, and the last 16 items of the history),
    and ends with the latest item of the history when there is one.  Posted
    to the chat route it always normalizes: [_normalizeRequest] returns
    these very messages and file ids, and never fails for missing input. *)
Theorem buildMessagesForLLM_accepted :
  forall (SYSTEM_PROMPT : string) (items : list Frontend.ChatMessage)
         (fileIds : list string) (filtre : option Frontend.FiltreContext) (model0 : string),
    let payload := Frontend.buildMessagesForLLM SYSTEM_PROMPT items fileIds filtre in
    hd_error (Frontend.messages payload) = Some (mkMessage "system" SYSTEM_PROMPT) /\
    (length (Frontend.messages payload) <= 18)%nat /\
    (forall init last, items = (init ++ [last])%list ->
        exists before, Frontend.messages payload = (before ++ [sentMessage last])%list) /\
    ChatService._normalizeRequest (Frontend.chatBody payload) model0
    = Ok (mkChatRequest (Frontend.messages payload) fileIds model0).
Proof.
  intros SYSTEM_PROMPT items fileIds filtre model0 payload. subst payload.
  unfold Frontend.buildMessagesForLLM. cbv zeta.
  set (last := Frontend.History.getLast Frontend.HISTORY_WINDOW items).
  set (history := List.map _ last).
  set (head := match Frontend.formatPromptFromFiltre filtre with
               | Some instruction =>
                   if String.eqb instruction "" then [mkMessage "system" SYSTEM_PROMPT]
                   else ([mkMessage "system" SYSTEM_PROMPT]
                         ++ [mkMessage "system" instruction])%list
               | None => [mkMessage "system" SYSTEM_PROMPT]
               end).
  assert (Hhead : exists rest, head = mkMessage "system" SYSTEM_PROMPT :: rest /\
                               (length rest <= 1)%nat /\
                               Forall (fun m => role m <> "") head).
  { subst head. destruct (Frontend.formatPromptFromFiltre filtre) as [i|];
      [destruct (String.eqb i "")|]; eexists; (split; [reflexivity|]);
      (split; [cbn; lia|]); repeat constructor; discriminate. }
  destruct Hhead as (rest & Hhead & Hlen & Hroles).
  assert (Hhist : Forall (fun m => role m <> "") history).
  { subst history. induction last as [|x xs IHxs]; constructor; [|exact IHxs].
    cbn. destruct (Frontend.sender x); discriminate. }
  assert (Hlast : (length last <= 16)%nat).
  { subst last. unfold Frontend.History.getLast.
    destruct (slice_skipn (- Frontend.HISTORY_WINDOW) items) as (k & -> & Hk & _).
    rewrite length_skipn, Hk by reflexivity.
    change (Z.to_nat (- - Frontend.HISTORY_WINDOW)) with 16%nat. lia. }
  cbn [Frontend.messages Frontend.file_ids].
  split; [now rewrite Hhead|].
  split; [rewrite length_app, Hhead; subst history; rewrite length_map; cbn [length]; lia|].
  split.
  - intros init lst ->. subst history last. unfold Frontend.History.getLast.
    destruct (slice_last Frontend.HISTORY_WINDOW init lst eq_refl) as (before & ->).
    rewrite List.map_app. cbn [List.map]. eexists. rewrite app_assoc. reflexivity.
  - unfold ChatService._normalizeRequest, Frontend.chatBody.
    cbn [ChatService.raw_messages ChatService.raw_prompt ChatService.raw_file_ids
         Frontend.messages Frontend.file_ids Pricing.nullish].
    assert (Hall : Forall (fun m => role m <> "") (head ++ history))
      by (apply Forall_app; split; assumption).
    destruct (List.map _ (head ++ history)) as [|raw raws] eqn:E.
    { rewrite Hhead in E. discriminate E. }
    rewrite <- E. now rewrite (normalize_sent_messages _ Hall).
Qed.

(** ** The ChatGPT adapter: the chat side *)

Section ChatGPTChatFacts.
Import ChatGPT.
Variable C : Type.
Variable client : ChatClient C.
Variable maxOutputTokens : Z.
Variables trim toUpperCase : string -> string.

Local Abbreviation _hasNonPdf := (_hasNonPdf C client).
Local Abbreviation sendChatRequest :=
  (sendChatRequest C client maxOutputTokens trim toUpperCase).

Lemma hasNonPdf_run file_ids st :
  exists b st' retrieved,
    _hasNonPdf file_ids st = (Ok b, st') /\
    (b = false -> allKnownPdf st' file_ids) /\
    (forall id meta, fileMetaById (files st) !! id = Some meta ->
                     fileMetaById (files st') !! id = Some meta) /\
    chatCalls st' = (chatCalls st ++ List.map CallRetrieve retrieved)%list /\
    (forall id, In id retrieved -> In id file_ids /\ fileMetaById (files st) !! id = None) /\
    calls (files st') = calls (files st).
Proof.
  revert st. induction file_ids as [|fid rest IH]; intros st.
  - exists false, st, []. cbn [List.map]. rewrite app_nil_r.
    split; [reflexivity|]. split; [intros _ fid []|]. split; [auto|].
    split; [reflexivity|]. split; [intros fid []|reflexivity].
  - cbn [ChatGPT._hasNonPdf].
    destruct (fileMetaById (files st) !! fid) as [[name ext]|] eqn:Emeta.
    + cbn [snd]. destruct (String.eqb_spec ext "pdf") as [->|Hext]; cbn [negb].
      * destruct (IH st) as (b & st' & retrieved & Hrun & Hpdf & Hkeep & Hcalls & Hret & Hfiles).
        exists b, st', retrieved. rewrite Hrun.
        repeat split; auto.
        -- intros Hb id [<-|Hin]; [exists name; now apply Hkeep | now apply Hpdf].
        -- right. now apply Hret.
        -- now apply Hret.
      * exists true, st, []. cbn [List.map]. rewrite app_nil_r.
        split; [reflexivity|]. split; [discriminate|]. split; [auto|].
        split; [reflexivity|]. split; [intros fid' []|reflexivity].
    + unfold performChat.
      destruct (files_retrieve C client fid (remote (files st))) as [[f|e] c'] eqn:Eret.
      * unfold onFiles, setMeta. cbn [snd files chatCalls fileMetaById remote calls].
        set (name := Pricing.nullish f "").
        set (ext := JsString.toLowerCase (JsString.splitPop name)).
        set (st2 := mkChatState _ _).
        assert (Hkeep2 : forall id meta, fileMetaById (files st) !! id = Some meta ->
                                         fileMetaById (files st2) !! id = Some meta).
        { intros id meta H. subst st2. cbn.
          rewrite lookup_insert_ne; [exact H|]. intros <-. congruence. }
        destruct (String.eqb_spec ext "pdf") as [Hext|Hext]; cbn [negb].
        -- destruct (IH st2) as (b & st' & retrieved & Hrun & Hpdf & Hkeep & Hcalls & Hret & Hfiles).
           exists b, st', (fid :: retrieved). rewrite Hrun.
           split; [reflexivity|]. split; [|split; [|split; [|split]]].
           ++ intros Hb id [<-|Hin]; [|now apply Hpdf].
              exists name. apply Hkeep. subst st2. cbn. rewrite lookup_insert_eq.
              now rewrite Hext.
           ++ intros id meta H. apply Hkeep, Hkeep2, H.
           ++ rewrite Hcalls. subst st2. cbn. now rewrite <- app_assoc.
           ++ intros id [<-|Hin]; [split; [now left | exact Emeta]|].
              destruct (Hret id Hin) as [Hin' Hnone]. split; [now right|].
              subst st2. cbn in Hnone.
              destruct (decide (fid = id)) as [<-|Hne]; [exact Emeta|].
              now rewrite lookup_insert_ne in Hnone.
           ++ rewrite Hfiles. reflexivity.
        -- exists true, st2, [fid]. split; [reflexivity|].
           split; [discriminate|]. split; [exact Hkeep2|].
           split; [reflexivity|]. split; [|reflexivity].
           intros id [<-|[]]. split; [now left | exact Emeta].
      * eexists true, _, [fid]. split; [reflexivity|].
        split; [discriminate|]. split; [auto|].
        split; [reflexivity|]. split; [|reflexivity].
        intros id [<-|[]]. split; [now left | exact Emeta].
Qed.

Lemma hasNonPdf_known file_ids st :
  allKnownPdf st file_ids -> _hasNonPdf file_ids st = (Ok false, st).
Proof.
  induction file_ids as [|fid rest IH]; intros Hall; [reflexivity|].
  cbn [ChatGPT._hasNonPdf].
  destruct (Hall fid (or_introl eq_refl)) as [name ->]. cbn.
  apply IH. intros id Hin. apply Hall. now right.
Qed.

Lemma orEmptyReply_nonempty t : orEmptyReply t <> "".
Proof.
  unfold orEmptyReply. destruct (String.eqb_spec t ""); [discriminate|assumption].
Qed.

Lemma handleChatCompletions_run messages file_ids model st :
  let inputForChat :=
    (List.map (fun m => mkChatInput (role m) [TextPart (content m)]) messages
     ++ match file_ids with
        | [] => []
        | _ => [mkChatInput "user"
                  (TextPart "Voici les fichiers à prendre en compte :"
                   :: List.map FilePart file_ids)]
        end)%list in
  let run := _handleChatCompletions C client maxOutputTokens trim messages file_ids model st in
  chatCalls (snd run)
  = (chatCalls st ++ [CallCompletions model inputForChat maxOutputTokens])%list /\
  calls (files (snd run)) = calls (files st) /\
  match fst (completions_create C client model inputForChat maxOutputTokens
               (remote (files st))) with
  | Ok answer => exists response, fst run = Ok response /\ resp_content response <> ""
  | Err e => fst run = Err e
  end.
Proof.
  intros inputForChat run. subst run.
  unfold _handleChatCompletions, bind, performChat, ret. fold inputForChat.
  destruct (completions_create C client model inputForChat maxOutputTokens
              (remote (files st))) as [[answer|e] c']; cbn [fst snd chatCalls files calls].
  - split; [reflexivity|]. split; [reflexivity|].
    eexists. split; [reflexivity|]. apply orEmptyReply_nonempty.
  - auto.
Qed.

Lemma dropVectorStore_run vectorStore st :
  exists st',
    dropVectorStore C client vectorStore st = (Ok tt, st') /\
    calls (files st') = calls (files st) /\
    chatCalls st' =
      (chatCalls st ++ match vectorStore with
                       | Some id => if negb (String.eqb id "")
                                    then [CallVectorStoreDelete id] else []
                       | None => []
                       end)%list.
Proof.
  unfold dropVectorStore.
  destruct vectorStore as [id|]; [destruct (negb (String.eqb id ""))|].
  - unfold tryCatch, performChat, ret.
    destruct (vectorStores_delete C client id (remote (files st))) as [[[]|e] c'];
      eexists; (split; [reflexivity|]); split; reflexivity.
  - exists st. cbn. now rewrite app_nil_r.
  - exists st. cbn. now rewrite app_nil_r.
Qed.

End ChatGPTChatFacts.

(** X22.  [_hasNonPdf] of the ChatGPT adapter never rejects and answers
    [false] only when every file is known as a PDF.  It looks up
    ([files.retrieve]) only files it has no metadata for, and treats a file
    whose lookup fails as not a PDF.  Files it already knows as PDFs cost no
    call. *)
Theorem chatgpt_hasNonPdf_prudent :
  forall (C : Type) (client : ChatGPT.ChatClient C) (file_ids : list string)
         (st : ChatGPT.ChatState C),
    exists b st' retrieved,
      ChatGPT._hasNonPdf C client file_ids st = (Ok b, st') /\
      (b = false -> allKnownPdf st' file_ids) /\
      (allKnownPdf st file_ids -> b = false /\ st' = st) /\
      ChatGPT.chatCalls st'
      = (ChatGPT.chatCalls st ++ List.map ChatGPT.CallRetrieve retrieved)%list /\
      (forall id, In id retrieved ->
         In id file_ids /\ ChatGPT.fileMetaById (ChatGPT.files st) !! id = None) /\
      (forall fid rest e c',
         file_ids = fid :: rest ->
         ChatGPT.fileMetaById (ChatGPT.files st) !! fid = None ->
         ChatGPT.files_retrieve C client fid (ChatGPT.remote (ChatGPT.files st)) = (Err e, c') ->
         b = true /\ retrieved = [fid]).
Proof.
  intros C client file_ids st.
  destruct (hasNonPdf_run C client file_ids st)
    as (b & st' & retrieved & Hrun & Hpdf & _ & Hcalls & Hret & _).
  exists b, st', retrieved.
  split; [exact Hrun|]. split; [exact Hpdf|].
  split; [|split; [exact Hcalls|split; [exact Hret|]]].
  - intros Hall. rewrite (hasNonPdf_known C client file_ids st Hall) in Hrun.
    injection Hrun as <- <-. auto.
  - intros fid rest e c' -> Hnone Hfail.
    cbn [ChatGPT._hasNonPdf] in Hrun. rewrite Hnone in Hrun.
    unfold ChatGPT.performChat in Hrun. rewrite Hfail in Hrun.
    injection Hrun as <- <-. cbn [ChatGPT.chatCalls] in Hcalls.
    apply app_inv_head in Hcalls. split; [reflexivity|].
    destruct retrieved as [|r1 [|r2 rs]]; try discriminate Hcalls.
    now injection Hcalls as <-.
Qed.

Lemma chatgpt_send_known_pdf (C : Type) (client : ChatGPT.ChatClient C) (maxOutputTokens : Z)
  (trim toUpperCase : string -> string) (request : ChatRequest) (st : ChatGPT.ChatState C) :
  messages request <> [] ->
  allKnownPdf st (file_ids request) ->
  let run := ChatGPT.sendChatRequest C client maxOutputTokens trim toUpperCase request st in
  ChatGPT.chatCalls (snd run)
  = (ChatGPT.chatCalls st
     ++ [ChatGPT.CallCompletions (model request) (completionsInput request)
           maxOutputTokens])%list /\
  match fst (ChatGPT.completions_create C client (model request)
               (completionsInput request) maxOutputTokens
               (ChatGPT.remote (ChatGPT.files st))) with
  | Ok _ => exists response, fst run = Ok response /\ resp_content response <> ""
  | Err e => fst run = Err e
  end.
Proof.
  intros Hm Hall run. subst run.
  unfold ChatGPT.sendChatRequest.
  destruct (messages request) as [|m ms] eqn:Em; [contradiction|]. rewrite <- Em. clear Hm.
  assert (Hdispatch :
            (await hasNonPdfFiles :=
               match file_ids request with
               | [] => ret false
               | _ :: _ => ChatGPT._hasNonPdf C client (file_ids request)
               end in
             if hasNonPdfFiles
             then ChatGPT._handleResponsesFileSearch C client maxOutputTokens trim toUpperCase
                    (messages request) (file_ids request) (model request)
             else ChatGPT._handleChatCompletions C client maxOutputTokens trim
                    (messages request) (file_ids request) (model request)) st
            = ChatGPT._handleChatCompletions C client maxOutputTokens trim
                (messages request) (file_ids request) (model request) st).
  { unfold bind at 1. destruct (file_ids request) as [|fid rest] eqn:Eids; [reflexivity|].
    now rewrite (hasNonPdf_known C client (fid :: rest) st Hall). }
  rewrite Hdispatch.
  destruct (handleChatCompletions_run C client maxOutputTokens trim
              (messages request) (file_ids request) (model request) st)
    as (Hcalls & _ & Hout).
  split; [exact Hcalls | exact Hout].
Qed.

Lemma chatgpt_send_known_other (C : Type) (client : ChatGPT.ChatClient C) (maxOutputTokens : Z)
  (trim toUpperCase : string -> string) (request : ChatRequest) (st : ChatGPT.ChatState C)
  fid rest name ext :
  messages request <> [] ->
  file_ids request = fid :: rest ->
  ChatGPT.fileMetaById (ChatGPT.files st) !! fid = Some (name, ext) ->
  ext <> "pdf" ->
  exists later,
    ChatGPT.chatCalls
      (snd (ChatGPT.sendChatRequest C client maxOutputTokens trim toUpperCase request st))
    = (ChatGPT.chatCalls st ++ ChatGPT.CallVectorStoreCreate :: later)%list.
Proof.
  intros Hm Eids Hmeta Hext.
  unfold ChatGPT.sendChatRequest.
  destruct (messages request) as [|m ms] eqn:Em; [contradiction|]. rewrite <- Em. clear Hm.
  unfold bind at 1. rewrite Eids. cbn [ChatGPT._hasNonPdf]. rewrite Hmeta. cbn [snd].
  apply String.eqb_neq in Hext. rewrite Hext. cbn [negb].
  unfold ChatGPT._handleResponsesFileSearch, ChatGPT._createVectorStoreWithFiles.
  unfold bind at 1. unfold ChatGPT.performChat at 1.
  destruct (ChatGPT.vectorStores_create C client (ChatGPT.remote (ChatGPT.files st)))
    as [[vs|e] c1].
  - unfold bind at 1. unfold ChatGPT.performChat at 1.
    cbn [ChatGPT.files ChatGPT.remote ChatGPT.chatCalls ChatGPT.calls ChatGPT.fileMetaById].
    destruct (ChatGPT.fileBatches_createAndPoll C client vs (fid :: rest) c1) as [[[]|e] c2].
    + unfold ret at 1.
      match goal with |- context [ChatGPT.askResponses _ _ _ _ _ ?ms ?md ?v ?s] =>
        destruct (ChatGPT.askResponses C client maxOutputTokens trim toUpperCase ms md v s)
          as [r st2] eqn:Eask end.
      destruct (dropVectorStore_run C client (Some vs) st2) as (st3 & Hdrop & _ & Hcalls3).
      rewrite Hdrop. cbn [snd]. rewrite Hcalls3.
      assert (Hask : exists mid, ChatGPT.chatCalls st2
                     = (ChatGPT.chatCalls st ++ [ChatGPT.CallVectorStoreCreate]
                        ++ mid)%list).
      { unfold ChatGPT.askResponses, bind, ChatGPT.performChat in Eask.
        cbn [ChatGPT.files ChatGPT.remote ChatGPT.chatCalls] in Eask.
        match type of Eask with context [ChatGPT.responses_create ?a ?b ?c ?d ?e ?f ?g] =>
          destruct (ChatGPT.responses_create a b c d e f g) as [[answer|e'] c3] end;
          injection Eask as _ <-; cbn [ChatGPT.chatCalls]; rewrite <- !app_assoc;
          eexists; reflexivity. }
      destruct Hask as (mid & ->). rewrite <- !app_assoc. cbn [app]. eexists. reflexivity.
    + cbn [ChatGPT.dropVectorStore ret snd ChatGPT.chatCalls].
      rewrite <- !app_assoc. cbn [app]. eexists. reflexivity.
  - cbn [ChatGPT.dropVectorStore ret snd ChatGPT.chatCalls]. eexists. reflexivity.
Qed.

(** X23.  [sendChatRequest] of the ChatGPT adapter, on a request with
    messages whose attached files (if any) are all known as PDFs, makes one
    call, to Chat Completions, with one text message per message of the
    request followed, when files are attached, by a user message that lists
    them; no vector store is created.  When it resolves, the content is not
    empty.  When the first attached file is known with another extension,
    the first call creates a vector store instead. *)
Theorem chatgpt_sendChatRequest_routes :
  forall (C : Type) (client : ChatGPT.ChatClient C) (maxOutputTokens : Z)
         (trim toUpperCase : string -> string) (request : ChatRequest)
         (st : ChatGPT.ChatState C),
    messages request <> [] ->
    let run := ChatGPT.sendChatRequest C client maxOutputTokens trim toUpperCase request st in
    (allKnownPdf st (file_ids request) ->
     ChatGPT.chatCalls (snd run)
     = (ChatGPT.chatCalls st
        ++ [ChatGPT.CallCompletions (model request) (completionsInput request)
              maxOutputTokens])%list /\
     match fst (ChatGPT.completions_create C client (model request)
                  (completionsInput request) maxOutputTokens
                  (ChatGPT.remote (ChatGPT.files st))) with
     | Ok _ => exists response, fst run = Ok response /\ resp_content response <> ""
     | Err e => fst run = Err e
     end) /\
    (forall fid rest name ext,
        file_ids request = fid :: rest ->
        ChatGPT.fileMetaById (ChatGPT.files st) !! fid = Some (name, ext) ->
        ext <> "pdf" ->
        exists later,
          ChatGPT.chatCalls (snd run)
          = (ChatGPT.chatCalls st ++ ChatGPT.CallVectorStoreCreate :: later)%list).
Proof.
  intros C client maxOutputTokens trim toUpperCase request st Hm run. subst run.
  split.
  - intros Hall. now apply chatgpt_send_known_pdf.
  - intros fid rest name ext Eids Hmeta Hext.
    now apply chatgpt_send_known_other with fid rest name ext.
Qed.

(** X24.  The vector store of [_handleResponsesFileSearch].  Once the store
    is created and the files are attached to it, the adapter asks the
    Responses API once, with that store, and then deletes the store, once,
    whether the Responses API answered or failed; the outcome is that of the
    Responses API (a non-empty content when it answers), also when the
    deletion fails.  But when attaching the files fails, the request rejects
    with that error and the store just created is never deleted. *)
Theorem chatgpt_vector_store_lifecycle :
  forall (C : Type) (client : ChatGPT.ChatClient C) (maxOutputTokens : Z)
         (trim toUpperCase : string -> string)
         (messages : list StandardizedMessage) (file_ids : list string) (model : string)
         (st : ChatGPT.ChatState C) (vectorStore : string) (c1 : C),
    file_ids <> [] ->
    vectorStore <> "" ->
    ChatGPT.vectorStores_create C client (ChatGPT.remote (ChatGPT.files st))
    = (Ok vectorStore, c1) ->
    let run := ChatGPT._handleResponsesFileSearch C client maxOutputTokens trim toUpperCase
                 messages file_ids model st in
    match ChatGPT.fileBatches_createAndPoll C client vectorStore file_ids c1 with
    | (Err e, _) =>
        fst run = Err e /\
        ChatGPT.chatCalls (snd run)
        = (ChatGPT.chatCalls st
           ++ [ChatGPT.CallVectorStoreCreate;
               ChatGPT.CallCreateAndPoll vectorStore file_ids])%list
    | (Ok _, c2) =>
        exists input,
          input <> "" /\
          ChatGPT.chatCalls (snd run)
          = (ChatGPT.chatCalls st
             ++ [ChatGPT.CallVectorStoreCreate;
                 ChatGPT.CallCreateAndPoll vectorStore file_ids;
                 ChatGPT.CallResponses model input [vectorStore] maxOutputTokens;
                 ChatGPT.CallVectorStoreDelete vectorStore])%list /\
          match fst (ChatGPT.responses_create C client model input [vectorStore]
                       maxOutputTokens c2) with
          | Ok _ => exists response, fst run = Ok response /\ resp_content response <> ""
          | Err e => fst run = Err e
          end
    end.
Proof.
  intros C client maxOutputTokens trim toUpperCase messages file_ids model st vectorStore c1
         Hids Hvs Hcreate run. subst run.
  remember (ChatGPT._handleResponsesFileSearch C client maxOutputTokens trim toUpperCase
              messages file_ids model st) as res eqn:Eres.
  unfold ChatGPT._handleResponsesFileSearch, ChatGPT._createVectorStoreWithFiles in Eres.
  destruct file_ids as [|fid rest]; [contradiction|]. clear Hids.
  unfold bind, ChatGPT.performChat in Eres. rewrite Hcreate in Eres.
  cbn [ChatGPT.files ChatGPT.remote ChatGPT.chatCalls ChatGPT.calls ChatGPT.fileMetaById]
    in Eres.
  apply String.eqb_neq in Hvs.
  destruct (ChatGPT.fileBatches_createAndPoll C client vectorStore (fid :: rest) c1)
    as [[[]|e] c2].
  - unfold ret, ChatGPT.askResponses, bind, ChatGPT.performChat in Eres.
    cbn [ChatGPT.files ChatGPT.remote ChatGPT.chatCalls ChatGPT.calls ChatGPT.fileMetaById]
      in Eres.
    set (prompt := ChatGPT.userPrompt trim toUpperCase messages) in Eres.
    set (input := if (String.length prompt =? 0)%nat then ChatGPT.emptyPromptInput else prompt)
      in Eres.
    assert (Hinput : input <> "").
    { subst input. destruct (Nat.eqb_spec (String.length prompt) 0) as [E|E]; [discriminate|].
      intros Hp. rewrite Hp in E. now apply E. }
    exists input. split; [exact Hinput|].
    destruct (ChatGPT.responses_create C client model input [vectorStore] maxOutputTokens c2)
      as [[answer|e] c3]; unfold ret in Eres; cbn [fst] in Eres |- *.
    + match type of Eres with context [ChatGPT.dropVectorStore _ _ _ ?s] =>
        destruct (dropVectorStore_run C client (Some vectorStore) s) as (st3 & Hdrop & _ & Hcalls)
      end.
      rewrite Hdrop in Eres. subst res.
      rewrite Hvs in Hcalls. cbn [negb ChatGPT.chatCalls] in Hcalls.
      cbn [fst snd]. rewrite Hcalls, <- !app_assoc. split; [reflexivity|].
      eexists. split; [reflexivity|]. apply orEmptyReply_nonempty.
    + match type of Eres with context [ChatGPT.dropVectorStore _ _ _ ?s] =>
        destruct (dropVectorStore_run C client (Some vectorStore) s) as (st3 & Hdrop & _ & Hcalls)
      end.
      rewrite Hdrop in Eres. subst res.
      rewrite Hvs in Hcalls. cbn [negb ChatGPT.chatCalls] in Hcalls.
      cbn [fst snd]. rewrite Hcalls, <- !app_assoc. split; reflexivity.
  - cbn [ChatGPT.dropVectorStore ret] in Eres. subst res.
    cbn [fst snd ChatGPT.chatCalls]. rewrite <- !app_assoc. split; reflexivity.
Qed.

Lemma chatgpt_vector_store_lifecycle_witness :
  let st := ChatGPT.mkChatState (ChatGPT.mkState tt [] ∅) [] in
  let trim := JsString.trim in
  let toUpperCase := asciiToUpperCase in
  let ask := [mkMessage "user" "summarize"] in
  (* attaching the files fails: the store [vs-1] stays *)
  (let run := ChatGPT._handleResponsesFileSearch unit pollFailingOpenAI 4096 trim toUpperCase
                ask ["file-1"] "gpt-5" st in
   fst run = Err (newError "poll failed") /\
   ChatGPT.chatCalls (snd run)
   = [ChatGPT.CallVectorStoreCreate; ChatGPT.CallCreateAndPoll "vs-1" ["file-1"]]) /\
  (* the deletion fails: the answer is kept *)
  (let run := ChatGPT._handleResponsesFileSearch unit answeringOpenAI 4096 trim toUpperCase
                ask ["file-1"] "gpt-5" st in
   exists response, fst run = Ok response /\ resp_content response <> "").
Proof.
  intros st trim toUpperCase ask. split.
  - exact (chatgpt_vector_store_lifecycle unit pollFailingOpenAI 4096 trim toUpperCase
             ask ["file-1"] "gpt-5" st "vs-1" tt ltac:(discriminate) ltac:(discriminate)
             eq_refl).
  - destruct (chatgpt_vector_store_lifecycle unit answeringOpenAI 4096 trim toUpperCase
                ask ["file-1"] "gpt-5" st "vs-1" tt ltac:(discriminate) ltac:(discriminate)
                eq_refl) as (input & _ & _ & Hout).
    exact Hout.
Defined.

Lemma chatgpt_sendChatRequest_routes_witness :
  let st := ChatGPT.mkChatState (ChatGPT.mkState tt [] {[ "file-1" := ("report.pdf", "pdf") ]}) [] in
  let request := mkChatRequest [mkMessage "user" "summarize"] ["file-1"] "gpt-5" in
  ChatGPT.chatCalls
    (snd (ChatGPT.sendChatRequest unit answeringOpenAI 4096 JsString.trim asciiToUpperCase
            request st))
  = [ChatGPT.CallCompletions "gpt-5" (completionsInput request) 4096].
Proof.
  intros st request.
  destruct (chatgpt_sendChatRequest_routes unit answeringOpenAI 4096 JsString.trim
              asciiToUpperCase request st ltac:(discriminate)) as (Hpdf & _).
  apply Hpdf. intros id [<-|[]]. exists "report.pdf". reflexivity.
Defined.

Lemma chatgpt_upload_one_meta (C : Type) (fileClient : ChatGPT.Client C) f st results st1 :
  ChatGPT.uploadFiles C fileClient [f] st = (Ok results, st1) ->
  exists uploadedId,
    results = [mkUploadedFile (originalname f) (size f) uploadedId] /\
    ChatGPT.fileMetaById st1 !! uploadedId
    = Some (originalname f, JsString.toLowerCase (JsString.splitPop (originalname f))).
Proof.
  unfold ChatGPT.uploadFiles. cbn [ChatGPT.uploadLoop].
  unfold bind, ChatGPT.perform, ChatGPT.setMeta, ret.
  destruct (ChatGPT.files_create C fileClient (originalname f) (buffer f) (ChatGPT.remote st))
    as [[uploadedId|e] c']; [|discriminate].
  intros H. injection H as <- <-. exists uploadedId. split; [reflexivity|].
  cbn. apply lookup_insert_eq.
Qed.

(** X25.  Upload, then chat, with the ChatGPT adapter: a file that
    [uploadFiles] has put at the provider is routed by the extension of its
    name, lower-cased, without asking the provider about it.  A [pdf] goes
    to Chat Completions, in one call; any other file starts a vector
    store. *)
Theorem chatgpt_uploaded_file_routes :
  forall (C : Type) (fileClient : ChatGPT.Client C) (client : ChatGPT.ChatClient C)
         (maxOutputTokens : Z) (trim toUpperCase : string -> string)
         (f : UploadFile) (st st1 : ChatGPT.ChatState C) (results : list UploadedFile)
         (request : ChatRequest),
    ChatGPT.onFiles C (ChatGPT.uploadFiles C fileClient [f]) st = (Ok results, st1) ->
    messages request <> [] ->
    file_ids request = List.map file_id results ->
    let ext := JsString.toLowerCase (JsString.splitPop (originalname f)) in
    let run := ChatGPT.sendChatRequest C client maxOutputTokens trim toUpperCase request st1 in
    (ext = "pdf" ->
     ChatGPT.chatCalls (snd run)
     = (ChatGPT.chatCalls st
        ++ [ChatGPT.CallCompletions (model request) (completionsInput request)
              maxOutputTokens])%list) /\
    (ext <> "pdf" ->
     exists later,
       ChatGPT.chatCalls (snd run)
       = (ChatGPT.chatCalls st ++ ChatGPT.CallVectorStoreCreate :: later)%list).
Proof.
  intros C fileClient client maxOutputTokens trim toUpperCase f st st1 results request
         Hup Hm Hids ext run. subst run.
  unfold ChatGPT.onFiles in Hup.
  destruct (ChatGPT.uploadFiles C fileClient [f] (ChatGPT.files st)) as [r files1] eqn:E.
  injection Hup as -> <-.
  destruct (chatgpt_upload_one_meta C fileClient f _ _ _ E) as (uploadedId & -> & Hmeta).
  cbn [List.map file_id] in Hids. fold ext in Hmeta.
  split.
  - intros Hext. rewrite Hext in Hmeta.
    apply (chatgpt_send_known_pdf C client maxOutputTokens trim toUpperCase request
             (ChatGPT.mkChatState files1 (ChatGPT.chatCalls st)) Hm).
    rewrite Hids. intros id [<-|[]]. eexists. exact Hmeta.
  - intros Hext.
    exact (chatgpt_send_known_other C client maxOutputTokens trim toUpperCase request
             (ChatGPT.mkChatState files1 (ChatGPT.chatCalls st))
             uploadedId [] (originalname f) ext Hm Hids Hmeta Hext).
Qed.

Lemma chatgpt_uploaded_file_routes_witness :
  let st := ChatGPT.mkChatState (ChatGPT.mkState tt [] ∅) [] in
  let f := mkUploadFile [Byte.x61] "Report.PDF" 1 in
  let request := mkChatRequest [mkMessage "user" "summarize"] ["file-1"] "gpt-5" in
  let st1 := snd (ChatGPT.onFiles unit (ChatGPT.uploadFiles unit acceptingOpenAI [f]) st) in
  ChatGPT.chatCalls
    (snd (ChatGPT.sendChatRequest unit answeringOpenAI 4096 JsString.trim asciiToUpperCase
            request st1))
  = [ChatGPT.CallCompletions "gpt-5" (completionsInput request) 4096].
Proof.
  intros st f request st1.
  destruct (chatgpt_uploaded_file_routes unit acceptingOpenAI answeringOpenAI 4096
              JsString.trim asciiToUpperCase f st st1
              [mkUploadedFile "Report.PDF" 1 "file-1"] request
              eq_refl ltac:(discriminate) eq_refl) as (Hpdf & _).
  apply Hpdf. reflexivity.
Defined.

(** ** The frontend: attachments *)

Lemma dedupe_head (a : Frontend.UseAttachments.FileTokenAttachment) l :
  Frontend.UseAttachments.dedupe [] (a :: l)
  = a :: Frontend.UseAttachments.dedupe [Frontend.UseAttachments.key a] l.
Proof. reflexivity. Qed.

(** X26.  [addFromDialog] never holds more than one attachment, and what is
    already attached wins: with a file attached, picking another one leaves
    the attachment as it was (and says that one file is the maximum, unless
    the same file was picked again).  With nothing attached, the first file
    picked becomes the attachment; the other files picked are dropped.  To
    replace the attachment it has to be removed first: after
    [removeSelected] the file picked is taken. *)
Theorem addFromDialog_keeps_existing :
  forall (st : Frontend.UseAttachments.State)
         (x : Frontend.UseAttachments.FileTokenAttachment)
         (xs : list Frontend.UseAttachments.FileTokenAttachment),
    let result := Frontend.UseAttachments.addFromDialog (Ok (Some (x :: xs))) st in
    (length (Frontend.UseAttachments.attachments (fst result)) <= 1)%nat /\
    (forall a rest, Frontend.UseAttachments.attachments st = a :: rest ->
        Frontend.UseAttachments.attachments (fst result) = [a] /\
        Frontend.UseAttachments.selectedIdx (fst result) = 0) /\
    (forall a, Frontend.UseAttachments.attachments st = [a] ->
        snd result
        = if String.eqb (Frontend.UseAttachments.key x) (Frontend.UseAttachments.key a)
          then None else Some Frontend.UseAttachments.tooManyMessage) /\
    (Frontend.UseAttachments.attachments st = [] ->
        result = (Frontend.UseAttachments.mkState [x] 0, None)) /\
    (forall a, st = Frontend.UseAttachments.mkState [a] 0 ->
        Frontend.UseAttachments.addFromDialog (Ok (Some (x :: xs)))
          (Frontend.UseAttachments.removeSelected st)
        = (Frontend.UseAttachments.mkState [x] 0, None)).
Proof.
  intros st x xs result.
  assert (Hreplace : forall a, st = Frontend.UseAttachments.mkState [a] 0 ->
             Frontend.UseAttachments.addFromDialog (Ok (Some (x :: xs)))
               (Frontend.UseAttachments.removeSelected st)
             = (Frontend.UseAttachments.mkState [x] 0, None)).
  { intros a ->. reflexivity. }
  revert Hreplace. subst result. destruct st as [attached idx]. intros Hreplace.
  unfold Frontend.UseAttachments.addFromDialog.
  change (firstn (Z.to_nat Frontend.MAX_FILES) (x :: xs)) with [x].
  cbn [Frontend.UseAttachments.attachments].
  destruct attached as [|a rest].
  - cbn [app]. rewrite dedupe_head. cbn [Frontend.UseAttachments.dedupe length].
    change (Frontend.MAX_FILES <? Z.of_nat 1) with false. cbn.
    repeat split; try lia; try discriminate.
  - cbn [app]. rewrite dedupe_head.
    set (tl := Frontend.UseAttachments.dedupe _ _).
    assert (Hfirst : (if Frontend.MAX_FILES <? Z.of_nat (length (a :: tl))
                      then firstn (Z.to_nat Frontend.MAX_FILES) (a :: tl) else a :: tl) = [a]).
    { destruct tl as [|b tl']; [reflexivity|].
      replace (Frontend.MAX_FILES <? Z.of_nat (length (a :: b :: tl'))) with true;
        [reflexivity|].
      symmetry. apply Z.ltb_lt. unfold Frontend.MAX_FILES. cbn [length]. lia. }
    rewrite Hfirst. cbn [fst snd Frontend.UseAttachments.attachments
                         Frontend.UseAttachments.selectedIdx length].
    split; [lia|]. split; [|split; [|split; [discriminate | exact Hreplace]]].
    + intros a' rest' H. injection H as <- <-. split; reflexivity.
    + intros a' H. injection H as <- ->. subst tl. cbn [app Frontend.UseAttachments.dedupe existsb].
      rewrite orb_false_r.
      destruct (String.eqb (Frontend.UseAttachments.key x) (Frontend.UseAttachments.key a));
        reflexivity.
Qed.

(** ** The chat service: one request after another *)


